(** * Rotating file log backend (file.go of package logging)

    A shallow embedding of [FileBackend] and of its operations, and the
    properties of the rotation policy, the archiver, the active file, the
    retention sweep and the facade that the specification states.

    Conventions of the embedding.
    - Go's [int] and [int64] are 64-bit two's complement integers: they
      are carried as [Z], and every addition, subtraction and
      multiplication the source performs goes through [wrap64].
    - Go's [string] is a [string] and [[]byte] is a [list byte].
    - A Go [error] is its message; [nil] is [None].
    - The operating system, the clock and [filepath.Walk] are an
      interface, [OS]: the development is parametric in it, and a
      scripted instance serves for the concrete runs.
    - The two mutexes are not modelled: every operation is one atomic
      step of a sequential run.  Goroutines started with [go] are
      recorded as effects, and their bodies are functions of their own. *)

From Stdlib Require Import ZArith List Bool Lia.
From Stdlib.Strings Require Import String Ascii Byte.
Import ListNotations.

Local Open Scope string_scope.
Local Open Scope list_scope.
Local Open Scope Z_scope.

(** ** Go's machine integers *)

Definition wrap64 (z : Z) : Z := (z + 2 ^ 63) mod 2 ^ 64 - 2 ^ 63.

Definition min_int : Z := - 2 ^ 63.
Definition max_int : Z := 2 ^ 63 - 1.

Definition int_add (a b : Z) : Z := wrap64 (a + b).
Definition int_sub (a b : Z) : Z := wrap64 (a - b).
Definition int_mul (a b : Z) : Z := wrap64 (a * b).

(** [len] of a slice or of a string, as an [int]. *)
Definition len {A : Type} (l : list A) : Z := Z.of_nat (List.length l).
Definition slen (s : string) : Z := Z.of_nat (String.length s).

(** ** Errors *)

Definition error : Type := string.

(** [fmt.Errorf] and friends with [%s] verbs are concatenations. *)
Definition errors_New (s : string) : error := s.

(** ** time.Time

    The backend reads three things off a [time.Time]: the day of the
    month ([Day]), the calendar date ([Format] with layout 2006-01-02)
    and the Unix time in seconds ([Unix]). *)

Record Time : Type := mkTime {
  t_year : Z;
  t_month : Z;
  t_day : Z;
  t_unix : Z
}.

Definition Day (t : Time) : Z := t_day t.
Definition Unix (t : Time) : Z := t_unix t.

(** Decimal digits of a natural number, most significant first. *)
Fixpoint digits (fuel : nat) (n : N) (acc : string) : string :=
  match fuel with
  | O => acc
  | S f =>
      let acc' := String (ascii_of_N (48 + n mod 10)) acc in
      if (n / 10 =? 0)%N then acc' else digits f (n / 10)%N acc'
  end.

Definition itoa (n : N) : string := digits (S (N.to_nat (N.log2 n))) n "".

Fixpoint zeros (k : nat) : string :=
  match k with
  | O => ""
  | S k' => String "0" (zeros k')
  end.

(** [appendInt] of package time: a sign for a negative number, then the
    digits padded with zeros up to [width].  On a number that is not
    negative this is also [%0<width>d] of package fmt. *)
Definition pad_dec (width : nat) (x : Z) : string :=
  let d := itoa (Z.to_N (Z.abs x)) in
  (if x <? 0 then "-" else "") ++ zeros (width - String.length d) ++ d.

(** [t.Format("2006-01-02")]. *)
Definition Format_date (t : Time) : string :=
  pad_dec 4 (t_year t) ++ "-" ++ pad_dec 2 (t_month t) ++ "-" ++ pad_dec 2 (t_day t).

(** ** Package strings and path/filepath (Unix) *)

Definition HasPrefix (s pre : string) : bool := String.prefix pre s.

Definition HasSuffix (s suf : string) : bool :=
  (String.length suf <=? String.length s)%nat &&
  String.eqb (substring (String.length s - String.length suf) (String.length suf) s) suf.

Definition TrimSuffix (s suf : string) : string :=
  if HasSuffix s suf then substring 0 (String.length s - String.length suf) s else s.

Definition IsPathSeparator (c : ascii) : bool := Ascii.eqb c "/".

(** [filepath.Ext]: the loop runs [i] from [len(path)-1] down while
    [path[i]] is not a separator, and returns [path[i:]] at the first dot. *)
Fixpoint Ext_loop (path : string) (i : nat) : string :=
  match i with
  | O => ""
  | S j =>
      match String.get j path with
      | Some c =>
          if IsPathSeparator c then ""
          else if Ascii.eqb c "." then substring j (String.length path - j) path
          else Ext_loop path j
      | None => ""
      end
  end.

Definition Ext (path : string) : string := Ext_loop path (String.length path).

(** Index after the last separator among the first [i] bytes of [path]. *)
Fixpoint after_last_sep (path : string) (i : nat) : nat :=
  match i with
  | O => O
  | S j =>
      match String.get j path with
      | Some c => if IsPathSeparator c then i else after_last_sep path j
      | None => after_last_sep path j
      end
  end.

(** [filepath.Split]: directory part (with its final separator) and file. *)
Definition Split (path : string) : string * string :=
  let i := after_last_sep path (String.length path) in
  (substring 0 i path, substring i (String.length path - i) path).

(** Length of [path] once its trailing separators are stripped. *)
Fixpoint strip_trailing_seps (path : string) (i : nat) : nat :=
  match i with
  | O => O
  | S j =>
      match String.get j path with
      | Some c => if IsPathSeparator c then strip_trailing_seps path j else i
      | None => i
      end
  end.

(** [filepath.Base]: the last element of [path]. *)
Definition Base (path : string) : string :=
  if String.eqb path "" then "."
  else
    let path1 := substring 0 (strip_trailing_seps path (String.length path)) path in
    let i := after_last_sep path1 (String.length path1) in
    let path2 := substring i (String.length path1 - i) path1 in
    if String.eqb path2 "" then "/" else path2.

(** ** colorRegexp

    [regexp.MustCompile("\x1b\\[[0-9]{1,2}m")]: ESC, an opening bracket,
    one or two decimal digits, and the letter m. *)

Definition bESC : byte := x1b.
Definition bLBracket : byte := x5b.
Definition b_m : byte := x6d.
Definition bNL : byte := x0a.

Definition isDigit (b : byte) : bool :=
  ((48 <=? Byte.to_N b) && (Byte.to_N b <=? 57))%N.

(** Length of the match of [colorRegexp] that starts at the head of [s],
    if there is one.  The fourth byte is either a digit or the final m,
    so at most one length matches. *)
Definition colorRegexp_matchLen (s : list byte) : option nat :=
  match s with
  | e :: l :: d1 :: x :: r =>
      if Byte.eqb e bESC && Byte.eqb l bLBracket && isDigit d1 then
        if Byte.eqb x b_m then Some 4%nat
        else if isDigit x then
          match r with
          | m :: _ => if Byte.eqb m b_m then Some 5%nat else None
          | [] => None
          end
        else None
      else None
  | _ => None
  end.

(** [colorRegexp.ReplaceAll(s, []byte{})]: the matches are searched from
    left to right, each search resuming after the previous match; the
    bytes of a match are dropped and every other byte is copied.
    [skip] counts the bytes of the current match still to be dropped. *)
Fixpoint ReplaceAll_from (skip : nat) (s : list byte) : list byte :=
  match s with
  | [] => []
  | b :: t =>
      match skip with
      | S k => ReplaceAll_from k t
      | O =>
          match colorRegexp_matchLen s with
          | Some n => ReplaceAll_from (Nat.pred n) t
          | None => b :: ReplaceAll_from 0 t
          end
      end
  end.

Definition colorRegexp_ReplaceAll_empty (s : list byte) : list byte :=
  ReplaceAll_from 0 s.

(** The words of the pattern, independently of the matcher. *)
Inductive ColorSeq : list byte -> Prop :=
  | ColorSeq1 (d : byte) :
      isDigit d = true -> ColorSeq [bESC; bLBracket; d; b_m]
  | ColorSeq2 (d1 d2 : byte) :
      isDigit d1 = true -> isDigit d2 = true ->
      ColorSeq [bESC; bLBracket; d1; d2; b_m].

(** What replacing every match by nothing means, as a relation. *)
Inductive Stripped : list byte -> list byte -> Prop :=
  | Stripped_nil : Stripped [] []
  | Stripped_match (c s r : list byte) :
      ColorSeq c -> Stripped s r -> Stripped (c ++ s) r
  | Stripped_keep (b : byte) (s r : list byte) :
      (forall c t, ColorSeq c -> b :: s <> c ++ t) ->
      Stripped s r -> Stripped (b :: s) (b :: r).

(** ** The operating system, the clock and the directory walk *)

Definition FileMode : Type := Z.

Record FileInfo : Type := mkFileInfo {
  fi_Size : Z;
  fi_ModTime : Time;
  fi_IsDir : bool
}.

(** What the successive [Read] calls on a file opened for reading return:
    a chunk of at most the buffer's length, and [nil], [io.EOF] or another
    error.  A regular file is finite, so the sequence is. *)
Inductive ReadStream : Type :=
  | ReadEOF (chunk : list byte)
  | ReadErr (chunk : list byte) (e : error)
  | ReadMore (chunk : list byte) (rest : ReadStream).

(** The calls the backend makes.  [Lstat], [Stat] and [Stat] on an open
    file read the world and leave it as it is; the other calls may change
    it.  Results that the source discards are left out. *)
Class OS : Type := mkOS {
  World : Type;
  File : Type;
  os_OpenFile : string -> Z -> FileMode -> World -> (File + error) * World;
  os_Open : string -> World -> (File * ReadStream + error) * World;
  os_Lstat : string -> World -> FileInfo + error;
  os_Stat : string -> World -> FileInfo + error;
  os_MkdirAll : string -> FileMode -> World -> World;
  os_Rename : string -> string -> World -> option error * World;
  os_Remove : string -> World -> World;
  File_Write : File -> list byte -> World -> option error * World;
  File_Stat : File -> World -> FileInfo + error;
  File_Sync : File -> World -> World;
  File_Close : File -> World -> World;
  time_Now : World -> Time * World;
  (** [filepath.Dir] cleans the path; it is only handed on to the walk. *)
  filepath_Dir : string -> string;
  (** The visits of [filepath.Walk] from a root, in order: the path, and
      the [os.FileInfo] handed to the callback, [None] for the nil one
      that comes with an [Lstat] error. *)
  filepath_Walk_visits : string -> World -> list (string * option FileInfo)
}.

(** Flags of [os.OpenFile] (Linux). *)
Definition O_WRONLY : Z := 1.
Definition O_CREATE : Z := 64.
Definition O_APPEND : Z := 1024.

(** [os.ErrInvalid], what the methods of a nil [*os.File] return. *)
Definition ErrInvalid : error := "invalid argument".

(** ** Channels *)

Record MsgChan : Type := mkMsgChan {
  ch_cap : Z;
  ch_buf : list (list byte);
  ch_closed : bool
}.

Record SignalChan : Type := mkSignalChan {
  sig_closed : bool
}.

(** A call either returns or panics. *)
Inductive outcome (A : Type) : Type :=
  | Done (a : A)
  | Panic (reason : string).
Arguments Done {A} a.
Arguments Panic {A} reason.

(** ** Log records (the formatter is outside this file) *)

Record Record_ : Type := mkRecord {
  Formatted : Z -> bool -> string;
  Time_ : Time
}.

Section Backend.

Context {os : OS}.

(** ** FileBackend *)

Record FileBackend : Type := mkFileBackend {
  status : Z;                      (* int8: 0 closed, 1 running *)
  Filename : string;
  fileWriter : option File;   (* *os.File, None is nil *)
  MaxLines : Z;
  maxLinesCurLines : Z;
  MaxSize : Z;
  maxSizeCurSize : Z;
  Daily : bool;
  MaxDays : Z;                     (* int64 *)
  dailyOpenDate : Z;
  Rotate : bool;
  Perm : FileMode;
  fileNameOnly : string;
  suffix : string;
  asyncMsgChan : option MsgChan;   (* None is the nil channel *)
  asyncSignalChan : option SignalChan
}.

Definition set_status (v : Z) (w : FileBackend) : FileBackend :=
  mkFileBackend v (Filename w) (fileWriter w) (MaxLines w) (maxLinesCurLines w)
    (MaxSize w) (maxSizeCurSize w) (Daily w) (MaxDays w) (dailyOpenDate w)
    (Rotate w) (Perm w) (fileNameOnly w) (suffix w) (asyncMsgChan w)
    (asyncSignalChan w).

Definition set_fileWriter (f : option File) (w : FileBackend) : FileBackend :=
  mkFileBackend (status w) (Filename w) f (MaxLines w) (maxLinesCurLines w)
    (MaxSize w) (maxSizeCurSize w) (Daily w) (MaxDays w) (dailyOpenDate w)
    (Rotate w) (Perm w) (fileNameOnly w) (suffix w) (asyncMsgChan w)
    (asyncSignalChan w).

Definition set_maxLinesCurLines (v : Z) (w : FileBackend) : FileBackend :=
  mkFileBackend (status w) (Filename w) (fileWriter w) (MaxLines w) v
    (MaxSize w) (maxSizeCurSize w) (Daily w) (MaxDays w) (dailyOpenDate w)
    (Rotate w) (Perm w) (fileNameOnly w) (suffix w) (asyncMsgChan w)
    (asyncSignalChan w).

Definition set_maxSizeCurSize (v : Z) (w : FileBackend) : FileBackend :=
  mkFileBackend (status w) (Filename w) (fileWriter w) (MaxLines w)
    (maxLinesCurLines w) (MaxSize w) v (Daily w) (MaxDays w) (dailyOpenDate w)
    (Rotate w) (Perm w) (fileNameOnly w) (suffix w) (asyncMsgChan w)
    (asyncSignalChan w).

Definition set_dailyOpenDate (v : Z) (w : FileBackend) : FileBackend :=
  mkFileBackend (status w) (Filename w) (fileWriter w) (MaxLines w)
    (maxLinesCurLines w) (MaxSize w) (maxSizeCurSize w) (Daily w) (MaxDays w) v
    (Rotate w) (Perm w) (fileNameOnly w) (suffix w) (asyncMsgChan w)
    (asyncSignalChan w).

Definition set_names (base suf : string) (w : FileBackend) : FileBackend :=
  mkFileBackend (status w) (Filename w) (fileWriter w) (MaxLines w)
    (maxLinesCurLines w) (MaxSize w) (maxSizeCurSize w) (Daily w) (MaxDays w)
    (dailyOpenDate w) (Rotate w) (Perm w) base suf (asyncMsgChan w)
    (asyncSignalChan w).

Definition set_chans (m : option MsgChan) (s : option SignalChan)
    (w : FileBackend) : FileBackend :=
  mkFileBackend (status w) (Filename w) (fileWriter w) (MaxLines w)
    (maxLinesCurLines w) (MaxSize w) (maxSizeCurSize w) (Daily w) (MaxDays w)
    (dailyOpenDate w) (Rotate w) (Perm w) (fileNameOnly w) (suffix w) m s.

(** ** Effects and program states *)

(** What goes to [os.Stderr]: which [Fprintf] it is, and its arguments. *)
Inductive Diag : Type :=
  | DiagRotate (filename : string) (err : error)
  | DiagWrite (msg : list byte) (err : error)
  | DiagDeleteOld (path : string) (recovered : string).

Inductive Goroutine : Type :=
  | GoConsumer
  | GoDeleteOldLog.

(** The calls that act on the world, in the order they are made. *)
Inductive Effect : Type :=
  | EOpenFile (name : string) (flag : Z) (perm : FileMode)
  | EOpen (name : string)
  | EMkdirAll (path : string) (perm : FileMode)
  | ERename (oldpath newpath : string)
  | ERemove (path : string)
  | EWrite (f : File) (msg : list byte)
  | ESync (f : File)
  | EClose (f : File)
  | EStderr (d : Diag)
  | EGo (g : Goroutine)
  | ESignal.

Record Sys : Type := mkSys {
  world : World;
  effects : list Effect
}.

(** A method of [*FileBackend] acts on the receiver and on the system. *)
Record State : Type := mkState {
  this : FileBackend;
  sys : Sys
}.

Definition M (A : Type) : Type := State -> A * State.

Definition ret {A : Type} (a : A) : M A := fun s => (a, s).

Definition bind {A B : Type} (m : M A) (k : A -> M B) : M B :=
  fun s => let (a, s') := m s in k a s'.

Notation "x <- m ;; k" := (bind m (fun x => k))
  (at level 61, m at next level, right associativity).
Notation "m ;;; k" := (bind m (fun _ => k))
  (at level 61, right associativity).

Definition get_this : M FileBackend := fun s => (this s, s).

Definition modify_this (f : FileBackend -> FileBackend) : M unit :=
  fun s => (tt, mkState (f (this s)) (sys s)).

Definition emit (e : Effect) : M unit :=
  fun s => (tt, mkState (this s) (mkSys (world (sys s)) (effects (sys s) ++ [e]))).

(** A call that reads the world. *)
Definition ask {A : Type} (f : World -> A) : M A :=
  fun s => (f (world (sys s)), s).

(** A call that acts on the world; [e] records it. *)
Definition act {A : Type} (e : Effect) (f : World -> A * World) : M A :=
  fun s =>
    let (a, wd) := f (world (sys s)) in
    (a, mkState (this s) (mkSys wd (effects (sys s) ++ [e]))).

Definition act_ (e : Effect) (f : World -> World) : M unit :=
  act e (fun wd => (tt, f wd)).

Definition when (b : bool) (m : M unit) : M unit := if b then m else ret tt.

(** *** The calls of the source *)

Definition OpenFile (name : string) (flag : Z) (perm : FileMode)
    : M (File + error) :=
  act (EOpenFile name flag perm) (os_OpenFile name flag perm).

Definition Lstat (name : string) : M (FileInfo + error) := ask (os_Lstat name).
Definition Stat (name : string) : M (FileInfo + error) := ask (os_Stat name).

Definition MkdirAll (path : string) (perm : FileMode) : M unit :=
  act_ (EMkdirAll path perm) (os_MkdirAll path perm).

Definition Rename (oldpath newpath : string) : M (option error) :=
  act (ERename oldpath newpath) (os_Rename oldpath newpath).

Definition Remove (path : string) : M unit :=
  act_ (ERemove path) (os_Remove path).

Definition Now : M Time :=
  fun s =>
    let (t, wd) := time_Now (world (sys s)) in
    (t, mkState (this s) (mkSys wd (effects (sys s)))).

(** Methods of [*os.File]; on a nil receiver they return [ErrInvalid]
    and do nothing. *)
Definition fd_Write (fd : option File) (msg : list byte) : M (option error) :=
  match fd with
  | Some f => act (EWrite f msg) (File_Write f msg)
  | None => ret (Some ErrInvalid)
  end.

Definition fd_Stat (fd : option File) : M (FileInfo + error) :=
  match fd with
  | Some f => ask (File_Stat f)
  | None => ret (inr ErrInvalid)
  end.

Definition fd_Sync (fd : option File) : M unit :=
  match fd with
  | Some f => act_ (ESync f) (File_Sync f)
  | None => ret tt
  end.

Definition fd_Close (fd : option File) : M unit :=
  match fd with
  | Some f => act_ (EClose f) (File_Close f)
  | None => ret tt
  end.

Definition Stderr (d : Diag) : M unit := emit (EStderr d).
Definition go (g : Goroutine) : M unit := emit (EGo g).

(** ** RotationPolicy *)

Definition needRotate (w : FileBackend) (size : Z) (day : Z) : bool :=
  ((MaxLines w >? 0) && (maxLinesCurLines w >=? MaxLines w)) ||
  ((MaxSize w >? 0) && (maxSizeCurSize w >=? MaxSize w)) ||
  (Daily w && negb (day =? dailyOpenDate w)).

(** ** ActiveFile *)

Definition nl : string := String "010" "".

Definition write (msg : list byte) : M unit :=
  w <- get_this ;;
  err <- fd_Write (fileWriter w) msg ;;
  match err with
  | None =>
      modify_this (fun w => set_maxLinesCurLines (int_add (maxLinesCurLines w) 1) w) ;;;
      modify_this (fun w => set_maxSizeCurSize (int_add (maxSizeCurSize w) (len msg)) w)
  | Some e => Stderr (DiagWrite msg e)
  end.

Definition createLogFile : M (File + error) :=
  w <- get_this ;;
  OpenFile (Filename w) (Z.lor (Z.lor O_WRONLY O_APPEND) O_CREATE) (Perm w).

(** [bytes.Count(chunk, []byte{'\n'})]. *)
Definition bytes_Count_nl (chunk : list byte) : Z :=
  len (filter (fun b => Byte.eqb b bNL) chunk).

(** The read loop of [lines]: an error other than [io.EOF] returns the
    count so far, without the chunk that came with the error. *)
Fixpoint lines_loop (rs : ReadStream) (count : Z) : Z * option error :=
  match rs with
  | ReadErr _ e => (count, Some e)
  | ReadEOF chunk => (int_add count (bytes_Count_nl chunk), None)
  | ReadMore chunk rest => lines_loop rest (int_add count (bytes_Count_nl chunk))
  end.

Definition lines : M (Z * option error) :=
  w <- get_this ;;
  r <- act (EOpen (Filename w)) (os_Open (Filename w)) ;;
  match r with
  | inr err => ret (0, Some err)
  | inl (fd, rs) =>
      let res := lines_loop rs 0 in
      fd_Close (Some fd) ;;;        (* the deferred fd.Close() *)
      ret res
  end.

Definition initFd : M (option error) :=
  w <- get_this ;;
  r <- fd_Stat (fileWriter w) ;;
  match r with
  | inr err => ret (Some ("get stat err: " ++ err ++ nl)%string)
  | inl fInfo =>
      modify_this (set_maxSizeCurSize (fi_Size fInfo)) ;;;
      now <- Now ;;
      modify_this (set_dailyOpenDate (Day now)) ;;;
      modify_this (set_maxLinesCurLines 0) ;;;
      if fi_Size fInfo >? 0 then
        r <- lines ;;
        match snd r with
        | Some err => ret (Some err)
        | None => modify_this (set_maxLinesCurLines (fst r)) ;;; ret None
        end
      else ret None
  end.

Definition startLogger : M (option error) :=
  r <- createLogFile ;;
  match r with
  | inr err => ret (Some err)
  | inl file =>
      w <- get_this ;;
      fd_Close (fileWriter w) ;;;
      modify_this (set_fileWriter (Some file)) ;;;
      err <- initFd ;;
      match err with
      | None =>
          modify_this (set_status 1) ;;;
          w <- get_this ;;
          match asyncMsgChan w with
          | Some _ => go GoConsumer
          | None => ret tt
          end
      | Some _ => ret tt
      end ;;;
      ret err
  end.

(** One turn of the consumer goroutine's loop on a message: receive the
    oldest queued message and write it. *)
Definition consumer_receive : M unit :=
  w <- get_this ;;
  match asyncMsgChan w with
  | Some ch =>
      match ch_buf ch with
      | msg :: rest =>
          modify_this (set_chans (Some (mkMsgChan (ch_cap ch) rest (ch_closed ch)))
                                 (asyncSignalChan w)) ;;;
          write msg
      | [] => ret tt
      end
  | None => ret tt
  end.

(** ** Archiver *)

Definition maxFileIndex : Z := 999.

(** [w.fileNameOnly + fmt.Sprintf(".%s.%03d%s", date, num, w.suffix)]. *)
Definition archiveName (w : FileBackend) (modTime : Time) (num : Z) : string :=
  fileNameOnly w ++ "." ++ Format_date modTime ++ "." ++ pad_dec 3 num ++ suffix w.

Definition err_of {A : Type} (r : A + error) : option error :=
  match r with
  | inl _ => None
  | inr e => Some e
  end.

Definition is_nil (err : option error) : bool :=
  match err with
  | None => true
  | Some _ => false
  end.

(** The probe loop
    [for ; err == nil && num <= maxFileIndex; num++ { ... }];
    [fuel] bounds the iterations and [maxFileIndex] of it are enough. *)
Fixpoint probe (fuel : nat) (w : FileBackend) (modTime : Time)
    (num : Z) (fName : string) (err : option error) : M (string * option error) :=
  match fuel with
  | O => ret (fName, err)
  | S fuel' =>
      if is_nil err && (num <=? maxFileIndex) then
        let fName' := archiveName w modTime num in
        r <- Lstat fName' ;;
        probe fuel' w modTime (int_add num 1) fName' (err_of r)
      else ret (fName, err)
  end.

Definition cannot_find_free (w : FileBackend) : error :=
  ("Rotate: Cannot find free log number to rename " ++ Filename w ++ nl)%string.

(** [doRotate] from the probe loop on, with the date stamp chosen. *)
Definition doRotate_from (modTime : Time) : M (option error) :=
  w <- get_this ;;
  r <- probe (Z.to_nat maxFileIndex) w modTime 1 "" None ;;
  let fName := fst r in
  match snd r with
  | None => ret (Some (cannot_find_free w))
  | Some _ =>
      fd_Close (fileWriter w) ;;;
      renameErr <- Rename (Filename w) fName ;;
      startLoggerErr <- startLogger ;;
      go GoDeleteOldLog ;;;
      match startLoggerErr with
      | Some e => ret (Some ("Rotate StartLogger: " ++ e ++ nl)%string)
      | None =>
          match renameErr with
          | Some e => ret (Some ("Rotate: " ++ e ++ nl)%string)
          | None => ret None
          end
      end
  end.

Definition doRotate (logTime : Time) : M (option error) :=
  w <- get_this ;;
  r <- Lstat (Filename w) ;;
  match r with
  | inr err => ret (Some err)
  | inl _ =>
      if Daily w && negb (Day logTime =? dailyOpenDate w) then
        r2 <- Lstat (Filename w) ;;
        match r2 with
        | inr _ => ret (Some (cannot_find_free w))
        | inl info => doRotate_from (fi_ModTime info)
        end
      else doRotate_from logTime
  end.

(** ** RetentionSweeper *)

(** The body of the callback handed to [filepath.Walk].  Calling
    [info.IsDir()] on the nil [os.FileInfo] panics; [time.Now()] is only
    read when [!info.IsDir()] holds, as [&&] evaluates. *)
Definition deleteOldLog_body (path : string) (info : option FileInfo)
    : M (outcome unit) :=
  match info with
  | None => ret (Panic "invalid memory address or nil pointer dereference")
  | Some i =>
      (if negb (fi_IsDir i) then
         now <- Now ;;
         w <- get_this ;;
         if Unix (fi_ModTime i) <? int_sub (Unix now) (int_mul (60 * 60 * 24) (MaxDays w))
         then
           when (HasPrefix (Base path) (fileNameOnly w) &&
                 HasSuffix (Base path) (suffix w))
                (Remove path)
         else ret tt
       else ret tt) ;;;
      ret (Done tt)
  end.

(** The callback: the body under its deferred [recover].  The named
    result [returnErr] is never assigned, so the callback returns nil. *)
Definition deleteOldLog_fn (path : string) (info : option FileInfo)
    : M (option error) :=
  r <- deleteOldLog_body path info ;;
  match r with
  | Panic v => Stderr (DiagDeleteOld path v) ;;; ret None
  | Done _ => ret None
  end.

(** [filepath.Walk]: the callback is called on each visit in turn, and
    the walk stops at the first error the callback returns. *)
Fixpoint Walk_visits (fn : string -> option FileInfo -> M (option error))
    (visits : list (string * option FileInfo)) : M (option error) :=
  match visits with
  | [] => ret None
  | (path, info) :: rest =>
      err <- fn path info ;;
      match err with
      | Some e => ret (Some e)
      | None => Walk_visits fn rest
      end
  end.

Definition Walk (root : string)
    (fn : string -> option FileInfo -> M (option error)) : M (option error) :=
  visits <- ask (filepath_Walk_visits root) ;;
  Walk_visits fn visits.

Definition deleteOldLog : M unit :=
  w <- get_this ;;
  let dir := filepath_Dir (Filename w) in
  Walk dir deleteOldLog_fn ;;;
  ret tt.

(** ** Backend facade *)

(** [s[i]] for a slice: out of range is a run-time panic. *)
Definition index {A : Type} (l : list A) (i : Z) : option A :=
  if (i <? 0) || (len l <=? i) then None else nth_error l (Z.to_nat i).

(** The rotation step of [Log]: the check, and the check again under the
    write lock. *)
Definition Log_rotate (msg : list byte) (d : Z) (rec : Record_) : M unit :=
  w <- get_this ;;
  when (Rotate w)
    (when (needRotate w (len msg) d)
       (w' <- get_this ;;
        when (needRotate w' (len msg) d)
          (err <- doRotate (Time_ rec) ;;
           match err with
           | Some e => w'' <- get_this ;; Stderr (DiagRotate (Filename w'') e)
           | None => ret tt
           end))).

(** The dispatch of [Log]: a send on [asyncMsgChan] when it is not nil,
    a synchronous write otherwise.  A send on a closed channel panics; a
    send on a full channel waits for the consumer to receive.  The
    asynchronous branch is the run of a backend with one consumer, which
    receives when the sender waits for it: the further consumer that
    each later success of [startLogger] starts is recorded as an effect
    and is not run, so the races of several consumers are outside this
    definition. *)
Definition Log_dispatch (msg : list byte) (s : State) : outcome State :=
  match asyncMsgChan (this s) with
  | Some ch =>
      if ch_closed ch then Panic "send on closed channel"
      else
        let s1 := if len (ch_buf ch) <? ch_cap ch then s
                  else snd (consumer_receive s) in
        match asyncMsgChan (this s1) with
        | Some ch1 =>
            Done (snd (modify_this
                         (set_chans (Some (mkMsgChan (ch_cap ch1) (ch_buf ch1 ++ [msg])
                                                     (ch_closed ch1)))
                                    (asyncSignalChan (this s1))) s1))
        | None => Done s1
        end
  | None => Done (snd (write msg s))
  end.

Definition Log (calldepth : Z) (rec : Record_) (s : State) : outcome State :=
  if status (this s) =? 0 then Done s
  else
    let msg := colorRegexp_ReplaceAll_empty
                 (list_byte_of_string (Formatted rec (int_add calldepth 1) false)) in
    match index msg (int_sub (len msg) 1) with
    | None => Panic "index out of range"
    | Some last =>
        let msg := if negb (Byte.eqb last bNL) then msg ++ [bNL] else msg in
        let d := Day (Time_ rec) in
        Log_dispatch msg (snd (Log_rotate msg d rec s))
    end.

(** The drain of [Close]: [for msg := range w.asyncMsgChan { w.write(msg) }]. *)
Fixpoint drain (msgs : list (list byte)) : M unit :=
  match msgs with
  | [] => ret tt
  | msg :: rest => write msg ;;; drain rest
  end.

Definition Close_file : M unit :=
  w <- get_this ;;
  fd_Sync (fileWriter w) ;;;
  fd_Close (fileWriter w).

Definition Close (s : State) : outcome State :=
  if status (this s) =? 0 then Done s
  else
    let s1 := snd (modify_this (set_status 0) s) in
    match asyncSignalChan (this s1) with
    | Some sg =>
        if sig_closed sg then Panic "send on closed channel"
        else
          let s2 := snd (emit ESignal s1) in
          match asyncMsgChan (this s2) with
          | None => Panic "close of nil channel"
          | Some ch =>
              if ch_closed ch then Panic "close of closed channel"
              else
                let s3 := snd (modify_this
                                 (set_chans (Some (mkMsgChan (ch_cap ch) [] true))
                                            (Some (mkSignalChan true))) s2) in
                Done (snd ((drain (ch_buf ch) ;;; Close_file) s3))
          end
    | None => Done (snd (Close_file s1))
    end.

(** Octal literals of the source. *)
Definition perm_0660 : FileMode := 6 * 64 + 6 * 8 + 0.
Definition perm_0777 : FileMode := 7 * 64 + 7 * 8 + 7.

(** [NewDefaultFileBackend] returns a [*FileBackend], [None] for nil, and
    an error.  The system is the one the constructor starts from. *)
Definition NewDefaultFileBackend (filename : string) (asyncLen : list Z) (sy : Sys)
    : (option FileBackend * option error) * Sys :=
  if slen filename =? 0 then
    ((None, Some (errors_New "FileBackend must have filename")), sy)
  else
    let w := mkFileBackend 0 filename None 1000000 0 (Z.shiftl 1 28) 0
               true 7 0 true perm_0660 "" "" None None in
    let w := match asyncLen with
             | c :: _ =>
                 if c >? 0
                 then set_chans (Some (mkMsgChan c [] false)) (Some (mkSignalChan false)) w
                 else w
             | [] => w
             end in
    let w := set_names (fileNameOnly w) (Ext (Filename w)) w in
    let w := set_names (TrimSuffix (Filename w) (suffix w)) (suffix w) w in
    let w := if String.eqb (suffix w) "" then set_names (fileNameOnly w) ".log" w else w in
    let p := fst (Split (Filename w)) in
    let res :=
      (r <- Stat p ;;
       match r with
       | inl d => when (negb (fi_IsDir d)) (MkdirAll p perm_0777)
       | inr _ => MkdirAll p perm_0777
       end ;;;
       startLogger) (mkState w sy) in
    ((Some (this (snd res)), fst res), sys (snd res)).

End Backend.

Arguments FileBackend {os}.
Arguments State {os}.
Arguments Sys {os}.
Arguments Effect {os}.

(** ** A scripted operating system

    An instance of [OS] whose answers are read off a script: which paths
    [Lstat] and [Stat] find, what [OpenFile], [Rename], [Write], [Stat]
    on an open file and [Open] answer, what the clock shows and what the
    directory walk visits.  File handles are numbers; every [OpenFile]
    that succeeds yields handle 3.  The calls leave the script as it is. *)

Record Script : Type := mkScript {
  sc_files : list (string * FileInfo);
  sc_open : option error;
  sc_rename : option error;
  sc_write : option error;
  sc_fstat : FileInfo + error;
  sc_read : ReadStream + error;
  sc_now : Time;
  sc_visits : list (string * option FileInfo)
}.

Fixpoint lookup_path (name : string) (files : list (string * FileInfo))
    : FileInfo + error :=
  match files with
  | [] => inr "no such file or directory"
  | (p, i) :: rest => if String.eqb p name then inl i else lookup_path name rest
  end.

(** [filepath.Dir] on a clean relative path: the directory part without
    its final separator, and a dot when there is none. *)
Definition clean_Dir (p : string) : string :=
  let d := fst (Split p) in
  if String.eqb d "" then "."
  else substring 0 (String.length d - 1) d.

Definition scripted : OS :=
  mkOS Script nat
    (fun _ _ _ wd =>
       (match sc_open wd with Some e => inr e | None => inl 3%nat end, wd))
    (fun _ wd =>
       (match sc_read wd with inl rs => inl (4%nat, rs) | inr e => inr e end, wd))
    (fun name wd => lookup_path name (sc_files wd))
    (fun name wd => lookup_path name (sc_files wd))
    (fun _ _ wd => wd)
    (fun _ _ wd => (sc_rename wd, wd))
    (fun _ wd => wd)
    (fun _ _ wd => (sc_write wd, wd))
    (fun _ wd => sc_fstat wd)
    (fun _ wd => wd)
    (fun _ wd => wd)
    (fun wd => (sc_now wd, wd))
    clean_Dir
    (fun _ wd => sc_visits wd).

Definition day1 : Time := mkTime 2024 3 1 1709251200.
Definition day2 : Time := mkTime 2024 3 2 1709337600.

Definition regular (size : Z) (t : Time) : FileInfo := mkFileInfo size t false.

(** A backend on "logs/app.log" as the constructor leaves it, running,
    opened on the first of the month, with 10 lines and 200 bytes. *)
Definition app_backend : @FileBackend scripted :=
  @mkFileBackend scripted 1 "logs/app.log" (Some 3%nat) 1000000 10 (Z.shiftl 1 28) 200
    true 7 1 true perm_0660 "logs/app" ".log" None None.

(** A script where the active file and its first archive of the first of
    March exist, and every call succeeds. *)
Definition calm : Script :=
  mkScript
    [("logs/app.log", regular 200 day1);
     ("logs/app.2024-03-01.001.log", regular 50 day1)]
    None None None (inl (regular 0 day2)) (inl (ReadEOF [])) day2 [].

(** The same, where renaming and opening are refused. *)
Definition hostile : Script :=
  mkScript (sc_files calm) (Some "open refused") (Some "rename refused")
    (Some "write refused") (sc_fstat calm) (sc_read calm) (sc_now calm) [].

Definition state_of (w : @FileBackend scripted) (sc : Script) : @State scripted :=
  @mkState scripted w (@mkSys scripted sc []).

(** The same backend in asynchronous mode, two messages queued. *)
Definition async_backend : @FileBackend scripted :=
  set_chans (Some (mkMsgChan 2 [[x61; x0a]; [x62; x0a]] false))
            (Some (mkSignalChan false)) app_backend.

(** A backend on "app.log" in the working directory. *)
Definition cwd_backend : @FileBackend scripted :=
  @mkFileBackend scripted 1 "app.log" (Some 3%nat) 1000000 10 (Z.shiftl 1 28) 200
    true 7 1 true perm_0660 "app" ".log" None None.

Definition feb1 : Time := mkTime 2024 2 1 1706745600.

(** A walk of the working directory on the second of March: the
    directory, an archive of the first of February, an archive of the
    first of March, a text file of the first of February, and an entry
    that [Lstat] fails on. *)
Definition sweep_script : Script :=
  mkScript [("app.log", regular 200 day1)]
    None None None (inl (regular 0 day2)) (inl (ReadEOF [])) day2
    [(".", Some (mkFileInfo 4096 day1 true));
     ("app.2024-02-01.001.log", Some (regular 50 feb1));
     ("app.2024-03-01.001.log", Some (regular 50 day1));
     ("notes.txt", Some (regular 10 feb1));
     ("gone.log", None)].

(** A record whose rendering is [text], whatever the arguments. *)
Definition record_of (text : string) (t : Time) : Record_ :=
  mkRecord (fun _ _ => text) t.

Definition reset_color : string := String "027" "[0m".

(** A file of five bytes and two lines, read in two chunks. *)
Definition two_chunks : ReadStream :=
  ReadMore [x61; x0a] (ReadEOF [x62; x0a; x63]).

(** The script of [calm] with that file behind the open descriptor. *)
Definition grown : Script :=
  mkScript (sc_files calm) None None None (inl (regular 5 day1)) (inl two_chunks)
    day2 [].

(** The script of [calm] once the active file is gone from disk. *)
Definition vanished : Script :=
  mkScript [] None None None (sc_fstat calm) (sc_read calm) day2 [].


(** ** A small disk

    A second instance of [OS], in which the calls act on a list of
    files: [Remove] takes the path off the list, [Rename] gives an entry
    its new name, [OpenFile] adds an empty file when there is none, and
    the walk visits the files of the list.  Writes succeed and the clock
    stands still. *)

Record Disk : Type := mkDisk {
  dk_files : list (string * FileInfo);
  dk_now : Time
}.

Fixpoint remove_path (name : string) (files : list (string * FileInfo))
    : list (string * FileInfo) :=
  match files with
  | [] => []
  | (p, i) :: rest =>
      if String.eqb p name then remove_path name rest
      else (p, i) :: remove_path name rest
  end.

Fixpoint rename_path (oldpath newpath : string) (files : list (string * FileInfo))
    : list (string * FileInfo) :=
  match files with
  | [] => []
  | (p, i) :: rest =>
      (if String.eqb p oldpath then newpath else p, i) :: rename_path oldpath newpath rest
  end.

Definition disk : OS :=
  mkOS Disk nat
    (fun name _ _ wd =>
       (inl 3%nat,
        match lookup_path name (dk_files wd) with
        | inl _ => wd
        | inr _ => mkDisk (dk_files wd ++ [(name, mkFileInfo 0 (dk_now wd) false)]) (dk_now wd)
        end))
    (fun name wd =>
       (match lookup_path name (dk_files wd) with
        | inl _ => inl (4%nat, ReadEOF [])
        | inr e => inr e
        end, wd))
    (fun name wd => lookup_path name (dk_files wd))
    (fun name wd => lookup_path name (dk_files wd))
    (fun _ _ wd => wd)
    (fun oldpath newpath wd =>
       match lookup_path oldpath (dk_files wd) with
       | inl _ => (None, mkDisk (rename_path oldpath newpath (dk_files wd)) (dk_now wd))
       | inr e => (Some e, wd)
       end)
    (fun path wd => mkDisk (remove_path path (dk_files wd)) (dk_now wd))
    (fun _ _ wd => (None, wd))
    (fun _ wd => inl (mkFileInfo 0 (dk_now wd) false))
    (fun _ wd => wd)
    (fun _ wd => wd)
    (fun wd => (dk_now wd, wd))
    clean_Dir
    (fun _ wd => map (fun e => (fst e, Some (snd e))) (dk_files wd)).

(** One second before [day2]. *)
Definition just_before_day2 : Time := mkTime 2024 3 1 (1709337600 - 1).

(** A backend on "app.log" whose retention window is the largest
    [int64], as a user who wants nothing deleted may set it. *)
Definition keep_forever_backend : @FileBackend disk :=
  @mkFileBackend disk 1 "app.log" (Some 3%nat) 1000000 10 (Z.shiftl 1 28) 200
    true max_int 1 true perm_0660 "app" ".log" None None.

(** The working directory on the second of March, as the walk finds
    it: the directory itself, the active file and an archive written a
    second ago. *)
Definition fresh_archive_disk : Disk :=
  mkDisk [(".", mkFileInfo 4096 day2 true);
          ("app.log", mkFileInfo 200 day2 false);
          ("app.2024-03-01.001.log", mkFileInfo 50 just_before_day2 false)]
         day2.

Definition keep_forever_state : @State disk :=
  @mkState disk keep_forever_backend (@mkSys disk fresh_archive_disk []).


(** The asynchronous backend with rotation switched off, two messages
    queued in a queue of two. *)
Definition no_rotation_backend : @FileBackend scripted :=
  @mkFileBackend scripted 1 "logs/app.log" (Some 3%nat) 1000000 10 (Z.shiftl 1 28) 200
    true 7 1 false perm_0660 "logs/app" ".log"
    (Some (mkMsgChan 2 [[x61; x0a]; [x62; x0a]] false))
    (Some (mkSignalChan false)).


(** ** Reading a decimal number back *)

(** The number that a string of decimal digits writes. *)
Fixpoint parse_dec_from (acc : Z) (s : string) : Z :=
  match s with
  | EmptyString => acc
  | String c rest => parse_dec_from (10 * acc + (Z.of_N (N_of_ascii c) - 48)) rest
  end.

Definition parse_dec (s : string) : Z := parse_dec_from 0 s.

(** ** Vocabulary of the statements *)

Section Vocabulary.

Context {os : OS}.

(** The effects of one call of [Write] on the active file: none on a nil
    file, one call otherwise. *)
Definition write_attempt (fd : option File) (msg : list byte) : list Effect :=
  match fd with
  | Some f => [EWrite f msg]
  | None => []
  end.

(** The fields that the constructor sets and no method assigns. *)
Definition same_config (w w' : FileBackend) : Prop :=
  Filename w' = Filename w /\ MaxLines w' = MaxLines w /\
  MaxSize w' = MaxSize w /\ Daily w' = Daily w /\ MaxDays w' = MaxDays w /\
  Rotate w' = Rotate w /\ Perm w' = Perm w /\
  fileNameOnly w' = fileNameOnly w /\ suffix w' = suffix w.

Definition same_chans (w w' : FileBackend) : Prop :=
  asyncMsgChan w' = asyncMsgChan w /\ asyncSignalChan w' = asyncSignalChan w.

(** The messages handed to [Write], in order. *)
Fixpoint written (l : list Effect) : list (list byte) :=
  match l with
  | [] => []
  | EWrite _ msg :: rest => msg :: written rest
  | _ :: rest => written rest
  end.

(** The effects of writing a message: the call and the report of its
    failure. *)
Definition is_write_effect (e : Effect) : bool :=
  match e with
  | EWrite _ _ => true
  | EStderr (DiagWrite _ _) => true
  | _ => false
  end.

(** Flushing and closing the active file. *)
Definition close_file_effects (fd : option File) : list Effect :=
  match fd with
  | Some f => [ESync f; EClose f]
  | None => []
  end.

(** The channels as the constructor leaves them: both nil, or both made
    and open. *)
Definition chans_open (w : FileBackend) : Prop :=
  (asyncMsgChan w = None /\ asyncSignalChan w = None) \/
  (exists ch, asyncMsgChan w = Some ch /\ ch_closed ch = false /\
              asyncSignalChan w = Some (mkSignalChan false)).

(** The messages queued for the consumer. *)
Definition pending (w : FileBackend) : list (list byte) :=
  match asyncMsgChan w with
  | Some ch => ch_buf ch
  | None => []
  end.

(** The stop signal, sent when there is a signal channel. *)
Definition signal_effects (w : FileBackend) : list Effect :=
  match asyncSignalChan w with
  | Some _ => [ESignal]
  | None => []
  end.

(** A path exists on disk when [Lstat] finds it, and is free when
    [Lstat] returns an error. *)
Definition taken (wd : World) (name : string) : Prop :=
  exists info, os_Lstat name wd = inl info.

Definition free (wd : World) (name : string) : Prop :=
  exists e, os_Lstat name wd = inr e.

Definition is_rename (e : Effect) : bool :=
  match e with
  | ERename _ _ => true
  | _ => false
  end.

Definition no_rename (l : list Effect) : Prop :=
  forallb (fun e => negb (is_rename e)) l = true.

(** Closing the active file. *)
Definition closing (fd : option File) : list Effect :=
  match fd with
  | Some f => [EClose f]
  | None => []
  end.

(** Asynchronous mode is asked for by a first capacity above zero. *)
Definition async_requested (asyncLen : list Z) : Prop :=
  exists c rest, asyncLen = c :: rest /\ c > 0.

(** *** Vocabulary of the further properties *)

(** The bytes the reads of a stream deliver before its end or its error;
    the chunk that comes with an error is not counted by [lines]. *)
Fixpoint stream_content (rs : ReadStream) : list byte :=
  match rs with
  | ReadEOF chunk => chunk
  | ReadErr _ _ => []
  | ReadMore chunk rest => chunk ++ stream_content rest
  end.

(** The error that ends a stream, [None] for [io.EOF]. *)
Fixpoint stream_error (rs : ReadStream) : option error :=
  match rs with
  | ReadEOF _ => None
  | ReadErr _ e => Some e
  | ReadMore _ rest => stream_error rest
  end.

(** A step that writes nothing and keeps what the dispatch of a message
    relies on: the settings, the channels, a file that is not nil, and a
    status that is not closed. *)
Definition quiet (s s' : State) : Prop :=
  same_config (this s) (this s') /\ same_chans (this s) (this s') /\
  (fileWriter (this s) <> None -> fileWriter (this s') <> None) /\
  (status (this s) <> 0 -> status (this s') <> 0) /\
  exists added,
    effects (sys s') = effects (sys s) ++ added /\ written added = [].

(** The message [Log] hands on: the stripped rendering, with a newline
    when its last byte is not one. *)
Definition terminated (msg : list byte) : list byte :=
  match index msg (int_sub (len msg) 1) with
  | Some last => if negb (Byte.eqb last bNL) then msg ++ [bNL] else msg
  | None => msg
  end.

(** What the sweep may do on the visits of a walk: remove a visited
    entry that is not a directory and whose base name has the prefix and
    the suffix of the backend, or report a visit without information. *)
Definition sweep_effect (w : FileBackend)
    (visits : list (string * option FileInfo)) (e : Effect) : Prop :=
  (exists path info,
     e = ERemove path /\ In (path, Some info) visits /\
     fi_IsDir info = false /\
     HasPrefix (Base path) (fileNameOnly w) = true /\
     HasSuffix (Base path) (suffix w) = true) \/
  (exists path v, e = EStderr (DiagDeleteOld path v) /\ In (path, None) visits).

(** The consumer goroutines started. *)
Fixpoint consumers_started (l : list Effect) : nat :=
  match l with
  | [] => O
  | EGo GoConsumer :: rest => S (consumers_started rest)
  | _ :: rest => consumers_started rest
  end.


(** Opening a file for reading and closing a file. *)
Definition is_open_close (e : Effect) : bool :=
  match e with
  | EOpen _ => true
  | EClose _ => true
  | _ => false
  end.


(** The run recorded so far has started at most one consumer goroutine:
    no rotation has started a second one.  With one consumer the queue
    has one reader, and the stop signal of [Close] leaves none; with
    more, the consumers race for the queue, which the sequential run of
    this development does not show. *)
Definition one_consumer (s : State) : Prop :=
  (consumers_started (effects (sys s)) <= 1)%nat.


(** [Log] on the records of a list, one call after the other. *)
Fixpoint Log_all (calldepth : Z) (recs : list Record_) (s : State) : outcome State :=
  match recs with
  | [] => Done s
  | rec :: rest =>
      match Log calldepth rec s with
      | Done s1 => Log_all calldepth rest s1
      | Panic reason => Panic reason
      end
  end.

(** The bytes [Log] dispatches for a record. *)
Definition message_of (calldepth : Z) (rec : Record_) : list byte :=
  terminated (colorRegexp_ReplaceAll_empty
                (list_byte_of_string (Formatted rec (int_add calldepth 1) false))).

(** A record that [Log] can dispatch: its rendering has the length of a
    slice and is not empty once stripped. *)
Definition loggable (calldepth : Z) (rec : Record_) : Prop :=
  len (list_byte_of_string (Formatted rec (int_add calldepth 1) false)) <= max_int /\
  colorRegexp_ReplaceAll_empty
    (list_byte_of_string (Formatted rec (int_add calldepth 1) false)) <> [].

End Vocabulary.

(** * Properties *)

(** ** Package strings, path/filepath and time on examples *)

Example Ext_ex2 : Ext "logs.d/app" = "".
Proof. reflexivity. Qed.

Example Split_ex : Split "logs/app.log" = ("logs/", "app.log").
Proof. reflexivity. Qed.

Example Base_ex2 : Base "///" = "/".
Proof. reflexivity. Qed.

Example pad_dec_ex2 : pad_dec 3 999 = "999".
Proof. reflexivity. Qed.

Example Ext_ex1 : Ext "logs/app.log" = ".log".
Proof. reflexivity. Qed.

Example TrimSuffix_ex : TrimSuffix "logs/app.log" ".log" = "logs/app".
Proof. reflexivity. Qed.

Example Base_ex1 : Base "logs/app.2020-01-02.001.log" = "app.2020-01-02.001.log".
Proof. reflexivity. Qed.

Example pad_dec_ex1 : pad_dec 3 7 = "007".
Proof. reflexivity. Qed.

Example Format_date_ex : Format_date (mkTime 2013 1 9 0) = "2013-01-09".
Proof. reflexivity. Qed.

Example strip_ex1 :
  colorRegexp_ReplaceAll_empty
    (list_byte_of_string (String "027" "[31mERROR" ++ String "027" "[0m boom"))
  = list_byte_of_string "ERROR boom".
Proof. reflexivity. Qed.

Example strip_ex2 :
  colorRegexp_ReplaceAll_empty
    (list_byte_of_string (String "027" "[1;31mx" ++ String "027" "[123m"))
  = list_byte_of_string (String "027" "[1;31mx" ++ String "027" "[123m").
Proof. reflexivity. Qed.

(** ** Machine integers *)

Lemma wrap64_id (z : Z) : min_int <= z <= max_int -> wrap64 z = z.
Proof.
  unfold wrap64, min_int, max_int. intros H.
  rewrite Z.mod_small; lia.
Qed.

Lemma int_add_exact (a b : Z) :
  min_int <= a + b <= max_int -> int_add a b = a + b.
Proof. apply wrap64_id. Qed.

Lemma int_sub_exact (a b : Z) :
  min_int <= a - b <= max_int -> int_sub a b = a - b.
Proof. apply wrap64_id. Qed.

Lemma int_mul_exact (a b : Z) :
  min_int <= a * b <= max_int -> int_mul a b = a * b.
Proof. apply wrap64_id. Qed.

(** At the edge of the range the operations wrap. *)
Example int_add_wraps : int_add max_int 1 = min_int.
Proof. reflexivity. Qed.

Example sweep_threshold_wraps :
  int_sub 1709337600 (int_mul (60 * 60 * 24) max_int) = 1709337600 + 60 * 60 * 24.
Proof. reflexivity. Qed.

Lemma len_nonneg {A : Type} (l : list A) : 0 <= len l.
Proof. unfold len. lia. Qed.

Lemma len_app {A : Type} (l1 l2 : list A) : len (l1 ++ l2) = len l1 + len l2.
Proof. unfold len. rewrite length_app. lia. Qed.

Section Properties.

Context {os : OS}.

#[local] Arguments write : simpl never.
#[local] Arguments lines : simpl never.
#[local] Arguments initFd : simpl never.
#[local] Arguments startLogger : simpl never.
#[local] Arguments doRotate_from : simpl never.
#[local] Arguments doRotate : simpl never.
#[local] Arguments Close_file : simpl never.
#[local] Arguments deleteOldLog_fn : simpl never.
#[local] Arguments Log_rotate : simpl never.

(** ** RotationPolicy *)

(** C1. [needRotate] answers true exactly when the line limit is set and
    reached, or the size limit is set and reached by the bytes already
    written, or daily rotation is on and the day is not the day the file
    was opened; the incoming size plays no part. *)
Theorem needRotate_iff (w : FileBackend) (size day : Z) :
  (needRotate w size day = true <->
     (MaxLines w > 0 /\ maxLinesCurLines w >= MaxLines w) \/
     (MaxSize w > 0 /\ maxSizeCurSize w >= MaxSize w) \/
     (Daily w = true /\ day <> dailyOpenDate w)) /\
  (forall size' : Z, needRotate w size' day = needRotate w size day).
Proof.
  split; [| reflexivity].
  unfold needRotate.
  rewrite !orb_true_iff, !andb_true_iff, negb_true_iff.
  rewrite Z.eqb_neq, !Z.gtb_gt, !Z.geb_ge.
  tauto.
Qed.

(** ** ActiveFile *)

Ltac conjs :=
  repeat match goal with
         | |- _ /\ _ => split
         end;
  try reflexivity; try assumption.

Ltac range := unfold min_int, max_int in *; lia.

Ltac run :=
  unfold bind, ret, get_this, modify_this, emit, ask, act, act_, when,
    Stderr, go, Now; cbn [fst snd this sys world effects].

(** The counters after [write], in machine arithmetic. *)
Lemma write_counters_machine (msg : list byte) (s : State) :
  let r := fd_Write (fileWriter (this s)) msg s in
  let s' := snd (write msg s) in
  match fst r with
  | None =>
      maxLinesCurLines (this s') = int_add (maxLinesCurLines (this s)) 1 /\
      maxSizeCurSize (this s') = int_add (maxSizeCurSize (this s)) (len msg)
  | Some _ => this s' = this s
  end.
Proof.
  unfold write. run.
  destruct s as [w [wd tr]]; cbn in *.
  destruct (fileWriter w) as [f |]; cbn; [| reflexivity].
  unfold act; cbn. destruct (File_Write f msg wd) as [[e |] wd']; cbn; auto.
Qed.

(** C4. [write] calls [Write] once.  When the call succeeds, the line
    counter grows by one and the byte counter by the length of the
    message; when it fails, the backend is as it was, and the error goes
    to the diagnostic stream.  The counters are machine integers: the
    statement is for counters that the additions do not overflow. *)
Theorem write_counters (msg : list byte) (s : State)
    (Hlines : min_int <= maxLinesCurLines (this s) < max_int)
    (Hsize : min_int <= maxSizeCurSize (this s) /\
             maxSizeCurSize (this s) + len msg <= max_int) :
  let r := fd_Write (fileWriter (this s)) msg s in
  let s' := snd (write msg s) in
  world (sys s') = world (sys (snd r)) /\
  match fst r with
  | None =>
      maxLinesCurLines (this s') = maxLinesCurLines (this s) + 1 /\
      maxSizeCurSize (this s') = maxSizeCurSize (this s) + len msg /\
      effects (sys s') =
        effects (sys s) ++ write_attempt (fileWriter (this s)) msg
  | Some e =>
      this s' = this s /\
      effects (sys s') =
        effects (sys s) ++ write_attempt (fileWriter (this s)) msg ++
        [EStderr (DiagWrite msg e)]
  end.
Proof.
  pose proof (len_nonneg msg) as Hlen.
  unfold write. run.
  destruct s as [w [wd tr]]; cbn in *.
  destruct (fileWriter w) as [f |]; cbn.
  - unfold act; cbn. destruct (File_Write f msg wd) as [[e |] wd']; cbn.
    + rewrite <- app_assoc. auto.
    + rewrite !int_add_exact by range. auto.
  - auto.
Qed.

(** ** colorRegexp *)

Lemma ReplaceAll_from_0 (b : byte) (t : list byte) :
  ReplaceAll_from 0 (b :: t) =
  match colorRegexp_matchLen (b :: t) with
  | Some n => ReplaceAll_from (Nat.pred n) t
  | None => b :: ReplaceAll_from 0 t
  end.
Proof. reflexivity. Qed.

Lemma ReplaceAll_from_skip (a s : list byte) :
  ReplaceAll_from (List.length a) (a ++ s) = ReplaceAll_from 0 s.
Proof. induction a as [| b a IH]; [reflexivity | exact IH]. Qed.

Lemma ReplaceAll_from_length (s : list byte) :
  forall skip, (List.length (ReplaceAll_from skip s) <= List.length s)%nat.
Proof.
  induction s as [| b t IH]; intros skip; [cbn; lia |].
  destruct skip as [| k].
  - rewrite ReplaceAll_from_0.
    destruct (colorRegexp_matchLen (b :: t)) as [n |]; cbn [List.length].
    + specialize (IH (Nat.pred n)). lia.
    + specialize (IH 0%nat). lia.
  - cbn [ReplaceAll_from List.length]. specialize (IH k). lia.
Qed.

Lemma isDigit_not_m (d : byte) : isDigit d = true -> Byte.eqb d b_m = false.
Proof.
  intros Hd. destruct (Byte.eqb d b_m) eqn:E; [| reflexivity].
  apply byte_dec_bl in E. subst d. discriminate Hd.
Qed.

Lemma matchLen_complete (c t : list byte) :
  ColorSeq c -> colorRegexp_matchLen (c ++ t) = Some (List.length c).
Proof.
  intros [d Hd | d1 d2 Hd1 Hd2]; cbn [app colorRegexp_matchLen List.length].
  - rewrite Hd. reflexivity.
  - rewrite Hd1, Hd2, (isDigit_not_m d2 Hd2). reflexivity.
Qed.

Lemma matchLen_sound (s : list byte) (n : nat) :
  colorRegexp_matchLen s = Some n ->
  exists c t, ColorSeq c /\ s = c ++ t /\ List.length c = n.
Proof.
  destruct s as [| e [| l [| d1 [| x r]]]]; try discriminate.
  cbn [colorRegexp_matchLen].
  destruct (Byte.eqb e bESC) eqn:Ee; [| discriminate].
  destruct (Byte.eqb l bLBracket) eqn:El; [| discriminate].
  destruct (isDigit d1) eqn:Ed1; [| discriminate].
  apply byte_dec_bl in Ee, El. subst e l. cbn [andb].
  destruct (Byte.eqb x b_m) eqn:Ex.
  - apply byte_dec_bl in Ex. subst x. intros H; injection H as <-.
    exists [bESC; bLBracket; d1; b_m], r. split; [constructor; assumption | auto].
  - destruct (isDigit x) eqn:Ed2; [| discriminate].
    destruct r as [| m r']; [discriminate |].
    destruct (Byte.eqb m b_m) eqn:Em; [| discriminate].
    apply byte_dec_bl in Em. subst m. intros H; injection H as <-.
    exists [bESC; bLBracket; d1; x; b_m], r'. split; [constructor; assumption | auto].
Qed.

Lemma strip_match (c s : list byte) :
  ColorSeq c ->
  colorRegexp_ReplaceAll_empty (c ++ s) = colorRegexp_ReplaceAll_empty s.
Proof.
  intros Hc. unfold colorRegexp_ReplaceAll_empty.
  pose proof (matchLen_complete c s Hc) as Hm.
  destruct c as [| b c']; [inversion Hc |].
  cbn [app] in *. rewrite ReplaceAll_from_0, Hm.
  cbn [List.length Nat.pred]. apply ReplaceAll_from_skip.
Qed.

Lemma strip_keep (b : byte) (s : list byte) :
  (forall c t, ColorSeq c -> b :: s <> c ++ t) ->
  colorRegexp_ReplaceAll_empty (b :: s) = b :: colorRegexp_ReplaceAll_empty s.
Proof.
  intros Hno. unfold colorRegexp_ReplaceAll_empty. rewrite ReplaceAll_from_0.
  destruct (colorRegexp_matchLen (b :: s)) as [n |] eqn:E; [| reflexivity].
  destruct (matchLen_sound _ _ E) as (c & t & Hc & Heq & _).
  exfalso. exact (Hno c t Hc Heq).
Qed.

(** The matcher computes the relation: replacing every match of the
    pattern by nothing has one result, and [ReplaceAll] returns it. *)
Lemma Stripped_iff (s r : list byte) :
  Stripped s r <-> r = colorRegexp_ReplaceAll_empty s.
Proof.
  split.
  - induction 1 as [| c s r Hc _ IH | b s r Hno _ IH].
    + reflexivity.
    + rewrite strip_match; assumption.
    + rewrite strip_keep by assumption. now f_equal.
  - intros ->. remember (List.length s) as n eqn:Hn.
    revert s Hn. induction n as [n IH] using lt_wf_ind. intros s Hn.
    destruct s as [| b t]; [constructor |].
    destruct (colorRegexp_matchLen (b :: t)) as [k |] eqn:E.
    + destruct (matchLen_sound _ _ E) as (c & u & Hc & Heq & _).
      rewrite Heq, strip_match by assumption.
      apply Stripped_match; [assumption |].
      apply (IH (List.length u)); [| reflexivity].
      subst n. rewrite Heq, length_app.
      destruct Hc; cbn; lia.
    + assert (Hno : forall c u, ColorSeq c -> b :: t <> c ++ u).
      { intros c u Hc Heq. rewrite Heq, matchLen_complete in E by assumption.
        discriminate. }
      rewrite strip_keep by assumption.
      apply Stripped_keep; [assumption |].
      apply (IH (List.length t)); [subst n; cbn; lia | reflexivity].
Qed.

Lemma strip_only_colors (seqs : list (list byte)) :
  Forall ColorSeq seqs -> colorRegexp_ReplaceAll_empty (List.concat seqs) = [].
Proof.
  induction 1 as [| c seqs Hc _ IH]; [reflexivity |].
  cbn [List.concat]. rewrite strip_match; assumption.
Qed.

Lemma strip_len (s : list byte) : len (colorRegexp_ReplaceAll_empty s) <= len s.
Proof.
  unfold len, colorRegexp_ReplaceAll_empty.
  pose proof (ReplaceAll_from_length s 0). lia.
Qed.

(** ** Indexing the last element *)

Lemma index_last {A : Type} (front : list A) (a : A) :
  len (front ++ [a]) <= max_int ->
  index (front ++ [a]) (int_sub (len (front ++ [a])) 1) = Some a.
Proof.
  intros Hlen. pose proof (len_nonneg front) as Hf.
  rewrite len_app in *. change (len [a]) with 1 in *.
  rewrite int_sub_exact by range.
  unfold index. rewrite len_app. change (len [a]) with 1.
  replace (len front + 1 - 1 <? 0) with false by (symmetry; apply Z.ltb_ge; lia).
  replace (len front + 1 <=? len front + 1 - 1) with false
    by (symmetry; apply Z.leb_gt; lia).
  cbn [orb]. replace (Z.to_nat (len front + 1 - 1)) with (List.length front)
    by (unfold len; lia).
  rewrite nth_error_app2 by lia. rewrite Nat.sub_diag. reflexivity.
Qed.


(** ** Backend facade: the message of [Log] *)

(** C8. While the backend runs, [Log] indexes the stripped message at
    [len(msg)-1] without a guard.  When the stripped message is not empty
    the index is in range and yields its last byte, and [Log] goes on to
    rotation and dispatch with the terminated message.  When it is empty,
    which is the case of an empty rendering and of a rendering made of
    color sequences only, the index is out of range and [Log] panics. *)
Theorem Log_last_byte (calldepth : Z) (rec : Record_) (s : State)
    (Hrun : status (this s) <> 0)
    (Hlen : len (list_byte_of_string (Formatted rec (int_add calldepth 1) false))
            <= max_int) :
  let rendered := list_byte_of_string (Formatted rec (int_add calldepth 1) false) in
  let msg := colorRegexp_ReplaceAll_empty rendered in
  (msg <> [] ->
     exists front last,
       msg = front ++ [last] /\
       index msg (int_sub (len msg) 1) = Some last /\
       Log calldepth rec s =
         let msg' := if negb (Byte.eqb last bNL) then msg ++ [bNL] else msg in
         Log_dispatch msg' (snd (Log_rotate msg' (Day (Time_ rec)) rec s))) /\
  (msg = [] ->
     index msg (int_sub (len msg) 1) = None /\
     Log calldepth rec s = Panic "index out of range") /\
  (rendered = [] -> msg = []) /\
  (forall seqs, Forall ColorSeq seqs -> rendered = List.concat seqs -> msg = []).
Proof.
  intros rendered msg.
  assert (Hst : (status (this s) =? 0) = false) by (apply Z.eqb_neq; exact Hrun).
  split; [| split; [| split]].
  - intros Hne.
    destruct (exists_last Hne) as (front & last & Heq).
    assert (Hidx : index msg (int_sub (len msg) 1) = Some last).
    { rewrite Heq. apply index_last. rewrite <- Heq.
      pose proof (strip_len rendered). fold msg in H. subst rendered. lia. }
    exists front, last. split; [exact Heq |]. split; [exact Hidx |].
    unfold Log. rewrite Hst. fold rendered. fold msg. rewrite Hidx. reflexivity.
  - intros Hnil. split; [rewrite Hnil; reflexivity |].
    unfold Log. rewrite Hst. fold rendered. fold msg.
    rewrite Hnil. reflexivity.
  - intros Hr. subst msg. rewrite Hr. reflexivity.
  - intros seqs Hseqs Hr. subst msg. rewrite Hr. apply strip_only_colors. exact Hseqs.
Qed.

(** ** What [write] keeps *)

Lemma same_config_refl (w : FileBackend) : same_config w w.
Proof. unfold same_config. tauto. Qed.

Lemma same_config_trans (w1 w2 w3 : FileBackend) :
  same_config w1 w2 -> same_config w2 w3 -> same_config w1 w3.
Proof. unfold same_config. intuition congruence. Qed.

Lemma write_frame (msg : list byte) (s : State) :
  let s' := snd (write msg s) in
  same_config (this s) (this s') /\ same_chans (this s) (this s') /\
  status (this s') = status (this s) /\
  fileWriter (this s') = fileWriter (this s) /\
  exists report,
    effects (sys s') =
      effects (sys s) ++ write_attempt (fileWriter (this s)) msg ++ report /\
    forallb is_write_effect report = true /\ written report = [].
Proof.
  unfold write, same_config, same_chans. run.
  destruct s as [w [wd tr]]; cbn.
  destruct (fileWriter w) as [f |] eqn:Efw; cbn.
  - unfold act; cbn. destruct (File_Write f msg wd) as [[e |] wd']; cbn.
    + conjs. exists [EStderr (DiagWrite msg e)].
      rewrite <- app_assoc. auto.
    + conjs. exists []. auto.
  - conjs. exists [EStderr (DiagWrite msg ErrInvalid)]. auto.
Qed.

Lemma written_app (l1 l2 : list (@Effect os)) :
  written (l1 ++ l2) = written l1 ++ written l2.
Proof.
  induction l1 as [| e l1 IH]; [reflexivity |].
  destruct e; cbn; rewrite IH; reflexivity.
Qed.

Lemma drain_frame (msgs : list (list byte)) :
  forall s : State,
    let s' := snd (drain msgs s) in
    same_config (this s) (this s') /\ same_chans (this s) (this s') /\
    status (this s') = status (this s) /\
    fileWriter (this s') = fileWriter (this s) /\
    exists mid,
      effects (sys s') = effects (sys s) ++ mid /\
      forallb is_write_effect mid = true /\
      (fileWriter (this s) <> None -> written mid = msgs).
Proof.
  induction msgs as [| msg rest IH]; intros s; cbn [drain].
  - cbn. unfold same_chans. split; [apply same_config_refl |].
    conjs. exists []. rewrite app_nil_r. auto.
  - unfold bind. destruct (write msg s) as [[] s1] eqn:E.
    pose proof (write_frame msg s) as Hw. rewrite E in Hw. cbn [snd] in Hw.
    destruct Hw as (Hc1 & Hch1 & Hst1 & Hfw1 & rep & Heff1 & Hrep & Hwr).
    specialize (IH s1). cbn zeta in IH.
    destruct IH as (Hc2 & Hch2 & Hst2 & Hfw2 & mid & Heff2 & Hmid & Hwm).
    split; [eapply same_config_trans; eassumption |].
    split; [unfold same_chans in *; intuition congruence |].
    split; [congruence |]. split; [congruence |].
    exists (write_attempt (fileWriter (this s)) msg ++ rep ++ mid).
    split; [rewrite Heff2, Heff1, <- !app_assoc; reflexivity |].
    split.
    + rewrite !forallb_app, Hrep, Hmid.
      destruct (fileWriter (this s)); reflexivity.
    + intros Hfd. rewrite !written_app, Hwr, Hwm by congruence.
      destruct (fileWriter (this s)); [reflexivity | congruence].
Qed.

(** ** Backend facade: [Close] *)

Lemma Close_closed (s : State) : status (this s) = 0 -> Close s = Done s.
Proof. intros H. unfold Close. rewrite H. reflexivity. Qed.

Lemma Close_file_effects (s : State) :
  let s' := snd (Close_file s) in
  this s' = this s /\
  effects (sys s') = effects (sys s) ++ close_file_effects (fileWriter (this s)).
Proof.
  unfold Close_file. run. destruct s as [w [wd tr]]; cbn.
  destruct (fileWriter w) as [f |]; cbn.
  - rewrite <- app_assoc. auto.
  - rewrite app_nil_r. auto.
Qed.

Lemma write_world (msg : list byte) (s : State) :
  world (sys (snd (write msg s))) =
  match fileWriter (this s) with
  | Some f => snd (File_Write f msg (world (sys s)))
  | None => world (sys s)
  end.
Proof.
  unfold write. run. destruct s as [w [wd tr]]; cbn.
  destruct (fileWriter w) as [f |]; cbn; [| reflexivity].
  unfold act; cbn. destruct (File_Write f msg wd) as [[e |] wd']; reflexivity.
Qed.

Lemma drain_world (msgs : list (list byte)) :
  forall s : State,
    world (sys (snd (drain msgs s))) =
    match fileWriter (this s) with
    | Some f => fold_left (fun wd msg => snd (File_Write f msg wd)) msgs (world (sys s))
    | None => world (sys s)
    end.
Proof.
  induction msgs as [| msg rest IH]; intros s; cbn [drain fold_left].
  - cbn. destruct (fileWriter (this s)); reflexivity.
  - unfold bind. pose proof (write_world msg s) as Hw.
    pose proof (write_frame msg s) as Hf. cbn zeta in Hf.
    destruct (write msg s) as [[] s1]. cbn [snd] in *.
    destruct Hf as (_ & _ & _ & Hfw & _).
    rewrite IH, Hfw, Hw. destruct (fileWriter (this s)); reflexivity.
Qed.

Lemma Close_file_world (s : State) :
  world (sys (snd (Close_file s))) =
  match fileWriter (this s) with
  | Some f => File_Close f (File_Sync f (world (sys s)))
  | None => world (sys s)
  end.
Proof.
  unfold Close_file. run. destruct s as [w [wd tr]]; cbn.
  destruct (fileWriter w) as [f |]; reflexivity.
Qed.

(** C7. The first [Close] of a running backend sets the status to
    closed, stops the consumer and writes the queued messages when there
    are channels, and syncs and closes the file, once each: the world it
    leaves is the world after the writes of the queued messages, then
    [Sync], then [Close] on the file.  A call on a closed backend
    returns at once and changes nothing, so every later call is without
    effect.  What is said of the queue is said of runs with one
    consumer. *)
Theorem Close_idempotent (s : State)
    (Hrun : status (this s) = 1)
    (Hch : chans_open (this s)) :
  exists s1,
    Close s = Done s1 /\
    status (this s1) = 0 /\
    (exists mid,
       effects (sys s1) =
         effects (sys s) ++ signal_effects (this s) ++ mid ++
         close_file_effects (fileWriter (this s)) /\
       forallb is_write_effect mid = true /\
       (asyncMsgChan (this s) = None -> mid = []) /\
       (fileWriter (this s) <> None -> one_consumer s ->
        written mid = pending (this s))) /\
    (asyncMsgChan (this s) = None \/ one_consumer s ->
     world (sys s1) =
       match fileWriter (this s) with
       | Some f =>
           File_Close f
             (File_Sync f
                (fold_left (fun wd msg => snd (File_Write f msg wd))
                           (pending (this s)) (world (sys s))))
       | None => world (sys s)
       end) /\
    Close s1 = Done s1 /\
    (forall s2, status (this s2) = 0 -> Close s2 = Done s2).
Proof.
  unfold Close at 1. rewrite Hrun. cbn [Z.eqb].
  unfold modify_this, emit. cbn [snd this sys].
  unfold signal_effects, pending.
  destruct Hch as [[Hm Hs] | (ch & Hm & Hc & Hs)].
  - replace (asyncSignalChan (set_status 0 (this s))) with (@None SignalChan)
      by (symmetry; exact Hs).
    rewrite Hs, Hm.
    set (s1 := mkState (set_status 0 (this s)) (sys s)).
    destruct (Close_file_effects s1) as [Hthis Heff].
    pose proof (Close_file_world s1) as Hwd.
    exists (snd (Close_file s1)).
    assert (Hst : status (this (snd (Close_file s1))) = 0) by (rewrite Hthis; reflexivity).
    split; [reflexivity |]. split; [exact Hst |]. split; [| split; [| split]].
    + exists []. rewrite Heff. cbn. auto.
    + intros _. rewrite Hwd. subst s1. cbn. reflexivity.
    + apply Close_closed. exact Hst.
    + exact Close_closed.
  - replace (asyncSignalChan (set_status 0 (this s)))
      with (Some (mkSignalChan false)) by (symmetry; exact Hs).
    cbn [sig_closed world effects].
    replace (asyncMsgChan (set_status 0 (this s))) with (Some ch)
      by (symmetry; exact Hm).
    rewrite Hc, Hs, Hm.
    set (s3 := mkState _ _).
    unfold bind. destruct (drain (ch_buf ch) s3) as [[] s4] eqn:Ed.
    pose proof (drain_frame (ch_buf ch) s3) as Hd. rewrite Ed in Hd.
    pose proof (drain_world (ch_buf ch) s3) as Hdw. rewrite Ed in Hdw.
    cbn [snd] in Hd, Hdw.
    destruct Hd as (_ & _ & Hst4 & Hfw4 & mid & Heff4 & Hmid & Hwr).
    destruct (Close_file_effects s4) as [Hthis Heff].
    pose proof (Close_file_world s4) as Hwd.
    exists (snd (Close_file s4)).
    assert (Hst : status (this (snd (Close_file s4))) = 0)
      by (rewrite Hthis, Hst4; reflexivity).
    split; [reflexivity |]. split; [exact Hst |]. split; [| split; [| split]].
    + exists mid. rewrite Heff, Heff4, Hfw4. subst s3. cbn.
      rewrite <- !app_assoc. split; [reflexivity |]. split; [exact Hmid |].
      split; [intros H; discriminate H | auto].
    + intros _. rewrite Hwd, Hfw4, Hdw. subst s3. cbn.
      destruct (fileWriter (this s)); reflexivity.
    + apply Close_closed. exact Hst.
    + exact Close_closed.
Qed.

(** ** What [startLogger] keeps and does *)

Lemma no_rename_app (l1 l2 : list (@Effect os)) :
  no_rename l1 -> no_rename l2 -> no_rename (l1 ++ l2).
Proof. unfold no_rename. intros H1 H2. rewrite forallb_app, H1, H2. reflexivity. Qed.

Lemma lines_frame (s : State) :
  let s' := snd (lines s) in
  this s' = this s /\
  exists tail, effects (sys s') = effects (sys s) ++ tail /\ no_rename tail.
Proof.
  unfold lines. run. destruct s as [w [wd tr]]; cbn.
  destruct (os_Open (Filename w) wd) as [[[fd rs] | e] wd']; cbn.
  - split; [reflexivity |]. exists [EOpen (Filename w); EClose fd].
    rewrite <- app_assoc. split; reflexivity.
  - split; [reflexivity |]. exists [EOpen (Filename w)]. split; reflexivity.
Qed.

Lemma initFd_frame (s : State) :
  let s' := snd (initFd s) in
  same_config (this s) (this s') /\ same_chans (this s) (this s') /\
  fileWriter (this s') = fileWriter (this s) /\
  status (this s') = status (this s) /\
  exists tail, effects (sys s') = effects (sys s) ++ tail /\ no_rename tail.
Proof.
  unfold initFd, same_config, same_chans. run.
  destruct s as [w [wd tr]]; cbn.
  destruct (fd_Stat (fileWriter w) (mkState w (mkSys wd tr))) as [[fInfo | e] s0] eqn:Es.
  - assert (s0 = mkState w (mkSys wd tr)) as ->.
    { unfold fd_Stat, ask, ret in Es. destruct (fileWriter w); congruence. }
    cbn. destruct (time_Now wd) as [now wd1]; cbn.
    destruct (fi_Size fInfo >? 0).
    + set (s1 := mkState _ _).
      destruct (lines s1) as [[count err] s2] eqn:El.
      pose proof (lines_frame s1) as Hl. rewrite El in Hl. cbn [snd] in Hl.
      destruct Hl as [Hthis (tail & Heff & Hnr)].
      destruct s2 as [w2 [wd2 tr2]]. cbn in Hthis, Heff. subst w2 tr2.
      destruct err as [e |]; cbn; conjs; exists tail; auto.
    + cbn. conjs. exists []. rewrite app_nil_r. split; reflexivity.
  - assert (s0 = mkState w (mkSys wd tr)) as ->.
    { unfold fd_Stat, ask, ret in Es. destruct (fileWriter w); congruence. }
    cbn. conjs. exists []. rewrite app_nil_r. split; reflexivity.
Qed.

Lemma fd_Close_frame (fd : option File) (s : State) :
  let s' := snd (fd_Close fd s) in
  this s' = this s /\ effects (sys s') = effects (sys s) ++ closing fd.
Proof.
  unfold fd_Close, act_, act, ret. destruct fd; cbn; [| rewrite app_nil_r]; auto.
Qed.

Lemma startLogger_frame (s : State) :
  let s' := snd (startLogger s) in
  same_config (this s) (this s') /\ same_chans (this s) (this s') /\
  exists tail,
    effects (sys s') =
      effects (sys s) ++
      EOpenFile (Filename (this s)) (Z.lor (Z.lor O_WRONLY O_APPEND) O_CREATE)
                (Perm (this s)) :: tail /\
    no_rename tail.
Proof.
  unfold startLogger, createLogFile, OpenFile. run.
  destruct s as [w [wd tr]]; cbn.
  destruct (os_OpenFile _ _ _ wd) as [[file | e] wd1]; cbn.
  - match goal with
    | |- context [fd_Close (fileWriter w) ?x] => set (s0 := x)
    end.
    pose proof (fd_Close_frame (fileWriter w) s0) as H1.
    destruct (fd_Close (fileWriter w) s0) as [[] s1]. cbn [snd] in H1.
    destruct H1 as [Hw1 He1].
    set (s2 := mkState (set_fileWriter (Some file) (this s1)) (sys s1)).
    pose proof (initFd_frame s2) as Hi.
    destruct (initFd s2) as [err s3]. cbn [snd] in Hi.
    destruct Hi as (Hc & Hch & _ & _ & tail & Heff & Hnr).
    subst s2 s0. cbn [this sys effects] in *. rewrite Hw1 in *.
    assert (Hbase : effects (sys s3) =
              tr ++ EOpenFile (Filename w) (Z.lor (Z.lor O_WRONLY O_APPEND) O_CREATE)
                      (Perm w) :: closing (fileWriter w) ++ tail).
    { rewrite Heff, He1, <- !app_assoc. reflexivity. }
    assert (Hcl : no_rename (closing (fileWriter w) ++ tail)).
    { apply no_rename_app; [| exact Hnr]. destruct (fileWriter w); reflexivity. }
    destruct s3 as [w3 [wd3 tr3]]. cbn [this sys effects] in *.
    assert (Hc' : same_config w w3 /\ same_chans w w3)
      by (unfold same_config, same_chans in *; cbn in *; tauto).
    assert (Hc1 : same_config w (set_status 1 w3) /\ same_chans w (set_status 1 w3))
      by (unfold same_config, same_chans in *; cbn in *; tauto).
    destruct Hc' as [Hca Hcb]. destruct Hc1 as [Hcc Hcd].
    destruct err as [e |]; cbn.
    + conjs. eexists. split; [exact Hbase | exact Hcl].
    + destruct (asyncMsgChan w3); unfold emit; cbn.
      * conjs. exists ((closing (fileWriter w) ++ tail) ++ [EGo GoConsumer]).
        split; [rewrite Hbase, <- app_assoc; reflexivity |].
        apply no_rename_app; [exact Hcl | reflexivity].
      * conjs. eexists. split; [exact Hbase | exact Hcl].
  - split; [apply same_config_refl |]. split; [split; reflexivity |].
    exists []. split; reflexivity.
Qed.

(** ** Archiver: the probe loop *)

Lemma probe_stop (fuel : nat) (w : FileBackend) (mt : Time) (num : Z)
    (fName : string) (e : error) (s : State) :
  probe fuel w mt num fName (Some e) s = ((fName, Some e), s).
Proof. destruct fuel; reflexivity. Qed.

(** The loop stops at the first index whose name [Lstat] does not find. *)
Lemma probe_found (w : FileBackend) (mt : Time) (s : State) (n : Z) (e : error) :
  n <= maxFileIndex ->
  os_Lstat (archiveName w mt n) (world (sys s)) = inr e ->
  forall (fuel : nat) (num : Z) (fName : string),
    1 <= num <= n ->
    (Z.to_nat (n - num) < fuel)%nat ->
    (forall m, num <= m < n -> taken (world (sys s)) (archiveName w mt m)) ->
    probe fuel w mt num fName None s = ((archiveName w mt n, Some e), s).
Proof.
  intros Hn Hfree. induction fuel as [| fuel IH]; intros num fName Hnum Hfuel Htaken.
  - lia.
  - cbn [probe is_nil andb].
    replace (num <=? maxFileIndex) with true by (symmetry; apply Z.leb_le; lia).
    unfold bind, Lstat, ask.
    destruct (Z.eq_dec num n) as [-> | Hneq].
    + rewrite Hfree. cbn [err_of]. apply probe_stop.
    + destruct (Htaken num) as [info Hinfo]; [lia |].
      rewrite Hinfo. cbn [err_of].
      rewrite int_add_exact by (unfold maxFileIndex in *; range).
      apply IH; [lia | lia |].
      intros m Hm. apply Htaken. lia.
Qed.

(** When every index up to [maxFileIndex] is taken the loop ends with a
    nil error. *)
Lemma probe_exhausted (w : FileBackend) (mt : Time) (s : State) :
  forall (fuel : nat) (num : Z) (fName : string),
    1 <= num ->
    (forall m, num <= m <= maxFileIndex -> taken (world (sys s)) (archiveName w mt m)) ->
    exists fName',
      probe fuel w mt num fName None s = ((fName', None), s).
Proof.
  induction fuel as [| fuel IH]; intros num fName Hnum Htaken.
  - exists fName. reflexivity.
  - cbn [probe is_nil andb].
    destruct (num <=? maxFileIndex) eqn:Hle.
    + apply Z.leb_le in Hle.
      unfold bind, Lstat, ask.
      destruct (Htaken num) as [info Hinfo]; [lia |].
      rewrite Hinfo. cbn [err_of].
      rewrite int_add_exact by (unfold maxFileIndex in *; range).
      apply IH; [lia |]. intros m Hm. apply Htaken. lia.
    + exists fName. reflexivity.
Qed.

Lemma doRotate_from_found (mt : Time) (s : State) (n : Z) :
  1 <= n <= maxFileIndex ->
  (forall m, 1 <= m < n -> taken (world (sys s)) (archiveName (this s) mt m)) ->
  free (world (sys s)) (archiveName (this s) mt n) ->
  let w := this s in
  let s1 := snd (fd_Close (fileWriter w) s) in
  let rn := Rename (Filename w) (archiveName w mt n) s1 in
  let st := startLogger (snd rn) in
  doRotate_from mt s =
    (match fst st, fst rn with
     | Some e, _ => Some ("Rotate StartLogger: " ++ e ++ nl)%string
     | None, Some e => Some ("Rotate: " ++ e ++ nl)%string
     | None, None => None
     end,
     snd (go GoDeleteOldLog (snd st))).
Proof.
  intros Hn Htaken [e Hfree]. cbn zeta.
  unfold doRotate_from. unfold bind at 1. unfold get_this at 1.
  unfold bind at 1.
  rewrite (probe_found (this s) mt s n e) by
    (try assumption; try lia; unfold maxFileIndex in *; cbn; lia).
  cbn [fst snd]. unfold bind.
  destruct (fd_Close (fileWriter (this s)) s) as [[] s1]. cbn [snd].
  destruct (Rename (Filename (this s)) (archiveName (this s) mt n) s1) as [renameErr s2].
  cbn [fst snd].
  destruct (startLogger s2) as [startErr s3]. cbn [fst snd].
  destruct (go GoDeleteOldLog s3) as [[] s4] eqn:Eg. cbn [snd].
  destruct startErr as [e1 |]; [reflexivity |].
  destruct renameErr as [e2 |]; reflexivity.
Qed.

Lemma doRotate_from_exhausted (mt : Time) (s : State) :
  (forall m, 1 <= m <= maxFileIndex ->
             taken (world (sys s)) (archiveName (this s) mt m)) ->
  doRotate_from mt s = (Some (cannot_find_free (this s)), s).
Proof.
  intros Htaken.
  unfold doRotate_from. unfold bind at 1. unfold get_this at 1.
  unfold bind at 1.
  destruct (probe_exhausted (this s) mt s (Z.to_nat maxFileIndex) 1 "" ltac:(lia) Htaken)
    as [fName' Hp].
  rewrite Hp. reflexivity.
Qed.

(** The date stamp [doRotate] hands to the probe loop. *)
Lemma doRotate_stamp (logTime : Time) (s : State) (info : FileInfo) :
  os_Lstat (Filename (this s)) (world (sys s)) = inl info ->
  doRotate logTime s =
  doRotate_from
    (if Daily (this s) && negb (Day logTime =? dailyOpenDate (this s))
     then fi_ModTime info else logTime) s.
Proof.
  intros Hpresent. unfold doRotate. run. unfold Lstat, ask. rewrite Hpresent.
  cbn [fst snd]. destruct (Daily (this s) && negb (Day logTime =? dailyOpenDate (this s)));
    [| reflexivity].
  rewrite Hpresent. reflexivity.
Qed.

(** ** Archiver: the shape of the names *)

Lemma pad_dec_3_length (n : Z) :
  1 <= n <= maxFileIndex -> String.length (pad_dec 3 n) = 3%nat.
Proof.
  intros Hn.
  assert (Hall : forallb (fun k => Nat.eqb (String.length (pad_dec 3 (Z.of_nat k))) 3)
                         (seq 1 999) = true) by (vm_compute; reflexivity).
  rewrite forallb_forall in Hall.
  specialize (Hall (Z.to_nat n)).
  rewrite Z2Nat.id in Hall by lia.
  apply Nat.eqb_eq, Hall, in_seq. unfold maxFileIndex in Hn. lia.
Qed.

Lemma Format_date_length (t : Time) :
  0 <= t_year t <= 9999 -> 1 <= t_month t <= 12 -> 1 <= t_day t <= 31 ->
  String.length (Format_date t) = 10%nat.
Proof.
  intros Hy Hm Hd.
  assert (Hy4 : forallb (fun k => Nat.eqb (String.length (pad_dec 4 (Z.of_nat k))) 4)
                        (seq 0 (Z.to_nat 10000)) = true) by (vm_compute; reflexivity).
  assert (H2 : forallb (fun k => Nat.eqb (String.length (pad_dec 2 (Z.of_nat k))) 2)
                       (seq 1 31) = true) by (vm_compute; reflexivity).
  rewrite forallb_forall in Hy4, H2.
  pose proof (Hy4 (Z.to_nat (t_year t))) as Ey.
  pose proof (H2 (Z.to_nat (t_month t))) as Em.
  pose proof (H2 (Z.to_nat (t_day t))) as Ed.
  rewrite Z2Nat.id in Ey, Em, Ed by lia.
  rewrite Nat.eqb_eq, in_seq in Ey, Em, Ed.
  unfold Format_date.
  assert (Happ : forall a b, String.length (a ++ b) = (String.length a + String.length b)%nat).
  { induction a as [| c a IH]; intros b; cbn; [reflexivity | now rewrite IH]. }
  rewrite !Happ, Ey, Em, Ed by lia. reflexivity.
Qed.

(** ** Archiver: rotation *)

(** C2. With the active file on disk, rotation picks the archive name
    base.date.NNN followed by the suffix: the date is that of the file's
    modification time when daily rotation is on and the record's day is
    not the opened day, and that of the record otherwise; NNN is the
    first index from 001 whose name is not on disk, and the file is
    renamed to that name and to no other.  When the names of all the
    indices 1 to 999 are on disk, rotation fails with the exhaustion
    error and does nothing. *)
Theorem doRotate_archive_name (logTime : Time) (s : State)
    (info : FileInfo) (stamp : Time)
    (Hpresent : os_Lstat (Filename (this s)) (world (sys s)) = inl info)
    (Hstamp :
       (Daily (this s) = true /\ Day logTime <> dailyOpenDate (this s) /\
        stamp = fi_ModTime info) \/
       (~ (Daily (this s) = true /\ Day logTime <> dailyOpenDate (this s)) /\
        stamp = logTime)) :
  let w := this s in
  let wd := world (sys s) in
  let name := fun n : Z =>
    (fileNameOnly w ++ "." ++ Format_date stamp ++ "." ++ pad_dec 3 n ++ suffix w)%string in
  (forall n : Z,
     1 <= n <= 999 ->
     free wd (name n) ->
     (forall m, 1 <= m < n -> taken wd (name m)) ->
     String.length (pad_dec 3 n) = 3%nat /\
     exists tail,
       effects (sys (snd (doRotate logTime s))) =
         effects (sys s) ++ closing (fileWriter w) ++
         ERename (Filename w) (name n) :: tail /\
       no_rename tail) /\
  ((forall n : Z, 1 <= n <= 999 -> taken wd (name n)) ->
   doRotate logTime s =
     (Some ("Rotate: Cannot find free log number to rename " ++ Filename w ++ nl)%string,
      s)).
Proof.
  intros w wd name.
  rewrite (doRotate_stamp logTime s info Hpresent).
  assert (Hif : (if Daily (this s) && negb (Day logTime =? dailyOpenDate (this s))
                 then fi_ModTime info else logTime) = stamp).
  { destruct Hstamp as [(Hd & Hday & ->) | (Hnot & ->)].
    - rewrite Hd. apply Z.eqb_neq in Hday. rewrite Hday. reflexivity.
    - destruct (Daily (this s)); [| reflexivity].
      destruct (Z.eqb_spec (Day logTime) (dailyOpenDate (this s))); [reflexivity |].
      exfalso. apply Hnot. split; [reflexivity | assumption]. }
  rewrite Hif. split.
  - intros n Hn Hfree Htaken.
    split; [apply pad_dec_3_length; unfold maxFileIndex; lia |].
    rewrite (doRotate_from_found stamp s n) by
      (try exact Hfree; try exact Htaken; unfold maxFileIndex; lia).
    cbn [snd]. fold w.
    set (s1 := snd (fd_Close (fileWriter w) s)).
    destruct (fd_Close_frame (fileWriter w) s) as [_ He1]. fold s1 in He1.
    set (rn := Rename (Filename w) (archiveName w stamp n) s1).
    assert (Hrn : this (snd rn) = this s1 /\
                  effects (sys (snd rn)) =
                    effects (sys s1) ++ [ERename (Filename w) (archiveName w stamp n)]).
    { subst rn. unfold Rename, act.
      destruct (os_Rename _ _ (world (sys s1))); cbn. auto. }
    destruct Hrn as [Hthis He2].
    destruct (startLogger_frame (snd rn)) as (_ & _ & tail & He3 & Hnr).
    unfold go, emit. cbn [snd sys effects].
    eexists. split.
    + rewrite He3, He2, He1, <- !app_assoc. cbn [app]. reflexivity.
    + apply no_rename_app; [| reflexivity].
      unfold no_rename in *. cbn [forallb is_rename negb andb]. exact Hnr.
  - intros Hall. apply doRotate_from_exhausted.
    intros m Hm. apply Hall. unfold maxFileIndex in Hm. lia.
Qed.

(** C3. Once the archive name is chosen, rotation closes the active
    file, renames it, and runs [startLogger] on the state the rename
    leaves, whatever the rename returned: the file at the original path
    is opened right after the rename.  The error reported is that of
    [startLogger] when it failed, else that of the rename when it
    failed, else none. *)
Theorem doRotate_reopens_and_reports (logTime : Time) (s : State)
    (info : FileInfo) (n : Z)
    (Hpresent : os_Lstat (Filename (this s)) (world (sys s)) = inl info)
    (Hn : 1 <= n <= 999) :
  let w := this s in
  let stamp := if Daily w && negb (Day logTime =? dailyOpenDate w)
               then fi_ModTime info else logTime in
  let fName := archiveName w stamp n in
  free (world (sys s)) fName ->
  (forall m, 1 <= m < n -> taken (world (sys s)) (archiveName w stamp m)) ->
  let s1 := snd (fd_Close (fileWriter w) s) in
  let rn := Rename (Filename w) fName s1 in
  let st := startLogger (snd rn) in
  snd (doRotate logTime s) = snd (go GoDeleteOldLog (snd st)) /\
  (exists tail,
     effects (sys (snd st)) =
       effects (sys s) ++ closing (fileWriter w) ++
       [ERename (Filename w) fName;
        EOpenFile (Filename w) (Z.lor (Z.lor O_WRONLY O_APPEND) O_CREATE) (Perm w)] ++
       tail) /\
  fst (doRotate logTime s) =
    match fst st, fst rn with
    | Some e, _ => Some ("Rotate StartLogger: " ++ e ++ nl)%string
    | None, Some e => Some ("Rotate: " ++ e ++ nl)%string
    | None, None => None
    end.
Proof.
  intros w stamp fName Hfree Htaken s1 rn st.
  rewrite (doRotate_stamp logTime s info Hpresent). fold w. fold stamp.
  rewrite (doRotate_from_found stamp s n) by
    (try exact Hfree; try exact Htaken; unfold maxFileIndex; lia).
  cbn [fst snd]. fold w. fold fName. fold s1. fold rn. fold st.
  split; [reflexivity |]. split; [| reflexivity].
  destruct (fd_Close_frame (fileWriter w) s) as [Hw1 He1]. fold s1 in Hw1, He1.
  assert (Hrn : this (snd rn) = this s1 /\
                effects (sys (snd rn)) =
                  effects (sys s1) ++ [ERename (Filename w) fName]).
  { subst rn. unfold Rename, act.
    destruct (os_Rename _ _ (world (sys s1))); cbn. auto. }
  destruct Hrn as [Hthis He2].
  destruct (startLogger_frame (snd rn)) as (_ & _ & tail & He3 & _).
  fold st in He3. rewrite Hthis, Hw1 in He3. fold w in He3.
  exists tail. rewrite He3, He2, He1, <- !app_assoc. reflexivity.
Qed.

(** ** RetentionSweeper *)

Lemma deleteOldLog_fn_nil (path : string) (info : option FileInfo) (s : State) :
  fst (deleteOldLog_fn path info s) = None.
Proof.
  unfold deleteOldLog_fn. unfold bind.
  destruct (deleteOldLog_body path info s) as [[[] | v] s1]; cbn.
  - reflexivity.
  - unfold Stderr, emit. reflexivity.
Qed.

(** The walk calls the callback on every visit. *)
Lemma Walk_visits_all (visits : list (string * option FileInfo)) :
  forall s : State,
    Walk_visits deleteOldLog_fn visits s =
    (None,
     fold_left (fun st v => snd (deleteOldLog_fn (fst v) (snd v) st)) visits s).
Proof.
  induction visits as [| [path info] rest IH]; intros s; cbn [Walk_visits fold_left fst snd].
  - reflexivity.
  - unfold bind. pose proof (deleteOldLog_fn_nil path info s) as Hnil.
    destruct (deleteOldLog_fn path info s) as [err s1]. cbn [fst snd] in *.
    subst err. apply IH.
Qed.

(** X19. The sweep within the range of 64-bit seconds.  It calls the
    callback on every visit of the walk, one after the other.  On a
    visit the callback removes the path, by [os.Remove] on the world the
    reading of the clock leaves, exactly when the entry is not a
    directory, its base name starts with [fileNameOnly] and ends with
    [suffix], and its modification time is less than the time of the
    visit minus [MaxDays] days; it does nothing else to the entry, and an
    entry whose name does not match is left alone whatever its age.  On
    a visit without file information the callback panics, the panic is
    recovered and reported, and the callback returns nil, so the walk
    goes on.  The statement is for values that the product and the
    difference do not overflow. *)
Theorem deleteOldLog_sweep (s : State)
    (Hdays : min_int <= 60 * 60 * 24 * MaxDays (this s) <= max_int) :
  let w := this s in
  let visits := filepath_Walk_visits (filepath_Dir (Filename w)) (world (sys s)) in
  snd (deleteOldLog s) =
    fold_left (fun st v => snd (deleteOldLog_fn (fst v) (snd v) st)) visits s /\
  forall (st : State) (path : string) (info : option FileInfo),
    this st = w ->
    let now := fst (time_Now (world (sys st))) in
    min_int <= Unix now - 60 * 60 * 24 * MaxDays w <= max_int ->
    let r := deleteOldLog_fn path info st in
    fst r = None /\
    this (snd r) = w /\
    exists added,
      effects (sys (snd r)) = effects (sys st) ++ added /\
      match info with
      | None =>
          added = [EStderr (DiagDeleteOld path
                     "invalid memory address or nil pointer dereference")]
      | Some i =>
          (In (ERemove path) added <->
             fi_IsDir i = false /\
             HasPrefix (Base path) (fileNameOnly w) = true /\
             HasSuffix (Base path) (suffix w) = true /\
             Unix (fi_ModTime i) < Unix now - MaxDays w * (24 * 3600)) /\
          (forall e, In e added -> e = ERemove path) /\
          (HasPrefix (Base path) (fileNameOnly w) = false \/
           HasSuffix (Base path) (suffix w) = false -> added = [])
      end /\
      world (sys (snd r)) =
        match info with
        | None => world (sys st)
        | Some i =>
            if fi_IsDir i then world (sys st)
            else if (Unix (fi_ModTime i) <? Unix now - MaxDays w * (24 * 3600)) &&
                    HasPrefix (Base path) (fileNameOnly w) &&
                    HasSuffix (Base path) (suffix w)
                 then os_Remove path (snd (time_Now (world (sys st))))
                 else snd (time_Now (world (sys st)))
        end.
Proof.
  intros w visits. split.
  - unfold deleteOldLog, Walk. run. fold w. fold visits.
    rewrite Walk_visits_all. reflexivity.
  - intros st path info Hthis now Hrange r.
    split; [apply deleteOldLog_fn_nil |].
    subst r. unfold deleteOldLog_fn, deleteOldLog_body. run.
    destruct info as [i |]; cbn.
    + destruct (fi_IsDir i) eqn:Edir; cbn.
      * split; [exact Hthis |]. exists []. rewrite app_nil_r.
        split; [reflexivity |]. split; [| reflexivity]. split; [| split].
        -- split; [intros [] | intros [H _]; discriminate H].
        -- intros e [].
        -- reflexivity.
      * unfold now in *. clear now.
        destruct (time_Now (world (sys st))) as [now wd1].
        cbn [fst] in Hrange. cbn [fst snd this sys world effects].
        rewrite Hthis. fold w.
        rewrite int_mul_exact by (fold w in Hdays; range).
        rewrite int_sub_exact by range.
        replace (86400 * MaxDays w) with (MaxDays w * 86400) by lia.
        destruct (Z.ltb_spec (Unix (fi_ModTime i)) (Unix now - MaxDays w * 86400))
          as [Hold | Hyoung].
        -- destruct (HasPrefix (Base path) (fileNameOnly w)) eqn:Ep;
             destruct (HasSuffix (Base path) (suffix w)) eqn:Es; cbn;
             (split; [reflexivity |]).
           ++ exists [ERemove path]. split; [reflexivity |].
              split; [| reflexivity]. split; [| split].
              ** split; [intros _; repeat split; lia | intros _; left; reflexivity].
              ** intros e [<- | []]. reflexivity.
              ** intros [H | H]; discriminate H.
           ++ exists []. rewrite app_nil_r. split; [reflexivity |].
              split; [| reflexivity]. split; [| split].
              ** split; [intros [] | intros (_ & _ & H & _); discriminate H].
              ** intros e [].
              ** reflexivity.
           ++ exists []. rewrite app_nil_r. split; [reflexivity |].
              split; [| reflexivity]. split; [| split].
              ** split; [intros [] | intros (_ & H & _); discriminate H].
              ** intros e [].
              ** reflexivity.
           ++ exists []. rewrite app_nil_r. split; [reflexivity |].
              split; [| reflexivity]. split; [| split].
              ** split; [intros [] | intros (_ & H & _); discriminate H].
              ** intros e [].
              ** reflexivity.
        -- cbn. split; [reflexivity |].
           exists []. rewrite app_nil_r. split; [reflexivity |].
           split; [| reflexivity]. split; [| split].
           ++ split; [intros [] | intros (_ & _ & _ & H); lia].
           ++ intros e [].
           ++ reflexivity.
    + split; [exact Hthis |]. eexists. split; [reflexivity |]. split; reflexivity.
Qed.

(** ** Backend facade: the constructor *)

Lemma slen_zero (s : string) : (slen s =? 0) = true <-> s = "".
Proof.
  unfold slen. rewrite Z.eqb_eq. destruct s; cbn [String.length]; split;
    intros H; try reflexivity; try discriminate H; lia.
Qed.

Lemma ensure_dir_then_start (w : FileBackend) (p : string) (sy : Sys) :
  exists s0 : State,
    this s0 = w /\
    bind (Stat p)
      (fun r =>
         bind match r with
              | inl d => when (negb (fi_IsDir d)) (MkdirAll p perm_0777)
              | inr _ => MkdirAll p perm_0777
              end
              (fun _ => startLogger))
      (mkState w sy) = startLogger s0.
Proof.
  unfold bind, Stat, ask, when, MkdirAll, act_, act, ret. cbn [fst snd this sys world].
  destruct (os_Stat p (world sy)) as [d | e]; [destruct (fi_IsDir d) |];
    cbn [negb]; eexists; (split; [| reflexivity]); reflexivity.
Qed.

(** With a filename, the constructor builds the backend with its
    defaults, makes sure of the directory, runs [startLogger], and hands
    back the backend and what [startLogger] returned. *)
Lemma NewDefaultFileBackend_start (filename : string) (asyncLen : list Z) (sy : Sys) :
  filename <> "" ->
  exists s0 : State,
    (Filename (this s0) = filename /\ status (this s0) = 0 /\
     fileWriter (this s0) = None /\
     MaxLines (this s0) = 1000000 /\ MaxSize (this s0) = 2 ^ 28 /\
     Daily (this s0) = true /\ MaxDays (this s0) = 7 /\
     Rotate (this s0) = true /\ Perm (this s0) = perm_0660 /\
     (asyncMsgChan (this s0) <> None <-> async_requested asyncLen) /\
     (asyncSignalChan (this s0) <> None <-> async_requested asyncLen)) /\
    NewDefaultFileBackend filename asyncLen sy =
      ((Some (this (snd (startLogger s0))), fst (startLogger s0)),
       sys (snd (startLogger s0))).
Proof.
  intros Hname.
  assert (Hz : (slen filename =? 0) = false).
  { destruct (slen filename =? 0) eqn:E; [| reflexivity].
    apply slen_zero in E. contradiction. }
  unfold NewDefaultFileBackend, async_requested. rewrite Hz. cbv zeta.
  match goal with
  | |- context [bind (Stat ?p) _ (mkState ?w sy)] =>
      destruct (ensure_dir_then_start w p sy) as (s0 & Hthis & Heq)
  end.
  rewrite !Heq. exists s0. split; [| reflexivity].
  rewrite Hthis. clear Heq Hthis.
  destruct asyncLen as [| c rest]; [| destruct (Z.gtb_spec c 0) as [Hc | Hc]];
    cbn [set_names set_chans Filename suffix fileNameOnly];
    destruct (String.eqb (Ext filename) "");
    cbn; conjs;
    try (split; [intros H; exfalso; apply H; reflexivity
                | intros (c' & rest' & Heq & Hc'); try discriminate Heq;
                  injection Heq as <- <-; lia]);
    try (split; [intros _; exists c, rest; split; [reflexivity | lia]
                | intros _; discriminate]).
Qed.

(** C9. With a filename, the backend that [startLogger] is run on has
    the defaults MaxLines 1000000, MaxSize 2^28, Daily, MaxDays 7,
    Rotate and Perm 0660, and so has the backend returned; the two
    channels are made exactly when a first capacity above zero is
    given. *)
Theorem NewDefaultFileBackend_defaults (filename : string) (asyncLen : list Z)
    (sy : Sys) (Hname : filename <> "") :
  exists (s0 : State) (w : FileBackend),
    (status (this s0) = 0 /\
     MaxLines (this s0) = 1000000 /\ MaxSize (this s0) = 2 ^ 28 /\
     Daily (this s0) = true /\ MaxDays (this s0) = 7 /\
     Rotate (this s0) = true /\ Perm (this s0) = 6 * 8 ^ 2 + 6 * 8 + 0) /\
    fst (NewDefaultFileBackend filename asyncLen sy) = (Some w, fst (startLogger s0)) /\
    w = this (snd (startLogger s0)) /\
    Filename w = filename /\
    MaxLines w = 1000000 /\ MaxSize w = 2 ^ 28 /\ Daily w = true /\
    MaxDays w = 7 /\ Rotate w = true /\ Perm w = 6 * 8 ^ 2 + 6 * 8 + 0 /\
    (asyncMsgChan w <> None <-> async_requested asyncLen) /\
    (asyncSignalChan w <> None <-> async_requested asyncLen).
Proof.
  destruct (NewDefaultFileBackend_start filename asyncLen sy Hname)
    as (s0 & (Hf & Hst & _ & Hml & Hms & Hd & Hmd & Hr & Hp & Hc1 & Hc2) & Heq).
  exists s0, (this (snd (startLogger s0))).
  destruct (startLogger_frame s0) as (Hcfg & Hch & _).
  unfold same_config in Hcfg. unfold same_chans in Hch.
  destruct Hcfg as (E1 & E2 & E3 & E4 & E5 & E6 & E7 & _).
  destruct Hch as [E8 E9].
  rewrite Heq, E1, E2, E3, E4, E5, E6, E7, E8, E9. cbn [fst].
  change (6 * 8 ^ 2 + 6 * 8 + 0) with perm_0660.
  conjs.
Qed.

(** C10. The constructor returns a nil backend exactly when the
    filename is empty, with the error that says so.  With a filename it
    returns the backend together with whatever [startLogger] returned:
    when [startLogger] fails, as when the file cannot be opened, the
    backend is still returned, with the error. *)
Theorem NewDefaultFileBackend_nil_iff (filename : string) (asyncLen : list Z)
    (sy : Sys) :
  let r := NewDefaultFileBackend filename asyncLen sy in
  (fst (fst r) = None <-> filename = "") /\
  (filename = "" -> r = ((None, Some "FileBackend must have filename"), sy)) /\
  (filename <> "" ->
   exists s0 : State,
     Filename (this s0) = filename /\ status (this s0) = 0 /\
     (forall err : option error,
        fst (startLogger s0) = err ->
        r = ((Some (this (snd (startLogger s0))), err), sys (snd (startLogger s0)))) /\
     (forall (e : error) (wd' : World),
        os_OpenFile filename (Z.lor (Z.lor O_WRONLY O_APPEND) O_CREATE)
                    (6 * 8 ^ 2 + 6 * 8 + 0) (world (sys s0)) = (inr e, wd') ->
        exists w, fst r = (Some w, Some e) /\ status w = 0)).
Proof.
  intros r.
  assert (Hempty : filename = "" -> r = ((None, Some "FileBackend must have filename"), sy)).
  { intros ->. reflexivity. }
  assert (Hfull : filename <> "" ->
     exists s0 : State,
       Filename (this s0) = filename /\ status (this s0) = 0 /\
       (forall err : option error,
          fst (startLogger s0) = err ->
          r = ((Some (this (snd (startLogger s0))), err), sys (snd (startLogger s0)))) /\
       (forall (e : error) (wd' : World),
          os_OpenFile filename (Z.lor (Z.lor O_WRONLY O_APPEND) O_CREATE)
                      (6 * 8 ^ 2 + 6 * 8 + 0) (world (sys s0)) = (inr e, wd') ->
          exists w, fst r = (Some w, Some e) /\ status w = 0)).
  { intros Hname.
    destruct (NewDefaultFileBackend_start filename asyncLen sy Hname)
      as (s0 & (Hf & Hst & _ & _ & _ & _ & _ & _ & Hp & _) & Heq).
    exists s0. split; [exact Hf |]. split; [exact Hst |]. split.
    - intros err <-. exact Heq.
    - intros e wd' Hopen. subst r. rewrite Heq. cbn [fst].
      unfold startLogger, createLogFile, OpenFile, bind, get_this, act.
      cbn [fst snd this sys world]. rewrite Hf, Hp.
      change perm_0660 with (6 * 8 ^ 2 + 6 * 8 + 0).
      rewrite Hopen. cbn. eexists. split; [reflexivity | exact Hst]. }
  split; [| split; assumption].
  split.
  - intros Hnil. destruct (string_dec filename "") as [E | E]; [exact E |].
    destruct (Hfull E) as (s0 & _ & _ & Hr & _).
    rewrite (Hr _ eq_refl) in Hnil. discriminate Hnil.
  - intros E. rewrite (Hempty E). reflexivity.
Qed.

(** * Further properties of the code *)

(** ** [lines] *)

Lemma bytes_Count_nl_app (a b : list byte) :
  bytes_Count_nl (a ++ b) = bytes_Count_nl a + bytes_Count_nl b.
Proof. unfold bytes_Count_nl. rewrite filter_app. apply len_app. Qed.

Lemma bytes_Count_nl_bounds (a : list byte) : 0 <= bytes_Count_nl a <= len a.
Proof.
  unfold bytes_Count_nl, len. pose proof (filter_length_le (fun b => Byte.eqb b bNL) a).
  lia.
Qed.

Lemma lines_loop_content (rs : ReadStream) :
  forall count : Z,
    0 <= count ->
    count + len (stream_content rs) <= max_int ->
    lines_loop rs count =
      (count + bytes_Count_nl (stream_content rs), stream_error rs).
Proof.
  induction rs as [chunk | chunk e | chunk rest IH]; intros count Hc Hmax;
    cbn [lines_loop stream_content stream_error] in *.
  - pose proof (bytes_Count_nl_bounds chunk).
    rewrite int_add_exact by range. reflexivity.
  - change (bytes_Count_nl []) with 0. now rewrite Z.add_0_r.
  - rewrite len_app in Hmax. pose proof (len_nonneg (stream_content rest)).
    pose proof (bytes_Count_nl_bounds chunk).
    rewrite int_add_exact by range.
    rewrite IH by lia. rewrite bytes_Count_nl_app. f_equal. lia.
Qed.

(** X1. [lines] opens the file and closes it again on every path.  Its
    count is the number of newline bytes among the bytes read, however
    the reads cut them into chunks; when a read fails, the count is that
    of the chunks before the failing read and the error is returned.
    The backend is not changed.  The count is a machine integer: the
    statement is for contents shorter than its range. *)
Theorem lines_counts_newlines (s : State) (fd : File) (rs : ReadStream) (wd' : World)
    (Hopen : os_Open (Filename (this s)) (world (sys s)) = (inl (fd, rs), wd'))
    (Hlen : len (stream_content rs) <= max_int) :
  fst (lines s) = (bytes_Count_nl (stream_content rs), stream_error rs) /\
  this (snd (lines s)) = this s /\
  effects (sys (snd (lines s))) =
    effects (sys s) ++ [EOpen (Filename (this s)); EClose fd].
Proof.
  unfold lines. run. unfold fd_Close, act_, act. cbn [fst snd this sys world effects].
  rewrite Hopen. cbn [fst snd this sys world effects].
  rewrite lines_loop_content by (try lia; exact Hlen).
  rewrite <- app_assoc. auto.
Qed.

(** When the file cannot be opened, [lines] returns zero and the error. *)
Lemma lines_open_error (s : State) (e : error) (wd' : World) :
  os_Open (Filename (this s)) (world (sys s)) = (inr e, wd') ->
  fst (lines s) = (0, Some e) /\ this (snd (lines s)) = this s.
Proof.
  intros Hopen. unfold lines. run. unfold act. cbn [fst snd this sys world effects].
  rewrite Hopen. auto.
Qed.


(** ** Steps that write nothing *)

Lemma open_close_written (l : list (@Effect os)) :
  forallb is_open_close l = true ->
  written l = [] /\ consumers_started l = O.
Proof.
  induction l as [| e l IH]; [auto |].
  cbn [forallb]. intros H. apply andb_true_iff in H. destruct H as [He Hl].
  destruct e; try discriminate He; cbn; auto.
Qed.

Lemma consumers_started_app (l1 l2 : list (@Effect os)) :
  consumers_started (l1 ++ l2) = (consumers_started l1 + consumers_started l2)%nat.
Proof.
  induction l1 as [| e l1 IH]; [reflexivity |].
  destruct e as [| | | | | | | | | g |]; cbn; try exact IH.
  destruct g; cbn; [now rewrite IH | exact IH].
Qed.

Lemma lines_open_close (s : State) :
  this (snd (lines s)) = this s /\
  exists tail,
    effects (sys (snd (lines s))) = effects (sys s) ++ tail /\
    forallb is_open_close tail = true.
Proof.
  unfold lines. run. destruct s as [w [wd tr]]; cbn.
  destruct (os_Open (Filename w) wd) as [[[fd rs] | e] wd']; cbn.
  - split; [reflexivity |]. exists [EOpen (Filename w); EClose fd].
    rewrite <- app_assoc. split; reflexivity.
  - split; [reflexivity |]. exists [EOpen (Filename w)]. split; reflexivity.
Qed.

(** [initFd] assigns the three counters and nothing else; on an error
    the line counter is zero or as it was. *)
Lemma initFd_open_close (s : State) :
  let s' := snd (initFd s) in
  same_config (this s) (this s') /\ same_chans (this s) (this s') /\
  fileWriter (this s') = fileWriter (this s) /\
  status (this s') = status (this s) /\
  exists tail,
    effects (sys s') = effects (sys s) ++ tail /\
    forallb is_open_close tail = true.
Proof.
  unfold initFd, same_config, same_chans. run.
  destruct s as [w [wd tr]]; cbn.
  destruct (fd_Stat (fileWriter w) (mkState w (mkSys wd tr))) as [[fInfo | e] s0] eqn:Es.
  - assert (s0 = mkState w (mkSys wd tr)) as ->.
    { unfold fd_Stat, ask, ret in Es. destruct (fileWriter w); congruence. }
    cbn. destruct (time_Now wd) as [now wd1]; cbn.
    destruct (fi_Size fInfo >? 0).
    + set (s1 := mkState _ _).
      destruct (lines s1) as [[count err] s2] eqn:El.
      pose proof (lines_open_close s1) as Hl. rewrite El in Hl. cbn [snd] in Hl.
      destruct Hl as [Hthis (tail & Heff & Hnr)].
      destruct s2 as [w2 [wd2 tr2]]. cbn in Hthis, Heff. subst w2 tr2.
      destruct err as [e |]; cbn; conjs; exists tail; auto.
    + cbn. conjs. exists []. rewrite app_nil_r. split; reflexivity.
  - assert (s0 = mkState w (mkSys wd tr)) as ->.
    { unfold fd_Stat, ask, ret in Es. destruct (fileWriter w); congruence. }
    cbn. conjs. exists []. rewrite app_nil_r. split; reflexivity.
Qed.

Lemma startLogger_open_fails (s : State) (e : error) (wd' : World) :
  os_OpenFile (Filename (this s)) (Z.lor (Z.lor O_WRONLY O_APPEND) O_CREATE)
              (Perm (this s)) (world (sys s)) = (inr e, wd') ->
  startLogger s =
    (Some e,
     mkState (this s)
       (mkSys wd'
          (effects (sys s) ++
           [EOpenFile (Filename (this s)) (Z.lor (Z.lor O_WRONLY O_APPEND) O_CREATE)
                      (Perm (this s))]))).
Proof.
  intros Hopen. unfold startLogger, createLogFile, OpenFile. run. unfold act.
  cbn [fst snd this sys world effects]. rewrite Hopen. reflexivity.
Qed.

(** What [startLogger] does once the file is opened. *)
Lemma startLogger_after_open (s : State) (file : File) (wd' : World)
    (Hopen : os_OpenFile (Filename (this s)) (Z.lor (Z.lor O_WRONLY O_APPEND) O_CREATE)
                         (Perm (this s)) (world (sys s)) = (inl file, wd')) :
  let s' := snd (startLogger s) in
  let err := fst (startLogger s) in
  fileWriter (this s') = Some file /\
  (err = None -> status (this s') = 1) /\
  (err <> None -> status (this s') = status (this s)) /\
  same_config (this s) (this s') /\ same_chans (this s) (this s') /\
  exists tail,
    effects (sys s') =
      effects (sys s) ++
      EOpenFile (Filename (this s)) (Z.lor (Z.lor O_WRONLY O_APPEND) O_CREATE)
                (Perm (this s)) :: closing (fileWriter (this s)) ++ tail /\
    written tail = [] /\
    (consumers_started tail = 1%nat <-> err = None /\ asyncMsgChan (this s) <> None) /\
    (consumers_started tail <= 1)%nat.
Proof.
  unfold startLogger, createLogFile, OpenFile. run.
  destruct s as [w [wd tr]]. cbn [fst snd this sys world effects] in *.
  rewrite Hopen. cbn [fst snd this sys world effects].
  match goal with
  | |- context [fd_Close (fileWriter w) ?x] => set (s0 := x)
  end.
  pose proof (fd_Close_frame (fileWriter w) s0) as H1.
  destruct (fd_Close (fileWriter w) s0) as [[] s1]. cbn [snd] in H1.
  destruct H1 as [Hw1 He1].
  set (s2 := mkState (set_fileWriter (Some file) (this s1)) (sys s1)).
  pose proof (initFd_open_close s2) as Hi.
  destruct (initFd s2) as [err s3]. cbn [snd] in Hi.
  destruct Hi as (Hc & Hch & Hfw & Hst & tail & Heff & Hoc).
  subst s2 s0. cbn [this sys effects] in *. rewrite Hw1 in *.
  destruct (open_close_written tail Hoc) as [Hwr Hcs].
  assert (Hbase : effects (sys s3) =
            tr ++ EOpenFile (Filename w) (Z.lor (Z.lor O_WRONLY O_APPEND) O_CREATE)
                    (Perm w) :: closing (fileWriter w) ++ tail).
  { rewrite Heff, He1, <- !app_assoc. reflexivity. }
  destruct s3 as [w3 [wd3 tr3]]. cbn [this sys effects] in *.
  assert (Hc' : same_config w w3 /\ same_chans w w3)
    by (unfold same_config, same_chans in *; cbn in *; tauto).
  assert (Hc1 : same_config w (set_status 1 w3) /\ same_chans w (set_status 1 w3))
    by (unfold same_config, same_chans in *; cbn in *; tauto).
  destruct Hc' as [Hca Hcb]. destruct Hc1 as [Hcc Hcd].
  assert (Ham : asyncMsgChan w3 = asyncMsgChan w) by (apply Hcb).
  assert (Hfw' : fileWriter w3 = Some file) by exact Hfw.
  assert (Hfw1 : fileWriter (set_status 1 w3) = Some file) by exact Hfw.
  assert (Hst' : status w3 = status w) by exact Hst.
  destruct err as [e |]; cbn [fst snd this sys effects].
  - conjs.
    + discriminate.
    + intros _. exact Hst.
    + exists tail. split; [exact Hbase |]. split; [exact Hwr |].
      rewrite Hcs. split; [| lia]. split; [discriminate | intros [H _]; discriminate H].
  - change (asyncMsgChan (set_status 1 w3)) with (asyncMsgChan w3).
    rewrite Ham. destruct (asyncMsgChan w) as [ch |]; unfold emit;
      cbn [fst snd this sys effects world].
    + conjs.
      * intros H; contradiction.
      * exists (tail ++ [EGo GoConsumer]).
        split; [rewrite Hbase; repeat (rewrite <- app_assoc || rewrite <- app_comm_cons);
                reflexivity |].
        rewrite written_app, consumers_started_app, Hwr, Hcs. cbn.
        split; [reflexivity |]. split; [| lia].
        split; [intros _; split; [reflexivity | discriminate] | reflexivity].
    + conjs.
      * intros H; contradiction.
      * exists tail. split; [exact Hbase |]. split; [exact Hwr |].
        rewrite Hcs. split; [| lia].
        split; [discriminate | intros [_ H]; contradiction].
Qed.

(** X2. When [startLogger] has opened the file, the backend writes to
    that file from then on and the file it had is closed first; the
    status becomes running exactly when [startLogger] returns nil, and
    is left as it was otherwise; a consumer goroutine is started exactly
    when [startLogger] returns nil and there is a message channel.
    Nothing is written and the settings and channels are kept. *)
Theorem startLogger_opened (s : State) (file : File) (wd' : World)
    (Hopen : os_OpenFile (Filename (this s)) (Z.lor (Z.lor O_WRONLY O_APPEND) O_CREATE)
                         (Perm (this s)) (world (sys s)) = (inl file, wd')) :
  let s' := snd (startLogger s) in
  let err := fst (startLogger s) in
  fileWriter (this s') = Some file /\
  (err = None -> status (this s') = 1) /\
  (err <> None -> status (this s') = status (this s)) /\
  same_config (this s) (this s') /\ same_chans (this s) (this s') /\
  exists tail,
    effects (sys s') =
      effects (sys s) ++
      EOpenFile (Filename (this s)) (Z.lor (Z.lor O_WRONLY O_APPEND) O_CREATE)
                (Perm (this s)) :: closing (fileWriter (this s)) ++ tail /\
    written tail = [] /\
    (consumers_started tail = 1%nat <-> err = None /\ asyncMsgChan (this s) <> None) /\
    (consumers_started tail <= 1)%nat.
Proof. exact (startLogger_after_open s file wd' Hopen). Qed.


Lemma quiet_refl (s : State) : quiet s s.
Proof.
  unfold quiet, same_chans. split; [apply same_config_refl |].
  split; [split; reflexivity |]. split; [auto |]. split; [auto |].
  exists []. rewrite app_nil_r. auto.
Qed.

Lemma quiet_trans (s1 s2 s3 : State) : quiet s1 s2 -> quiet s2 s3 -> quiet s1 s3.
Proof.
  unfold quiet, same_chans.
  intros (Hc1 & [Hm1 Hs1] & Hf1 & Hst1 & a1 & He1 & Hw1)
         (Hc2 & [Hm2 Hs2] & Hf2 & Hst2 & a2 & He2 & Hw2).
  split; [eapply same_config_trans; eassumption |].
  split; [split; congruence |]. split; [auto |]. split; [auto |].
  exists (a1 ++ a2). rewrite He2, He1, <- app_assoc, written_app, Hw1, Hw2. auto.
Qed.

(** A step that keeps the backend and adds effects that are no writes. *)
Lemma quiet_effects (s s' : State) (added : list Effect) :
  this s' = this s ->
  effects (sys s') = effects (sys s) ++ added ->
  written added = [] ->
  quiet s s'.
Proof.
  intros Hthis Heff Hwr. unfold quiet, same_chans. rewrite Hthis.
  split; [apply same_config_refl |].
  split; [split; reflexivity |]. split; [auto |]. split; [auto |].
  exists added. auto.
Qed.

Lemma startLogger_quiet (s : State) : quiet s (snd (startLogger s)).
Proof.
  destruct (os_OpenFile (Filename (this s)) (Z.lor (Z.lor O_WRONLY O_APPEND) O_CREATE)
              (Perm (this s)) (world (sys s))) as [[file | e] wd'] eqn:Hopen.
  - destruct (startLogger_after_open s file wd' Hopen)
      as (Hfw & Hok & Herr & Hc & Hch & tail & Heff & Hwr & _).
    unfold quiet. split; [exact Hc |]. split; [exact Hch |].
    split; [intros _; rewrite Hfw; discriminate |].
    split.
    + intros Hst. destruct (fst (startLogger s)) as [e |] eqn:E.
      * rewrite Herr by discriminate. exact Hst.
      * rewrite Hok by reflexivity. discriminate.
    + eexists. split; [exact Heff |].
      change (EOpenFile ?a ?b ?c :: ?l) with ([EOpenFile a b c] ++ l).
      rewrite !written_app, Hwr. destruct (fileWriter (this s)); reflexivity.
  - rewrite (startLogger_open_fails s e wd' Hopen). cbn [snd].
    eapply quiet_effects; [reflexivity | reflexivity | reflexivity].
Qed.

Lemma probe_state (w : FileBackend) (mt : Time) (s : State) :
  forall (fuel : nat) (num : Z) (fName : string) (err : option error),
    snd (probe fuel w mt num fName err s) = s.
Proof.
  induction fuel as [| fuel IH]; intros num fName err; cbn [probe].
  - reflexivity.
  - destruct (is_nil err && (num <=? maxFileIndex)); [| reflexivity].
    unfold bind, Lstat, ask. apply IH.
Qed.

Lemma doRotate_from_quiet (mt : Time) (s : State) : quiet s (snd (doRotate_from mt s)).
Proof.
  unfold doRotate_from. unfold bind at 1. unfold get_this at 1. unfold bind at 1.
  pose proof (probe_state (this s) mt s (Z.to_nat maxFileIndex) 1 "" None) as Hp.
  destruct (probe (Z.to_nat maxFileIndex) (this s) mt 1 "" None s) as [[fName err] s0].
  cbn [snd fst] in *. subst s0.
  destruct err as [e |]; [| apply quiet_refl].
  unfold bind.
  pose proof (fd_Close_frame (fileWriter (this s)) s) as Hc.
  destruct (fd_Close (fileWriter (this s)) s) as [[] s1]. cbn [snd] in Hc.
  destruct Hc as [Hw1 He1].
  assert (Hq1 : quiet s s1).
  { eapply quiet_effects; [exact Hw1 | exact He1 |].
    destruct (fileWriter (this s)); reflexivity. }
  assert (Hq2 : quiet s1 (snd (Rename (Filename (this s)) fName s1))).
  { unfold Rename, act. destruct (os_Rename _ _ _) as [r wd2]. cbn [snd].
    eapply quiet_effects; reflexivity. }
  destruct (Rename (Filename (this s)) fName s1) as [renameErr s2]. cbn [snd] in Hq2.
  pose proof (startLogger_quiet s2) as Hq3.
  destruct (startLogger s2) as [startErr s3]. cbn [snd] in Hq3.
  assert (Hq4 : quiet s3 (snd (go GoDeleteOldLog s3))).
  { unfold go, emit. cbn [snd]. eapply quiet_effects; reflexivity. }
  destruct (go GoDeleteOldLog s3) as [[] s4]. cbn [snd] in Hq4.
  assert (Hq : quiet s s4).
  { eapply quiet_trans; [exact Hq1 |]. eapply quiet_trans; [exact Hq2 |].
    eapply quiet_trans; [exact Hq3 | exact Hq4]. }
  destruct startErr as [e1 |]; [exact Hq |].
  destruct renameErr as [e2 |]; exact Hq.
Qed.

Lemma doRotate_quiet (logTime : Time) (s : State) : quiet s (snd (doRotate logTime s)).
Proof.
  destruct (os_Lstat (Filename (this s)) (world (sys s))) as [info | e] eqn:E.
  - rewrite (doRotate_stamp logTime s info E). apply doRotate_from_quiet.
  - unfold doRotate. run. unfold Lstat, ask. cbn [fst snd]. rewrite E.
    apply quiet_refl.
Qed.

Lemma Log_rotate_quiet (msg : list byte) (d : Z) (rec : Record_) (s : State) :
  quiet s (snd (Log_rotate msg d rec s)).
Proof.
  unfold Log_rotate. run.
  destruct (Rotate (this s)); [| apply quiet_refl].
  destruct (needRotate (this s) (len msg) d) eqn:E; [| apply quiet_refl].
  cbn [fst snd this sys]. unfold when. rewrite E.
  pose proof (doRotate_quiet (Time_ rec) s) as Hq.
  destruct (doRotate (Time_ rec) s) as [[e |] s1]; cbn [snd] in *; [| exact Hq].
  eapply quiet_trans; [exact Hq |].
  eapply quiet_effects; reflexivity.
Qed.

(** When rotation is off or not due, the rotation step of [Log] does
    nothing. *)
Lemma Log_rotate_not_due (msg : list byte) (d : Z) (rec : Record_) (s : State) :
  Rotate (this s) = false \/ needRotate (this s) (len msg) d = false ->
  Log_rotate msg d rec s = (tt, s).
Proof.
  intros H. unfold Log_rotate. run.
  destruct (Rotate (this s)); [| reflexivity].
  destruct H as [H | H]; [discriminate H |]. unfold when. rewrite H. reflexivity.
Qed.


(** ** [Log] and [Close] together *)

Lemma terminated_shape (msg : list byte) :
  msg <> [] -> len msg <= max_int ->
  (exists front, terminated msg = front ++ [bNL]) /\
  ((terminated msg = msg /\ exists front, msg = front ++ [bNL]) \/
   (terminated msg = msg ++ [bNL] /\ forall front, msg <> front ++ [bNL])).
Proof.
  intros Hne Hlen. destruct (exists_last Hne) as (front & last & ->).
  unfold terminated. rewrite index_last by exact Hlen.
  destruct (Byte.eqb last bNL) eqn:E; cbn [negb].
  - apply byte_dec_bl in E. subst last.
    split; [exists front; reflexivity |]. left. split; [reflexivity |].
    exists front. reflexivity.
  - split; [exists (front ++ [last]); reflexivity |]. right.
    split; [reflexivity |]. intros front' Heq.
    apply app_inj_tail in Heq. destruct Heq as [_ ->].
    rewrite byte_dec_lb in E by reflexivity. discriminate E.
Qed.

(** On a running backend and a rendering that is not empty once
    stripped, [Log] is the rotation step followed by the dispatch of the
    terminated message. *)
Lemma Log_running (calldepth : Z) (rec : Record_) (s : State) :
  status (this s) <> 0 ->
  let rendered := list_byte_of_string (Formatted rec (int_add calldepth 1) false) in
  let msg := colorRegexp_ReplaceAll_empty rendered in
  len rendered <= max_int ->
  msg <> [] ->
  Log calldepth rec s =
    Log_dispatch (terminated msg)
      (snd (Log_rotate (terminated msg) (Day (Time_ rec)) rec s)).
Proof.
  intros Hrun rendered msg Hlen Hne.
  assert (Hst : (status (this s) =? 0) = false) by (apply Z.eqb_neq; exact Hrun).
  assert (Hl : len msg <= max_int) by (pose proof (strip_len rendered); subst msg; lia).
  unfold Log. rewrite Hst. fold rendered. fold msg. unfold terminated.
  destruct (exists_last Hne) as (front & last & Heq).
  rewrite Heq in *. rewrite index_last by exact Hl. reflexivity.
Qed.

Lemma written_write_attempt (fd : option File) (msg : list byte) :
  fd <> None -> written (write_attempt fd msg) = [msg].
Proof. destruct fd; [reflexivity | contradiction]. Qed.

(** X3. In synchronous mode every record whose stripped rendering is
    not empty is handed to [Write] exactly once, whether rotation was
    due or not and whatever came of it; the bytes written are the
    stripped rendering, with one newline added unless it already ends in
    one, so they always end in a newline. *)
Theorem Log_writes_once (calldepth : Z) (rec : Record_) (s : State)
    (Hrun : status (this s) <> 0)
    (Hsync : asyncMsgChan (this s) = None)
    (Hfd : fileWriter (this s) <> None)
    (Hlen : len (list_byte_of_string (Formatted rec (int_add calldepth 1) false))
            <= max_int)
    (Hne : colorRegexp_ReplaceAll_empty
             (list_byte_of_string (Formatted rec (int_add calldepth 1) false)) <> []) :
  let msg := colorRegexp_ReplaceAll_empty
               (list_byte_of_string (Formatted rec (int_add calldepth 1) false)) in
  exists s' added out,
    Log calldepth rec s = Done s' /\
    effects (sys s') = effects (sys s) ++ added /\
    written added = [out] /\
    (exists front, out = front ++ [bNL]) /\
    ((out = msg /\ exists front, msg = front ++ [bNL]) \/
     (out = msg ++ [bNL] /\ forall front, msg <> front ++ [bNL])).
Proof.
  intros msg.
  assert (Hl : len msg <= max_int)
    by (pose proof (strip_len (list_byte_of_string
                                 (Formatted rec (int_add calldepth 1) false)));
        subst msg; lia).
  rewrite (Log_running calldepth rec s Hrun Hlen Hne). fold msg.
  pose proof (Log_rotate_quiet (terminated msg) (Day (Time_ rec)) rec s) as Hq.
  destruct (Log_rotate (terminated msg) (Day (Time_ rec)) rec s) as [[] s0].
  cbn [snd] in *.
  destruct Hq as (_ & [Hm _] & Hf & _ & a0 & He0 & Hw0).
  unfold Log_dispatch. rewrite Hm, Hsync.
  pose proof (write_frame (terminated msg) s0) as Hw. cbn zeta in Hw.
  destruct Hw as (_ & _ & _ & _ & report & He1 & _ & Hw1).
  destruct (terminated_shape msg Hne Hl) as [Hend Hcases].
  exists (snd (write (terminated msg) s0)),
         (a0 ++ write_attempt (fileWriter (this s0)) (terminated msg) ++ report),
         (terminated msg).
  split; [reflexivity |]. split; [rewrite He1, He0, <- !app_assoc; reflexivity |].
  split; [| split; assumption].
  rewrite !written_app, Hw0, Hw1, written_write_attempt by auto. reflexivity.
Qed.

(** X4. In synchronous mode, when rotation is off or not due, [Log] is
    one [write] of the terminated message and nothing else: no file is
    closed, renamed or opened. *)
Theorem Log_not_due_is_write (calldepth : Z) (rec : Record_) (s : State)
    (Hrun : status (this s) <> 0)
    (Hsync : asyncMsgChan (this s) = None)
    (Hlen : len (list_byte_of_string (Formatted rec (int_add calldepth 1) false))
            <= max_int)
    (Hne : colorRegexp_ReplaceAll_empty
             (list_byte_of_string (Formatted rec (int_add calldepth 1) false)) <> []) :
  let msg := terminated (colorRegexp_ReplaceAll_empty
               (list_byte_of_string (Formatted rec (int_add calldepth 1) false))) in
  Rotate (this s) = false \/ needRotate (this s) (len msg) (Day (Time_ rec)) = false ->
  Log calldepth rec s = Done (snd (write msg s)).
Proof.
  intros msg Hdue.
  rewrite (Log_running calldepth rec s Hrun Hlen Hne). fold msg.
  rewrite (Log_rotate_not_due msg (Day (Time_ rec)) rec s Hdue). cbn [snd].
  unfold Log_dispatch. rewrite Hsync. reflexivity.
Qed.

Lemma Close_status (s s1 : State) : Close s = Done s1 -> status (this s1) = 0.
Proof.
  unfold Close. destruct (Z.eqb_spec (status (this s)) 0) as [E | _].
  - intros H. injection H as <-. exact E.
  - unfold modify_this, emit. cbn [snd this sys].
    destruct (asyncSignalChan (set_status 0 (this s))) as [sg |].
    + destruct (sig_closed sg); [discriminate |].
      cbn [world effects].
      destruct (asyncMsgChan (set_status 0 (this s))) as [ch |]; [| discriminate].
      destruct (ch_closed ch); [discriminate |].
      intros H. injection H as <-. unfold bind.
      match goal with
      | |- context [drain (ch_buf ch) ?x] => set (s3 := x)
      end.
      pose proof (drain_frame (ch_buf ch) s3) as Hd.
      destruct (drain (ch_buf ch) s3) as [[] s4]. cbn [snd] in Hd.
      destruct Hd as (_ & _ & Hst & _).
      destruct (Close_file_effects s4) as [Hthis _].
      rewrite Hthis, Hst. reflexivity.
    + intros H. injection H as <-.
      match goal with
      | |- context [Close_file ?x] => destruct (Close_file_effects x) as [Hthis _]
      end.
      rewrite Hthis. reflexivity.
Qed.

(** X5. Once [Close] has returned, [Log] does nothing: whatever the
    record, even one whose rendering is empty, the state is as [Close]
    left it. *)
Theorem Log_after_Close (calldepth : Z) (rec : Record_) (s s1 : State)
    (Hclose : Close s = Done s1) :
  Log calldepth rec s1 = Done s1.
Proof.
  unfold Log. rewrite (Close_status s s1 Hclose). reflexivity.
Qed.


(** [Close] on a backend that is not closed and whose channels are as
    the constructor leaves them. *)
Lemma Close_running (s : State) :
  status (this s) <> 0 -> chans_open (this s) ->
  exists s1 mid,
    Close s = Done s1 /\
    effects (sys s1) =
      effects (sys s) ++ signal_effects (this s) ++ mid ++
      close_file_effects (fileWriter (this s)) /\
    forallb is_write_effect mid = true /\
    (fileWriter (this s) <> None -> written mid = pending (this s)).
Proof.
  intros Hrun Hch. unfold Close.
  destruct (Z.eqb_spec (status (this s)) 0) as [E | _]; [contradiction |].
  unfold modify_this, emit. cbn [snd this sys].
  unfold signal_effects, pending.
  destruct Hch as [[Hm Hs] | (ch & Hm & Hc & Hs)].
  - replace (asyncSignalChan (set_status 0 (this s))) with (@None SignalChan)
      by (symmetry; exact Hs).
    rewrite Hs, Hm.
    set (s1 := mkState (set_status 0 (this s)) (sys s)).
    destruct (Close_file_effects s1) as [Hthis Heff].
    exists (snd (Close_file s1)), []. split; [reflexivity |].
    split; [rewrite Heff; reflexivity |]. split; reflexivity.
  - replace (asyncSignalChan (set_status 0 (this s)))
      with (Some (mkSignalChan false)) by (symmetry; exact Hs).
    cbn [sig_closed world effects].
    replace (asyncMsgChan (set_status 0 (this s))) with (Some ch)
      by (symmetry; exact Hm).
    rewrite Hc, Hs, Hm.
    set (s3 := mkState _ _).
    unfold bind. destruct (drain (ch_buf ch) s3) as [[] s4] eqn:Ed.
    pose proof (drain_frame (ch_buf ch) s3) as Hd. rewrite Ed in Hd.
    cbn [snd] in Hd.
    destruct Hd as (_ & _ & Hst4 & Hfw4 & mid & Heff4 & Hmid & Hwr).
    destruct (Close_file_effects s4) as [Hthis Heff].
    exists (snd (Close_file s4)), mid. split; [reflexivity |].
    split; [| split; [exact Hmid | exact Hwr]].
    rewrite Heff, Heff4, Hfw4. subst s3. cbn.
    rewrite <- !app_assoc. reflexivity.
Qed.

Lemma write_effects_no_consumer (l : list (@Effect os)) :
  forallb is_write_effect l = true -> consumers_started l = O.
Proof.
  induction l as [| e l IH]; [reflexivity |].
  cbn [forallb]. intros H. apply andb_true_iff in H. destruct H as [He Hl].
  destruct e as [| | | | | | | | d | g |]; try discriminate He; cbn; auto.
Qed.

(** The send of [Log] on an open message channel: the message joins the
    queue at its end, after the consumer has written the oldest queued
    message when the queue was full. *)
Lemma Log_dispatch_async (msg : list byte) (s : State) (ch : MsgChan) :
  asyncMsgChan (this s) = Some ch ->
  ch_closed ch = false ->
  fileWriter (this s) <> None ->
  exists s1 added ch1,
    Log_dispatch msg s = Done s1 /\
    effects (sys s1) = effects (sys s) ++ added /\
    written added ++ ch_buf ch1 = ch_buf ch ++ [msg] /\
    consumers_started added = O /\
    asyncMsgChan (this s1) = Some ch1 /\ ch_closed ch1 = false /\
    asyncSignalChan (this s1) = asyncSignalChan (this s) /\
    fileWriter (this s1) = fileWriter (this s) /\
    status (this s1) = status (this s) /\
    Rotate (this s1) = Rotate (this s).
Proof.
  intros Hm Hc Hfd. unfold Log_dispatch. rewrite Hm, Hc.
  destruct (len (ch_buf ch) <? ch_cap ch).
  - rewrite Hm. unfold modify_this. cbn [snd].
    eexists _, [], (mkMsgChan (ch_cap ch) (ch_buf ch ++ [msg]) (ch_closed ch)).
    split; [reflexivity |]. cbn. rewrite app_nil_r. conjs.
  - unfold consumer_receive. run. rewrite Hm.
    destruct (ch_buf ch) as [| h rest] eqn:Eb.
    + cbn [snd]. rewrite Hm. unfold modify_this. cbn [snd].
      eexists _, [], (mkMsgChan (ch_cap ch) (ch_buf ch ++ [msg]) (ch_closed ch)).
      split; [reflexivity |]. cbn. rewrite app_nil_r, Eb. conjs.
    + cbn [fst snd this sys].
      set (s0 := mkState _ (sys s)).
      pose proof (write_frame h s0) as Hw. cbn zeta in Hw.
      destruct (write h s0) as [[] s1]. cbn [snd] in *.
      destruct Hw as (Hcfg & [Hm1 Hs1] & Hst1 & Hfw1 & report & He1 & Hrep & Hw1).
      assert (Hrot : Rotate (this s1) = Rotate (this s)) by (apply Hcfg).
      subst s0. cbn [this sys set_chans asyncMsgChan asyncSignalChan fileWriter status] in *.
      rewrite Hm1. unfold modify_this. cbn [snd].
      eexists _, _, (mkMsgChan (ch_cap ch) (rest ++ [msg]) (ch_closed ch)).
      split; [reflexivity |].
      cbn [this sys effects set_chans asyncMsgChan asyncSignalChan fileWriter status
           ch_buf ch_closed ch_cap Rotate].
      split; [exact He1 |].
      rewrite written_app, Hw1, written_write_attempt, app_nil_r by exact Hfd.
      rewrite consumers_started_app, (write_effects_no_consumer report Hrep).
      destruct (fileWriter (this s)); [| contradiction]. cbn [write_attempt].
      conjs.
Qed.

Lemma Log_all_async (calldepth : Z) (recs : list Record_) :
  forall (s : State) (ch : MsgChan),
    status (this s) <> 0 ->
    asyncMsgChan (this s) = Some ch ->
    ch_closed ch = false ->
    fileWriter (this s) <> None ->
    Rotate (this s) = false ->
    Forall (loggable calldepth) recs ->
    exists s1 added ch1,
      Log_all calldepth recs s = Done s1 /\
      effects (sys s1) = effects (sys s) ++ added /\
      written added ++ ch_buf ch1 = ch_buf ch ++ map (message_of calldepth) recs /\
      consumers_started added = O /\
      asyncMsgChan (this s1) = Some ch1 /\ ch_closed ch1 = false /\
      asyncSignalChan (this s1) = asyncSignalChan (this s) /\
      fileWriter (this s1) = fileWriter (this s) /\
      status (this s1) = status (this s).
Proof.
  induction recs as [| rec rest IH]; intros s ch Hrun Hm Hc Hfd Hrot Hrecs;
    cbn [Log_all map].
  - exists s, [], ch. rewrite !app_nil_r. conjs.
  - inversion Hrecs as [| r l [Hlen Hne] Hrest]; subst.
    rewrite (Log_running calldepth rec s Hrun Hlen Hne).
    fold (message_of calldepth rec).
    rewrite (Log_rotate_not_due _ (Day (Time_ rec)) rec s (or_introl Hrot)). cbn [snd].
    destruct (Log_dispatch_async (message_of calldepth rec) s ch Hm Hc Hfd)
      as (s1 & a1 & ch1 & Hlog & He1 & Hw1 & Hc1 & Hm1 & Hcl1 & Hs1 & Hfw1 & Hst1 & Hr1).
    rewrite Hlog.
    destruct (IH s1 ch1) as (s2 & a2 & ch2 & Hlog2 & He2 & Hw2 & Hc2 & Hm2 & Hcl2 &
                             Hs2 & Hfw2 & Hst2); try congruence.
    exists s2, (a1 ++ a2), ch2. split; [exact Hlog2 |].
    split; [rewrite He2, He1, <- app_assoc; reflexivity |].
    split.
    + rewrite written_app, <- app_assoc, Hw2, app_assoc, Hw1, <- app_assoc. reflexivity.
    + rewrite consumers_started_app, Hc1, Hc2. conjs; congruence.
Qed.

(** X6. With rotation switched off, so that the backend keeps the one
    consumer it has, no message is lost and none is reordered in
    asynchronous mode: when records are logged one after the other and
    the backend is then closed, the messages handed to [Write] are the
    messages that were queued, in their order, followed by the messages
    of the records, in the order of the calls; no consumer is started on
    the way. *)
Theorem Logs_then_Close_write_in_order (calldepth : Z) (recs : list Record_)
    (s : State) (ch : MsgChan)
    (Hrun : status (this s) <> 0)
    (Hm : asyncMsgChan (this s) = Some ch)
    (Hopen : ch_closed ch = false)
    (Hs : asyncSignalChan (this s) = Some (mkSignalChan false))
    (Hfd : fileWriter (this s) <> None)
    (Hrot : Rotate (this s) = false)
    (Hone : one_consumer s)
    (Hrecs : Forall (loggable calldepth) recs) :
  exists s1 s2 added,
    Log_all calldepth recs s = Done s1 /\
    Close s1 = Done s2 /\
    effects (sys s2) = effects (sys s) ++ added /\
    written added = ch_buf ch ++ map (message_of calldepth) recs /\
    consumers_started added = O /\
    one_consumer s2.
Proof.
  destruct (Log_all_async calldepth recs s ch Hrun Hm Hopen Hfd Hrot Hrecs)
    as (s1 & a1 & ch1 & Hlog & He1 & Hw1 & Hc1 & Hm1 & Hcl1 & Hs1 & Hfw1 & Hst1).
  assert (Hrun1 : status (this s1) <> 0) by (rewrite Hst1; auto).
  assert (Hch1 : chans_open (this s1)).
  { right. exists ch1. split; [exact Hm1 |]. split; [exact Hcl1 |]. congruence. }
  assert (Hfd1 : fileWriter (this s1) <> None) by (rewrite Hfw1; auto).
  destruct (Close_running s1 Hrun1 Hch1) as (s2 & mid & Hclose & He2 & Hmid & Hw2).
  assert (Hsig : written (signal_effects (this s1)) = [] /\
                 consumers_started (signal_effects (this s1)) = O)
    by (unfold signal_effects; destruct (asyncSignalChan (this s1)); auto).
  assert (Hcf : written (close_file_effects (fileWriter (this s1))) = [] /\
                consumers_started (close_file_effects (fileWriter (this s1))) = O)
    by (destruct (fileWriter (this s1)); auto).
  destruct Hsig as [Hsw Hsc]. destruct Hcf as [Hcw Hcc].
  assert (Hadded : consumers_started
                     (a1 ++ signal_effects (this s1) ++ mid ++
                      close_file_effects (fileWriter (this s1))) = O).
  { rewrite !consumers_started_app, Hc1, Hsc, Hcc,
      (write_effects_no_consumer mid Hmid). reflexivity. }
  exists s1, s2. eexists. split; [exact Hlog |]. split; [exact Hclose |].
  split; [rewrite He2, He1, <- !app_assoc; reflexivity |].
  split; [| split; [exact Hadded |]].
  - rewrite !written_app, (Hw2 Hfd1), Hsw, Hcw, app_nil_r. cbn [app].
    unfold pending. rewrite Hm1. exact Hw1.
  - unfold one_consumer in *. rewrite He2, He1, <- !app_assoc.
    rewrite consumers_started_app, Hadded. lia.
Qed.

(** ** Rotation that fails *)

(** X7. When rotation has closed and renamed the active file and the
    file cannot be opened again, the backend is exactly as it was before
    the rotation: it still holds the descriptor that was closed, its
    status and its counters are unchanged, so the next record finds
    rotation due as this one did.  The error returned is that of the
    opening, and the retention sweep is started all the same. *)
Theorem doRotate_reopen_refused (logTime : Time) (s : State)
    (info : FileInfo) (n : Z) (e : error) (wd' : World)
    (Hpresent : os_Lstat (Filename (this s)) (world (sys s)) = inl info)
    (Hn : 1 <= n <= 999) :
  let w := this s in
  let stamp := if Daily w && negb (Day logTime =? dailyOpenDate w)
               then fi_ModTime info else logTime in
  let fName := archiveName w stamp n in
  free (world (sys s)) fName ->
  (forall m, 1 <= m < n -> taken (world (sys s)) (archiveName w stamp m)) ->
  let rn := Rename (Filename w) fName (snd (fd_Close (fileWriter w) s)) in
  os_OpenFile (Filename w) (Z.lor (Z.lor O_WRONLY O_APPEND) O_CREATE) (Perm w)
              (world (sys (snd rn))) = (inr e, wd') ->
  fst (doRotate logTime s) = Some ("Rotate StartLogger: " ++ e ++ nl)%string /\
  this (snd (doRotate logTime s)) = w /\
  effects (sys (snd (doRotate logTime s))) =
    effects (sys s) ++ closing (fileWriter w) ++
    [ERename (Filename w) fName;
     EOpenFile (Filename w) (Z.lor (Z.lor O_WRONLY O_APPEND) O_CREATE) (Perm w);
     EGo GoDeleteOldLog].
Proof.
  intros w stamp fName Hfree Htaken rn Hopen.
  rewrite (doRotate_stamp logTime s info Hpresent). fold w. fold stamp.
  rewrite (doRotate_from_found stamp s n) by
    (try exact Hfree; try exact Htaken; unfold maxFileIndex; lia).
  cbn [fst snd]. fold w. fold fName. fold rn.
  destruct (fd_Close_frame (fileWriter w) s) as [Hw1 He1].
  assert (Hrn : this (snd rn) = w /\
                effects (sys (snd rn)) =
                  effects (sys s) ++ closing (fileWriter w) ++
                  [ERename (Filename w) fName]).
  { subst rn. unfold Rename, act.
    destruct (os_Rename _ _ _); cbn [snd this sys effects].
    rewrite He1, <- app_assoc. auto. }
  destruct Hrn as [Hthis He2].
  assert (Hopen' : os_OpenFile (Filename (this (snd rn)))
                     (Z.lor (Z.lor O_WRONLY O_APPEND) O_CREATE)
                     (Perm (this (snd rn))) (world (sys (snd rn))) = (inr e, wd'))
    by (rewrite Hthis; exact Hopen).
  rewrite (startLogger_open_fails (snd rn) e wd' Hopen').
  cbn [fst snd]. unfold go, emit. cbn [snd this sys effects world].
  rewrite Hthis, He2, <- !app_assoc. auto.
Qed.

(** X8. When rotation is due and the active file is no longer on disk,
    [Log] reports the error of [Lstat] on the diagnostic stream and then
    writes the message as usual, to the descriptor it holds: nothing is
    closed, renamed or opened. *)
Theorem Log_active_file_missing (calldepth : Z) (rec : Record_) (s : State)
    (e : error)
    (Hrun : status (this s) <> 0)
    (Hsync : asyncMsgChan (this s) = None)
    (Hlen : len (list_byte_of_string (Formatted rec (int_add calldepth 1) false))
            <= max_int)
    (Hne : colorRegexp_ReplaceAll_empty
             (list_byte_of_string (Formatted rec (int_add calldepth 1) false)) <> [])
    (Hrot : Rotate (this s) = true)
    (Hmissing : os_Lstat (Filename (this s)) (world (sys s)) = inr e) :
  let msg := terminated (colorRegexp_ReplaceAll_empty
               (list_byte_of_string (Formatted rec (int_add calldepth 1) false))) in
  needRotate (this s) (len msg) (Day (Time_ rec)) = true ->
  Log calldepth rec s =
    Done (snd (write msg (snd (Stderr (DiagRotate (Filename (this s)) e) s)))).
Proof.
  intros msg Hdue.
  rewrite (Log_running calldepth rec s Hrun Hlen Hne). fold msg.
  assert (Hr : Log_rotate msg (Day (Time_ rec)) rec s =
               (tt, snd (Stderr (DiagRotate (Filename (this s)) e) s))).
  { unfold Log_rotate. run. rewrite Hrot. unfold when. rewrite Hdue.
    cbn [fst snd this sys]. rewrite Hdue.
    unfold doRotate. run. unfold Lstat, ask. cbn [fst snd]. rewrite Hmissing.
    reflexivity. }
  rewrite Hr. cbn [snd]. unfold Log_dispatch.
  unfold Stderr, emit. cbn [snd this]. rewrite Hsync. reflexivity.
Qed.

(** ** Counters and the rotation policy *)

(** X9. Writing never makes a due rotation undue: when [needRotate]
    holds before a [write] it holds after it, whether the write
    succeeded or failed and whatever the size asked about.  The counters
    are machine integers: the statement is for counters that the
    additions do not overflow. *)
Theorem write_keeps_rotation_due (msg : list byte) (s : State) (size size' day : Z)
    (Hlines : min_int <= maxLinesCurLines (this s) < max_int)
    (Hsize : min_int <= maxSizeCurSize (this s) /\
             maxSizeCurSize (this s) + len msg <= max_int)
    (Hdue : needRotate (this s) size day = true) :
  needRotate (this (snd (write msg s))) size' day = true.
Proof.
  pose proof (len_nonneg msg) as Hlen.
  revert Hdue. unfold write, needRotate. run.
  destruct s as [w [wd tr]]; cbn in *.
  destruct (fileWriter w) as [f |]; cbn; [| auto].
  unfold act; cbn. destruct (File_Write f msg wd) as [[err |] wd']; cbn; [auto |].
  rewrite !int_add_exact by range.
  rewrite !orb_true_iff, !andb_true_iff, !Z.gtb_gt, !Z.geb_ge.
  intros [[[H1 H2] | [H1 H2]] | H]; [left; left | left; right | right]; auto; lia.
Qed.


(** ** Names *)

Lemma append_empty_r (s : string) : (s ++ "")%string = s.
Proof. induction s as [| c s IH]; cbn; [reflexivity | now rewrite IH]. Qed.

Lemma substring_0_length (s : string) : substring 0 (String.length s) s = s.
Proof. induction s as [| c s IH]; cbn; [reflexivity | now rewrite IH]. Qed.

Lemma substring_split (s : string) :
  forall k : nat,
    (k <= String.length s)%nat ->
    (substring 0 k s ++ substring k (String.length s - k) s)%string = s.
Proof.
  induction s as [| c s IH]; intros k Hk.
  - destruct k; [reflexivity | cbn in Hk; lia].
  - destruct k as [| k].
    + cbn [substring append]. rewrite Nat.sub_0_r.
      change (String.length (String c s)) with (S (String.length s)).
      cbn [substring]. now rewrite substring_0_length.
    + cbn [substring append String.length Nat.sub]. f_equal. apply IH.
      cbn in Hk. lia.
Qed.

Lemma substring_tail_length (s : string) :
  forall k : nat,
    (k <= String.length s)%nat ->
    String.length (substring k (String.length s - k) s) = (String.length s - k)%nat.
Proof.
  induction s as [| c s IH]; intros k Hk.
  - destruct k; reflexivity.
  - destruct k as [| k].
    + rewrite Nat.sub_0_r, substring_0_length. reflexivity.
    + cbn [substring String.length Nat.sub]. apply IH. cbn in Hk. lia.
Qed.

(** The extension is a tail of the path. *)
Lemma Ext_loop_tail (path : string) :
  forall i : nat,
    (i <= String.length path)%nat ->
    exists k, (k <= String.length path)%nat /\
              Ext_loop path i = substring k (String.length path - k) path.
Proof.
  assert (Hempty : exists k, (k <= String.length path)%nat /\
                     "" = substring k (String.length path - k) path).
  { exists (String.length path). split; [lia |]. rewrite Nat.sub_diag.
    clear. induction path as [| c p IH]; [reflexivity | exact IH]. }
  induction i as [| j IH]; intros Hi; cbn [Ext_loop]; [exact Hempty |].
  destruct (String.get j path) as [c |]; [| exact Hempty].
  destruct (IsPathSeparator c); [exact Hempty |].
  destruct (Ascii.eqb c "."); [exists j; split; [lia | reflexivity] |].
  apply IH. lia.
Qed.

Lemma TrimSuffix_Ext (path : string) :
  (TrimSuffix path (Ext path) ++ Ext path)%string = path.
Proof.
  destruct (Ext_loop_tail path (String.length path) (le_n _)) as (k & Hk & Heq).
  fold (Ext path) in Heq. rewrite Heq.
  unfold TrimSuffix, HasSuffix. rewrite substring_tail_length by exact Hk.
  replace (String.length path - (String.length path - k))%nat with k by lia.
  replace (String.length path - k <=? String.length path)%nat with true
    by (symmetry; apply Nat.leb_le; lia).
  rewrite String.eqb_refl. cbn [andb]. apply substring_split. exact Hk.
Qed.

Lemma startLogger_error_status (s : State) :
  fst (startLogger s) <> None ->
  status (this (snd (startLogger s))) = status (this s).
Proof.
  intros Herr.
  destruct (os_OpenFile (Filename (this s)) (Z.lor (Z.lor O_WRONLY O_APPEND) O_CREATE)
              (Perm (this s)) (world (sys s))) as [[file | e] wd'] eqn:Hopen.
  - destruct (startLogger_after_open s file wd' Hopen) as (_ & _ & H & _). auto.
  - rewrite (startLogger_open_fails s e wd' Hopen). reflexivity.
Qed.

(** The names the constructor derives, and the backend it starts. *)
Lemma NewDefaultFileBackend_names (filename : string) (asyncLen : list Z) (sy : Sys) :
  filename <> "" ->
  exists s0 : State,
    fileNameOnly (this s0) = TrimSuffix filename (Ext filename) /\
    suffix (this s0) = (if String.eqb (Ext filename) "" then ".log" else Ext filename) /\
    status (this s0) = 0 /\
    NewDefaultFileBackend filename asyncLen sy =
      ((Some (this (snd (startLogger s0))), fst (startLogger s0)),
       sys (snd (startLogger s0))).
Proof.
  intros Hname.
  assert (Hz : (slen filename =? 0) = false).
  { destruct (slen filename =? 0) eqn:E; [| reflexivity].
    apply slen_zero in E. contradiction. }
  unfold NewDefaultFileBackend. rewrite Hz. cbv zeta.
  match goal with
  | |- context [bind (Stat ?p) _ (mkState ?w sy)] =>
      destruct (ensure_dir_then_start w p sy) as (s0 & Hthis & Heq)
  end.
  rewrite !Heq. exists s0. rewrite Hthis. clear Heq Hthis.
  destruct asyncLen as [| c rest]; [| destruct (c >? 0)];
    cbn [set_names set_chans Filename suffix fileNameOnly];
    destruct (String.eqb (Ext filename) ""); cbn; auto.
Qed.

(** X10. The constructor splits the filename into a base and its
    extension: base and extension put together give the filename back.
    The suffix of the backend is the extension, or .log when the
    filename has none, and is never empty. *)
Theorem NewDefaultFileBackend_splits_name (filename : string) (asyncLen : list Z)
    (sy : Sys) (Hname : filename <> "") :
  exists w : FileBackend,
    fst (fst (NewDefaultFileBackend filename asyncLen sy)) = Some w /\
    (fileNameOnly w ++ Ext filename)%string = filename /\
    (Ext filename <> "" -> suffix w = Ext filename) /\
    (Ext filename = "" -> suffix w = ".log" /\ fileNameOnly w = filename) /\
    suffix w <> "".
Proof.
  destruct (NewDefaultFileBackend_names filename asyncLen sy Hname)
    as (s0 & Hbase & Hsuf & _ & Heq).
  exists (this (snd (startLogger s0))). rewrite Heq. split; [reflexivity |].
  destruct (startLogger_frame s0) as (Hcfg & _).
  unfold same_config in Hcfg.
  destruct Hcfg as (_ & _ & _ & _ & _ & _ & _ & E1 & E2).
  rewrite E1, E2, Hbase, Hsuf.
  split; [apply TrimSuffix_Ext |].
  destruct (String.eqb_spec (Ext filename) "") as [E | E].
  - split; [contradiction |]. split; [| discriminate].
    intros _. split; [reflexivity |].
    pose proof (TrimSuffix_Ext filename) as H. rewrite E in *.
    rewrite append_empty_r in H. exact H.
  - split; [reflexivity |]. split; [contradiction | exact E].
Qed.

(** X11. A constructor that returns an error returns a backend that is
    closed: [Close] and [Log] on it do nothing, so a file that the
    constructor opened before failing is never synced or closed. *)
Theorem NewDefaultFileBackend_failed_is_closed (filename : string)
    (asyncLen : list Z) (sy sy' : Sys) (w : FileBackend) (e : error)
    (Hfail : NewDefaultFileBackend filename asyncLen sy = ((Some w, Some e), sy')) :
  status w = 0 /\
  Close (mkState w sy') = Done (mkState w sy') /\
  forall (calldepth : Z) (rec : Record_),
    Log calldepth rec (mkState w sy') = Done (mkState w sy').
Proof.
  assert (Hname : filename <> "").
  { intros ->. discriminate Hfail. }
  destruct (NewDefaultFileBackend_names filename asyncLen sy Hname)
    as (s0 & _ & _ & Hst & Heq).
  rewrite Heq in Hfail. injection Hfail as Hw Herr Hsy.
  assert (Hstatus : status w = 0).
  { rewrite <- Hw, startLogger_error_status by (rewrite Herr; discriminate).
    exact Hst. }
  split; [exact Hstatus |]. split.
  - apply Close_closed. exact Hstatus.
  - intros calldepth rec. unfold Log. cbn [this]. rewrite Hstatus. reflexivity.
Qed.


Lemma append_cancel_l (a x y : string) : (a ++ x)%string = (a ++ y)%string -> x = y.
Proof.
  induction a as [| c a IH]; cbn; [auto |].
  intros H. injection H as H. auto.
Qed.

Lemma append_same_length (a b x y : string) :
  String.length a = String.length b ->
  (a ++ x)%string = (b ++ y)%string -> a = b.
Proof.
  revert b. induction a as [| c a IH]; intros [| d b] Hlen H;
    try reflexivity; try discriminate Hlen.
  cbn in H. injection H as -> H. f_equal. apply IH; [| exact H].
  cbn in Hlen. lia.
Qed.

(** Reading back the three digits of an index gives the index. *)
Lemma parse_pad_dec_3 (n : Z) :
  1 <= n <= maxFileIndex -> parse_dec (pad_dec 3 n) = n.
Proof.
  intros Hn.
  assert (Hall : forallb (fun k => parse_dec (pad_dec 3 (Z.of_nat k)) =? Z.of_nat k)
                         (seq 1 999) = true) by (vm_compute; reflexivity).
  rewrite forallb_forall in Hall.
  specialize (Hall (Z.to_nat n)).
  rewrite Z2Nat.id in Hall by lia.
  apply Z.eqb_eq, Hall, in_seq. unfold maxFileIndex in Hn. lia.
Qed.

(** X12. Two indices between 1 and 999 give two archive names: for one
    date stamp the names the probe loop tries are all different. *)
Theorem archiveName_injective (w : FileBackend) (modTime : Time) (n m : Z)
    (Hn : 1 <= n <= 999) (Hm : 1 <= m <= 999)
    (Hneq : n <> m) :
  archiveName w modTime n <> archiveName w modTime m.
Proof.
  intros Heq. apply Hneq.
  unfold archiveName in Heq.
  do 4 apply append_cancel_l in Heq.
  apply append_same_length in Heq;
    [| rewrite !pad_dec_3_length by (unfold maxFileIndex; lia); reflexivity].
  rewrite <- (parse_pad_dec_3 n), <- (parse_pad_dec_3 m), Heq
    by (unfold maxFileIndex; lia).
  reflexivity.
Qed.

(** ** The sweep as a whole *)

Lemma deleteOldLog_fn_sweeps (w : FileBackend)
    (visits : list (string * option FileInfo))
    (path : string) (info : option FileInfo) (st : State) :
  this st = w -> In (path, info) visits ->
  exists added,
    effects (sys (snd (deleteOldLog_fn path info st))) = effects (sys st) ++ added /\
    this (snd (deleteOldLog_fn path info st)) = w /\
    Forall (sweep_effect w visits) added.
Proof.
  intros Hthis Hin. unfold deleteOldLog_fn, deleteOldLog_body. run.
  destruct info as [i |]; cbn.
  - destruct (fi_IsDir i) eqn:Edir; cbn.
    + exists []. rewrite app_nil_r. auto.
    + destruct (time_Now (world (sys st))) as [now wd1].
      cbn [fst snd this sys world effects]. rewrite Hthis.
      destruct (Unix (fi_ModTime i) <? _); cbn;
        [| exists []; rewrite app_nil_r; auto].
      destruct (HasPrefix (Base path) (fileNameOnly w)) eqn:Ep;
        destruct (HasSuffix (Base path) (suffix w)) eqn:Es; cbn;
        try (exists []; rewrite app_nil_r; auto; fail).
      exists [ERemove path]. split; [reflexivity |]. split; [reflexivity |].
      constructor; [| constructor]. left. exists path, i. auto.
  - eexists. split; [reflexivity |]. split; [exact Hthis |].
    constructor; [| constructor]. right. eexists _, _. split; [reflexivity | exact Hin].
Qed.

Lemma Walk_visits_sweeps (w : FileBackend)
    (visits : list (string * option FileInfo)) :
  forall (l : list (string * option FileInfo)) (st : State),
    incl l visits -> this st = w ->
    exists added,
      effects (sys (snd (Walk_visits deleteOldLog_fn l st))) = effects (sys st) ++ added /\
      this (snd (Walk_visits deleteOldLog_fn l st)) = w /\
      Forall (sweep_effect w visits) added.
Proof.
  induction l as [| [path info] rest IH]; intros st Hincl Hthis; cbn [Walk_visits].
  - exists []. rewrite app_nil_r. auto.
  - unfold bind.
    pose proof (deleteOldLog_fn_nil path info st) as Hnil.
    destruct (deleteOldLog_fn_sweeps w visits path info st Hthis
                (Hincl _ (or_introl eq_refl))) as (a1 & He1 & Hw1 & Hf1).
    destruct (deleteOldLog_fn path info st) as [err s1]. cbn [fst snd] in *.
    subst err.
    destruct (IH s1 (fun x Hx => Hincl x (or_intror Hx)) Hw1) as (a2 & He2 & Hw2 & Hf2).
    exists (a1 ++ a2). rewrite He2, He1, <- app_assoc.
    split; [reflexivity |]. split; [exact Hw2 |].
    apply Forall_app. auto.
Qed.

(** X13. Whatever the clock, the ages and the retention window, the
    sweep does nothing but remove and report: every effect of a sweep is
    the removal of a visited entry that is not a directory and whose
    base name starts with [fileNameOnly] and ends with [suffix], or the
    report of a visit that came without file information.  The backend
    is not changed. *)
Theorem deleteOldLog_only_sweeps (s : State) :
  let visits := filepath_Walk_visits (filepath_Dir (Filename (this s)))
                  (world (sys s)) in
  exists added,
    effects (sys (snd (deleteOldLog s))) = effects (sys s) ++ added /\
    this (snd (deleteOldLog s)) = this s /\
    Forall (sweep_effect (this s) visits) added.
Proof.
  intros visits. unfold deleteOldLog, Walk. run. fold visits.
  destruct (Walk_visits_sweeps (this s) visits visits s (incl_refl _) eq_refl)
    as (added & He & Hw & Hf).
  destruct (Walk_visits deleteOldLog_fn visits s) as [err s1]. cbn [snd] in *.
  exists added. auto.
Qed.

(** ** Plain text and the color pattern *)

(** X14. A rendering without an escape byte goes through the stripping
    unchanged. *)
Theorem strip_without_escape (s : list byte) (Hplain : ~ In bESC s) :
  colorRegexp_ReplaceAll_empty s = s.
Proof.
  induction s as [| b s IH]; [reflexivity |].
  rewrite strip_keep.
  - f_equal. apply IH. intros H. apply Hplain. right. exact H.
  - intros c t Hc Heq. apply Hplain. left.
    destruct Hc; cbn in Heq; injection Heq as -> _; reflexivity.
Qed.

(** ** [initFd] *)

(** X15. [initFd] sets the byte counter to the size that [Stat] reports
    and the opened day to the day the clock shows.  For a size that is
    not above zero the line counter is zero and the file is not read.
    For a size above zero the file is read through [lines]: when the
    reads end without an error, the line counter is the number of
    newline bytes read and [initFd] returns nil; when a read fails, the
    line counter is zero and the error is returned. *)
Theorem initFd_counters (s : State) (f : File) (fi : FileInfo)
    (Hfile : fileWriter (this s) = Some f)
    (Hstat : File_Stat f (world (sys s)) = inl fi) :
  let s' := snd (initFd s) in
  maxSizeCurSize (this s') = fi_Size fi /\
  dailyOpenDate (this s') = Day (fst (time_Now (world (sys s)))) /\
  (fi_Size fi <= 0 ->
   fst (initFd s) = None /\ maxLinesCurLines (this s') = 0 /\
   effects (sys s') = effects (sys s)) /\
  (fi_Size fi > 0 ->
   forall (fd : File) (rs : ReadStream) (wd2 : World),
     os_Open (Filename (this s)) (snd (time_Now (world (sys s)))) = (inl (fd, rs), wd2) ->
     len (stream_content rs) <= max_int ->
     fst (initFd s) = stream_error rs /\
     maxLinesCurLines (this s') =
       match stream_error rs with
       | None => bytes_Count_nl (stream_content rs)
       | Some _ => 0
       end).
Proof.
  unfold initFd. run. rewrite Hfile. unfold fd_Stat, ask.
  cbn [fst snd this sys world effects]. rewrite Hstat.
  destruct (time_Now (world (sys s))) as [now wd1].
  cbn [fst snd this sys world effects].
  destruct (Z.gtb_spec (fi_Size fi) 0) as [Hpos | Hnon].
  - set (s1 := mkState _ _).
    assert (Hl : forall fd rs wd2,
               os_Open (Filename (this s)) wd1 = (inl (fd, rs), wd2) ->
               len (stream_content rs) <= max_int ->
               fst (lines s1) = (bytes_Count_nl (stream_content rs), stream_error rs)).
    { intros fd rs wd2 Hopen Hlen. unfold lines. run. unfold act, fd_Close, act_, act.
      subst s1. cbn [fst snd this sys world effects set_maxLinesCurLines
                     set_dailyOpenDate set_maxSizeCurSize Filename].
      rewrite Hopen. cbn [fst snd].
      rewrite lines_loop_content by (try lia; exact Hlen). reflexivity. }
    destruct (lines_open_close s1) as [Hthis _].
    destruct (lines s1) as [[count err] s2]. cbn [fst snd] in *.
    assert (Hfields : maxSizeCurSize (this s2) = fi_Size fi /\
                      dailyOpenDate (this s2) = Day now /\
                      maxLinesCurLines (this s2) = 0)
      by (rewrite Hthis; subst s1; cbn; auto).
    destruct Hfields as (F1 & F2 & F3).
    destruct err as [e |]; cbn [fst snd this sys];
      (split; [exact F1 |]); (split; [exact F2 |]); (split; [intros; lia |]);
      intros _ fd rs wd2 Hopen Hlen;
      specialize (Hl fd rs wd2 Hopen Hlen); injection Hl as Hc He; rewrite <- He.
    + split; [reflexivity | exact F3].
    + split; [reflexivity | cbn; exact Hc].
  - cbn. split; [reflexivity |]. split; [reflexivity |].
    split; [auto | intros; lia].
Qed.


(** ** Rotation that succeeds *)

Lemma consumers_started_closing (fd : option File) :
  consumers_started (closing fd) = O /\ written (closing fd) = [].
Proof. destruct fd; auto. Qed.

Lemma startLogger_success (s : State) :
  fst (startLogger s) = None ->
  status (this (snd (startLogger s))) = 1 /\
  (exists file, fileWriter (this (snd (startLogger s))) = Some file) /\
  exists added,
    effects (sys (snd (startLogger s))) = effects (sys s) ++ added /\
    written added = [] /\
    consumers_started added =
      match asyncMsgChan (this s) with Some _ => 1%nat | None => O end.
Proof.
  intros Hok.
  destruct (os_OpenFile (Filename (this s)) (Z.lor (Z.lor O_WRONLY O_APPEND) O_CREATE)
              (Perm (this s)) (world (sys s))) as [[file | e] wd'] eqn:Hopen.
  - destruct (startLogger_after_open s file wd' Hopen)
      as (Hfw & Hst & _ & _ & _ & tail & Heff & Hwr & Hone & Hle).
    split; [auto |]. split; [exists file; exact Hfw |].
    eexists. split; [exact Heff |].
    destruct (consumers_started_closing (fileWriter (this s))) as [Hc0 Hw0].
    change (EOpenFile ?a ?b ?c :: ?l) with ([EOpenFile a b c] ++ l).
    rewrite !written_app, !consumers_started_app, Hwr, Hc0, Hw0.
    split; [reflexivity |]. cbn.
    destruct (asyncMsgChan (this s)) as [ch |].
    + apply Hone. split; [exact Hok | discriminate].
    + destruct (consumers_started tail) as [| [| k]]; [reflexivity | | lia].
      exfalso. destruct Hone as [H _]. destruct (H eq_refl) as [_ Hn]. now apply Hn.
  - rewrite (startLogger_open_fails s e wd' Hopen) in Hok. discriminate Hok.
Qed.

Lemma doRotate_from_success (mt : Time) (s : State) :
  fst (doRotate_from mt s) = None ->
  let w := this s in
  let s' := snd (doRotate_from mt s) in
  exists (fName : string) (file : File) (wd' : World) (tail : list Effect),
    let rn := Rename (Filename w) fName (snd (fd_Close (fileWriter w) s)) in
    fst rn = None /\
    os_OpenFile (Filename w) (Z.lor (Z.lor O_WRONLY O_APPEND) O_CREATE) (Perm w)
                (world (sys (snd rn))) = (inl file, wd') /\
    fileWriter (this s') = Some file /\
    status (this s') = 1 /\
    effects (sys s') =
      effects (sys s) ++ closing (fileWriter w) ++
      ERename (Filename w) fName ::
      EOpenFile (Filename w) (Z.lor (Z.lor O_WRONLY O_APPEND) O_CREATE) (Perm w) ::
      closing (fileWriter w) ++ tail ++ [EGo GoDeleteOldLog] /\
    written tail = [] /\
    consumers_started tail =
      match asyncMsgChan w with Some _ => 1%nat | None => O end.
Proof.
  intros Hok w s'. subst s'. revert Hok.
  remember (doRotate_from mt s) as r eqn:Hr. revert Hr.
  unfold doRotate_from. unfold bind at 1. unfold get_this at 1. unfold bind at 1.
  pose proof (probe_state (this s) mt s (Z.to_nat maxFileIndex) 1 "" None) as Hp.
  destruct (probe (Z.to_nat maxFileIndex) (this s) mt 1 "" None s) as [[fName err] s0].
  cbn [snd fst] in *. subst s0.
  destruct err as [e |]; [| intros -> H; discriminate H].
  unfold bind. fold w.
  pose proof (fd_Close_frame (fileWriter w) s) as Hc. cbn zeta in Hc.
  set (s1 := snd (fd_Close (fileWriter w) s)) in *.
  assert (Hs1 : fd_Close (fileWriter w) s = (tt, s1))
    by (subst s1; destruct (fd_Close (fileWriter w) s) as [[] x]; reflexivity).
  rewrite Hs1. destruct Hc as [Hw1 He1].
  assert (Hrn : this (snd (Rename (Filename w) fName s1)) = this s1 /\
                effects (sys (snd (Rename (Filename w) fName s1))) =
                  effects (sys s1) ++ [ERename (Filename w) fName]).
  { unfold Rename, act. destruct (os_Rename _ _ _); cbn. auto. }
  destruct Hrn as [Hw2 He2].
  set (rn := Rename (Filename w) fName s1) in *.
  assert (Hrn : rn = (fst rn, snd rn)) by (destruct rn; reflexivity).
  rewrite Hrn. set (s2 := snd rn) in *.
  assert (Ht2 : this s2 = w) by (rewrite Hw2; exact Hw1).
  destruct (os_OpenFile (Filename w) (Z.lor (Z.lor O_WRONLY O_APPEND) O_CREATE)
              (Perm w) (world (sys s2))) as [[file | e0] wd'] eqn:Hopen.
  - assert (Hopen' : os_OpenFile (Filename (this s2))
                       (Z.lor (Z.lor O_WRONLY O_APPEND) O_CREATE)
                       (Perm (this s2)) (world (sys s2)) = (inl file, wd'))
      by (rewrite Ht2; exact Hopen).
    destruct (startLogger_after_open s2 file wd' Hopen')
      as (Hfw & Hst & _ & _ & _ & tail & Heff & Hwr & Hone & Hle).
    destruct (startLogger s2) as [startErr s3]. cbn [fst snd] in *.
    unfold go, emit. cbn [fst snd this sys effects world].
    destruct startErr as [e1 |]; [intros -> H; discriminate H |].
    destruct (fst rn) as [e2 |] eqn:Ern; [intros -> H; discriminate H |].
    intros -> _. cbn [fst snd this sys effects].
    exists fName, file, wd', tail.
    split; [exact Ern |]. split; [exact Hopen |]. split; [exact Hfw |].
    split; [apply Hst; reflexivity |].
    rewrite Ht2 in *. fold w in Hone.
    split.
    + rewrite Heff, He2, He1.
      repeat (rewrite <- app_assoc || rewrite <- app_comm_cons). reflexivity.
    + split; [exact Hwr |].
      destruct (asyncMsgChan w) as [ch |].
      * apply Hone. split; [reflexivity | discriminate].
      * destruct (consumers_started tail) as [| [| k]]; [reflexivity | | lia].
        exfalso. destruct Hone as [H _]. destruct (H eq_refl) as [_ Hn]. now apply Hn.
  - assert (Hopen' : os_OpenFile (Filename (this s2))
                       (Z.lor (Z.lor O_WRONLY O_APPEND) O_CREATE)
                       (Perm (this s2)) (world (sys s2)) = (inr e0, wd'))
      by (rewrite Ht2; exact Hopen).
    rewrite (startLogger_open_fails s2 e0 wd' Hopen').
    unfold go, emit. cbn [fst snd]. intros -> H. discriminate H.
Qed.

(** X16. When rotation returns nil, the rename succeeded, the file at
    the original path was opened after it, and the backend is running
    and writes to the file that this [OpenFile] returned.  The effects
    of the rotation are the close of the old file, the rename, the
    opening, a second close of the old file by [startLogger], what
    [initFd] does, and the start of the sweep; nothing is written; and
    when the backend has a message channel, one more consumer goroutine
    is started, beside those already running. *)
Theorem doRotate_success (logTime : Time) (s : State)
    (Hok : fst (doRotate logTime s) = None) :
  let w := this s in
  let s' := snd (doRotate logTime s) in
  exists (fName : string) (file : File) (wd' : World) (tail : list Effect),
    let rn := Rename (Filename w) fName (snd (fd_Close (fileWriter w) s)) in
    fst rn = None /\
    os_OpenFile (Filename w) (Z.lor (Z.lor O_WRONLY O_APPEND) O_CREATE) (Perm w)
                (world (sys (snd rn))) = (inl file, wd') /\
    fileWriter (this s') = Some file /\
    status (this s') = 1 /\
    effects (sys s') =
      effects (sys s) ++ closing (fileWriter w) ++
      ERename (Filename w) fName ::
      EOpenFile (Filename w) (Z.lor (Z.lor O_WRONLY O_APPEND) O_CREATE) (Perm w) ::
      closing (fileWriter w) ++ tail ++ [EGo GoDeleteOldLog] /\
    written tail = [] /\
    consumers_started tail =
      match asyncMsgChan w with Some _ => 1%nat | None => O end.
Proof.
  destruct (os_Lstat (Filename (this s)) (world (sys s))) as [info | e] eqn:E.
  - rewrite (doRotate_stamp logTime s info E) in *.
    apply doRotate_from_success. exact Hok.
  - revert Hok. unfold doRotate. run. unfold Lstat, ask. cbn [fst snd]. rewrite E.
    discriminate.
Qed.

(** ** The directory of the log file *)

(** X17. With a filename, the constructor first looks at the directory
    part of the filename: when [Stat] finds a directory there it creates
    nothing, and otherwise it calls [MkdirAll] on it once, with mode
    0777.  In both cases the next call is the opening of the log file,
    with the append, create and write-only flags and mode 0660. *)
Theorem NewDefaultFileBackend_directory (filename : string) (asyncLen : list Z)
    (sy : Sys) (Hname : filename <> "") :
  let p := fst (Split filename) in
  let mkdir :=
    match os_Stat p (world sy) with
    | inl d => if fi_IsDir d then [] else [EMkdirAll p (7 * 8 ^ 2 + 7 * 8 + 7)]
    | inr _ => [EMkdirAll p (7 * 8 ^ 2 + 7 * 8 + 7)]
    end in
  exists tail,
    effects (snd (NewDefaultFileBackend filename asyncLen sy)) =
      effects sy ++ mkdir ++
      EOpenFile filename (Z.lor (Z.lor O_WRONLY O_APPEND) O_CREATE)
                (6 * 8 ^ 2 + 6 * 8 + 0) :: tail.
Proof.
  intros p mkdir.
  assert (Hz : (slen filename =? 0) = false).
  { destruct (slen filename =? 0) eqn:E; [| reflexivity].
    apply slen_zero in E. contradiction. }
  unfold NewDefaultFileBackend. rewrite Hz. cbv zeta. cbn [snd].
  match goal with
  | |- context [bind (Stat ?q) _ (mkState ?w sy)] => set (w0 := w)
  end.
  assert (Hf : Filename w0 = filename /\ Perm w0 = perm_0660).
  { subst w0. destruct asyncLen as [| c rest]; [| destruct (c >? 0)];
      cbn [set_names set_chans Filename suffix fileNameOnly];
      destruct (String.eqb (Ext filename) ""); cbn; auto. }
  destruct Hf as [Hfn Hperm].
  assert (Hp : fst (Split (Filename w0)) = p).
  { subst p. subst w0. destruct asyncLen as [| c rest]; [| destruct (c >? 0)];
      cbn [set_names set_chans Filename suffix fileNameOnly];
      destruct (String.eqb (Ext filename) ""); reflexivity. }
  rewrite Hp.
  unfold bind at 1. unfold Stat, ask. cbn [fst snd this sys world].
  assert (Hdir : exists s0,
            this s0 = w0 /\ effects (sys s0) = effects sy ++ mkdir /\
            forall k : unit -> M (option error),
              bind match os_Stat p (world sy) with
                   | inl d => when (negb (fi_IsDir d)) (MkdirAll p perm_0777)
                   | inr _ => MkdirAll p perm_0777
                   end k (mkState w0 sy) = k tt s0).
  { subst mkdir. unfold bind, when, MkdirAll, act_, act, ret.
    destruct (os_Stat p (world sy)) as [d | e]; [destruct (fi_IsDir d) |];
      cbn [negb fst snd this sys world effects];
      eexists; (split; [| split; [| intros k; reflexivity]]);
      cbn [this sys effects]; try reflexivity.
    rewrite app_nil_r. reflexivity. }
  destruct Hdir as (s0 & Hthis & Heff & Hk).
  rewrite Hk.
  destruct (startLogger_frame s0) as (_ & _ & tail & Hs & _).
  exists tail. rewrite Hs, Heff, Hthis, Hfn, Hperm, <- app_assoc. reflexivity.
Qed.

End Properties.

(** * Concrete runs on the scripted system *)

(** C6. A record whose rendering is empty, or is nothing but a color
    sequence, makes [Log] panic on a running backend: no terminator is
    appended and nothing is written. *)
Theorem Log_empty_rendering_panics :
  status (this (state_of app_backend calm)) = 1 /\
  colorRegexp_ReplaceAll_empty (list_byte_of_string reset_color) = [] /\
  Log 0 (record_of "" day1) (state_of app_backend calm)
    = Panic "index out of range" /\
  Log 0 (record_of reset_color day1) (state_of app_backend calm)
    = Panic "index out of range".
Proof. repeat split. Qed.

(** A rendering that is not empty is stripped, terminated and written. *)
Example Log_written_message :
  exists s' : @State scripted,
    Log 0 (record_of (reset_color ++ "hi") day1) (state_of app_backend calm) = Done s' /\
    effects (sys s') = [@EWrite scripted 3%nat [x68; x69; x0a]].
Proof. eexists. split; reflexivity. Qed.

(** A [Filename] with a directory part: the base name of an entry never
    starts with [fileNameOnly], which carries the directory. *)
Example sweep_with_directory_part :
  HasPrefix (Base "logs/app.2024-02-01.001.log") (fileNameOnly app_backend) = false.
Proof. reflexivity. Qed.

Lemma doRotate_archive_name_witness :
  String.length (pad_dec 3 2) = 3%nat /\
  exists tail,
    effects (sys (snd (doRotate day2 (state_of app_backend calm)))) =
      [@EClose scripted 3%nat; ERename "logs/app.log" "logs/app.2024-03-01.002.log"] ++ tail /\
    no_rename tail.
Proof.
  assert (Hp : os_Lstat (Filename (this (state_of app_backend calm)))
                 (world (sys (state_of app_backend calm))) = inl (regular 200 day1))
    by reflexivity.
  assert (Hs : (Daily (this (state_of app_backend calm)) = true /\
                Day day2 <> dailyOpenDate (this (state_of app_backend calm)) /\
                day1 = fi_ModTime (regular 200 day1)) \/
               (~ (Daily (this (state_of app_backend calm)) = true /\
                   Day day2 <> dailyOpenDate (this (state_of app_backend calm))) /\
                day1 = day2)).
  { left. split; [reflexivity |]. split; [discriminate | reflexivity]. }
  destruct (@doRotate_archive_name scripted day2 (state_of app_backend calm)
              (regular 200 day1) day1 Hp Hs) as [Hfound _].
  apply (Hfound 2).
  - lia.
  - exists "no such file or directory". reflexivity.
  - intros m Hm. assert (m = 1) as -> by lia.
    exists (regular 50 day1). reflexivity.
Defined.

Lemma doRotate_reopens_and_reports_witness :
  fst (doRotate day2 (state_of app_backend hostile)) =
    Some ("Rotate StartLogger: open refused" ++ nl)%string.
Proof.
  assert (Hp : os_Lstat (Filename (this (state_of app_backend hostile)))
                 (world (sys (state_of app_backend hostile))) = inl (regular 200 day1))
    by reflexivity.
  assert (Hn : 1 <= 2 <= 999) by lia.
  pose proof (@doRotate_reopens_and_reports scripted day2 (state_of app_backend hostile)
                (regular 200 day1) 2 Hp Hn) as H.
  cbv zeta in H.
  apply H.
  - exists "no such file or directory". reflexivity.
  - intros m Hm. assert (m = 1) as -> by lia.
    exists (regular 50 day1). reflexivity.
Defined.

(** When the rename and the reopening both fail, the error reported is
    that of the reopening, not that of the rename. *)
Lemma doRotate_both_fail_reports_reopen :
  let s := state_of app_backend hostile in
  let rn := Rename "logs/app.log" "logs/app.2024-03-01.002.log"
              (snd (fd_Close (fileWriter (this s)) s)) in
  fst rn = Some "rename refused" /\
  fst (startLogger (snd rn)) = Some "open refused" /\
  fst (doRotate day2 s) = Some ("Rotate StartLogger: open refused" ++ nl)%string /\
  fst (doRotate day2 s) <> Some ("Rotate: rename refused" ++ nl)%string.
Proof.
  cbv zeta. split; [reflexivity |]. split; [reflexivity |]. split; [reflexivity |].
  vm_compute. discriminate.
Qed.

Lemma write_counters_witness :
  maxLinesCurLines (this (snd (write [x61; x0a] (state_of app_backend calm)))) = 11 /\
  maxSizeCurSize (this (snd (write [x61; x0a] (state_of app_backend calm)))) = 202.
Proof.
  assert (Hl : min_int <= maxLinesCurLines (this (state_of app_backend calm)) < max_int)
    by (unfold min_int, max_int; cbn; lia).
  assert (Hs : min_int <= maxSizeCurSize (this (state_of app_backend calm)) /\
               maxSizeCurSize (this (state_of app_backend calm)) + len [x61; x0a]
               <= max_int)
    by (unfold min_int, max_int; cbn; lia).
  destruct (@write_counters scripted [x61; x0a] (state_of app_backend calm) Hl Hs)
    as (_ & Ha & Hb & _).
  split; [exact Ha | exact Hb].
Defined.

Lemma deleteOldLog_sweep_witness :
  exists added,
    effects (sys (snd (deleteOldLog_fn "app.2024-02-01.001.log" (Some (regular 50 feb1))
                         (state_of cwd_backend sweep_script)))) = [] ++ added /\
    In (ERemove "app.2024-02-01.001.log") added.
Proof.
  assert (Hd : min_int <=
               60 * 60 * 24 * MaxDays (this (state_of cwd_backend sweep_script))
               <= max_int)
    by (unfold min_int, max_int; cbn; lia).
  destruct (@deleteOldLog_sweep scripted (state_of cwd_backend sweep_script) Hd)
    as [_ Hvisit].
  destruct (Hvisit (state_of cwd_backend sweep_script) "app.2024-02-01.001.log"
              (Some (regular 50 feb1)) eq_refl)
    as (_ & _ & added & Heff & Hiff & _).
  - unfold min_int, max_int. cbn. lia.
  - exists added. split; [exact Heff |].
    apply Hiff. cbn. repeat split.
Defined.

Lemma Close_idempotent_witness :
  exists s1,
    Close (state_of async_backend calm) = Done s1 /\
    status (this s1) = 0 /\
    Close s1 = Done s1.
Proof.
  assert (Hr : status (this (state_of async_backend calm)) = 1) by reflexivity.
  assert (Hc : chans_open (this (state_of async_backend calm))).
  { right. eexists. split; [reflexivity |]. split; reflexivity. }
  destruct (@Close_idempotent scripted (state_of async_backend calm) Hr Hc)
    as (s1 & H1 & H2 & _ & _ & H3 & _).
  exists s1. split; [exact H1 |]. split; [exact H2 | exact H3].
Defined.

Lemma Log_last_byte_witness :
  (exists front last,
     colorRegexp_ReplaceAll_empty (list_byte_of_string "hi") = front ++ [last] /\
     index (colorRegexp_ReplaceAll_empty (list_byte_of_string "hi"))
       (int_sub (len (colorRegexp_ReplaceAll_empty (list_byte_of_string "hi"))) 1)
     = Some last) /\
  Log 0 (record_of reset_color day1) (state_of app_backend calm)
    = Panic "index out of range".
Proof.
  assert (Hr : status (this (state_of app_backend calm)) <> 0) by discriminate.
  split.
  - assert (Hl : len (list_byte_of_string (Formatted (record_of "hi" day1) (int_add 0 1) false))
                 <= max_int) by (vm_compute; discriminate).
    destruct (@Log_last_byte scripted 0 (record_of "hi" day1) (state_of app_backend calm)
                Hr Hl) as (Hin & _).
    destruct Hin as (front & last & H1 & H2 & _); [discriminate |].
    exists front, last. split; [exact H1 | exact H2].
  - assert (Hl : len (list_byte_of_string
                        (Formatted (record_of reset_color day1) (int_add 0 1) false))
                 <= max_int) by (vm_compute; discriminate).
    destruct (@Log_last_byte scripted 0 (record_of reset_color day1)
                (state_of app_backend calm) Hr Hl) as (_ & Hout & _).
    apply Hout. reflexivity.
Defined.

Lemma NewDefaultFileBackend_defaults_witness :
  exists w : @FileBackend scripted,
    fst (fst (NewDefaultFileBackend "logs/app.log" [5] (@mkSys scripted calm []))) = Some w /\
    MaxLines w = 1000000 /\ Perm w = 432 /\ asyncMsgChan w <> None.
Proof.
  assert (Hname : "logs/app.log" <> "") by discriminate.
  destruct (@NewDefaultFileBackend_defaults scripted "logs/app.log" [5]
              (@mkSys scripted calm []) Hname)
    as (s0 & w & _ & Heq & _ & _ & Hml & _ & _ & _ & _ & Hp & Hc & _).
  exists w. split; [rewrite Heq; reflexivity |].
  split; [exact Hml |]. split; [exact Hp |].
  apply Hc. exists 5, []. split; [reflexivity | lia].
Defined.

Lemma NewDefaultFileBackend_nil_iff_witness :
  fst (fst (NewDefaultFileBackend "logs/app.log" [] (@mkSys scripted hostile []))) <> None /\
  snd (fst (NewDefaultFileBackend "logs/app.log" [] (@mkSys scripted hostile [])))
    = Some "open refused" /\
  fst (NewDefaultFileBackend "" [] (@mkSys scripted hostile []))
    = (None, Some "FileBackend must have filename").
Proof.
  destruct (@NewDefaultFileBackend_nil_iff scripted "logs/app.log" []
              (@mkSys scripted hostile [])) as ([Hnil _] & _ & _).
  split; [intros H; apply Hnil in H; discriminate H |].
  split; reflexivity.
Defined.

(** * Concrete runs of the further properties *)

Lemma lines_counts_newlines_witness :
  fst (lines (state_of app_backend grown)) = (2, None).
Proof.
  assert (Hopen : os_Open (Filename (this (state_of app_backend grown)))
                    (world (sys (state_of app_backend grown)))
                  = (inl (4%nat, two_chunks), grown)) by reflexivity.
  assert (Hlen : len (stream_content two_chunks) <= max_int)
    by (vm_compute; discriminate).
  destruct (@lines_counts_newlines scripted (state_of app_backend grown) 4%nat
              two_chunks grown Hopen Hlen) as (H & _).
  exact H.
Defined.

Lemma startLogger_opened_witness :
  fileWriter (this (snd (startLogger (state_of async_backend calm)))) = Some 3%nat /\
  status (this (snd (startLogger (state_of async_backend calm)))) = 1.
Proof.
  assert (Hopen : os_OpenFile (Filename (this (state_of async_backend calm)))
                    (Z.lor (Z.lor O_WRONLY O_APPEND) O_CREATE)
                    (Perm (this (state_of async_backend calm)))
                    (world (sys (state_of async_backend calm)))
                  = (inl 3%nat, calm)) by reflexivity.
  destruct (@startLogger_opened scripted (state_of async_backend calm) 3%nat calm Hopen)
    as (Hfw & Hst & _).
  split; [exact Hfw | apply Hst; reflexivity].
Defined.

Lemma Log_writes_once_witness :
  exists s' added out,
    Log 0 (record_of "hi" day2) (state_of app_backend calm) = Done s' /\
    effects (sys s') = effects (sys (state_of app_backend calm)) ++ added /\
    written added = [out] /\
    exists front, out = front ++ [bNL].
Proof.
  assert (Hrun : status (this (state_of app_backend calm)) <> 0) by discriminate.
  assert (Hlen : len (list_byte_of_string (Formatted (record_of "hi" day2) (int_add 0 1) false))
                 <= max_int) by (vm_compute; discriminate).
  assert (Hne : colorRegexp_ReplaceAll_empty
                  (list_byte_of_string (Formatted (record_of "hi" day2) (int_add 0 1) false))
                <> []) by discriminate.
  assert (Hfd : fileWriter (this (state_of app_backend calm)) <> None) by discriminate.
  destruct (@Log_writes_once scripted 0 (record_of "hi" day2) (state_of app_backend calm)
              Hrun eq_refl Hfd Hlen Hne)
    as (s' & added & out & H1 & H2 & H3 & H4 & _).
  exists s', added, out. auto.
Defined.

Lemma Log_not_due_is_write_witness :
  Log 0 (record_of "hi" day1) (state_of app_backend calm) =
  Done (snd (write [x68; x69; x0a] (state_of app_backend calm))).
Proof.
  assert (Hrun : status (this (state_of app_backend calm)) <> 0) by discriminate.
  assert (Hlen : len (list_byte_of_string (Formatted (record_of "hi" day1) (int_add 0 1) false))
                 <= max_int) by (vm_compute; discriminate).
  assert (Hne : colorRegexp_ReplaceAll_empty
                  (list_byte_of_string (Formatted (record_of "hi" day1) (int_add 0 1) false))
                <> []) by discriminate.
  apply (@Log_not_due_is_write scripted 0 (record_of "hi" day1)
           (state_of app_backend calm) Hrun eq_refl Hlen Hne).
  right. reflexivity.
Defined.

Lemma Log_after_Close_witness :
  exists s1,
    Close (state_of async_backend calm) = Done s1 /\
    Log 0 (record_of "" day2) s1 = Done s1.
Proof.
  eexists. split; [reflexivity |].
  apply (@Log_after_Close scripted 0 (record_of "" day2) (state_of async_backend calm)).
  reflexivity.
Defined.

Lemma Logs_then_Close_write_in_order_witness :
  exists s1 s2 added,
    Log_all 0 [record_of "hi" day2; record_of "yo" day2; record_of "ok" day2]
      (state_of no_rotation_backend calm) = Done s1 /\
    Close s1 = Done s2 /\
    effects (sys s2) = effects (sys (state_of no_rotation_backend calm)) ++ added /\
    written added =
      [[x61; x0a]; [x62; x0a]; [x68; x69; x0a]; [x79; x6f; x0a]; [x6f; x6b; x0a]].
Proof.
  assert (Hrun : status (this (state_of no_rotation_backend calm)) <> 0) by discriminate.
  assert (Hfd : fileWriter (this (state_of no_rotation_backend calm)) <> None)
    by discriminate.
  assert (Hone : one_consumer (state_of no_rotation_backend calm))
    by (unfold one_consumer; cbn; lia).
  assert (Hrecs : Forall (loggable 0)
                    [record_of "hi" day2; record_of "yo" day2; record_of "ok" day2]).
  { repeat constructor; try (vm_compute; discriminate); discriminate. }
  destruct (@Logs_then_Close_write_in_order scripted 0
              [record_of "hi" day2; record_of "yo" day2; record_of "ok" day2]
              (state_of no_rotation_backend calm)
              (mkMsgChan 2 [[x61; x0a]; [x62; x0a]] false)
              Hrun eq_refl eq_refl eq_refl Hfd eq_refl Hone Hrecs)
    as (s1 & s2 & added & H1 & H2 & H3 & H4 & _).
  exists s1, s2, added. split; [exact H1 |]. split; [exact H2 |].
  split; [exact H3 | exact H4].
Defined.

Lemma doRotate_reopen_refused_witness :
  this (snd (doRotate day2 (state_of app_backend hostile))) = app_backend.
Proof.
  assert (Hp : os_Lstat (Filename (this (state_of app_backend hostile)))
                 (world (sys (state_of app_backend hostile))) = inl (regular 200 day1))
    by reflexivity.
  assert (Hn : 1 <= 2 <= 999) by lia.
  pose proof (@doRotate_reopen_refused scripted day2 (state_of app_backend hostile)
                (regular 200 day1) 2 "open refused" hostile Hp Hn) as H.
  cbv zeta in H.
  apply H.
  - exists "no such file or directory". reflexivity.
  - intros m Hm. assert (m = 1) as -> by lia.
    exists (regular 50 day1). reflexivity.
  - reflexivity.
Defined.

Lemma Log_active_file_missing_witness :
  exists s',
    Log 0 (record_of "hi" day2) (state_of app_backend vanished) = Done s' /\
    effects (sys s') =
      [EStderr (DiagRotate "logs/app.log" "no such file or directory");
       @EWrite scripted 3%nat [x68; x69; x0a]].
Proof.
  assert (Hrun : status (this (state_of app_backend vanished)) <> 0) by discriminate.
  assert (Hlen : len (list_byte_of_string (Formatted (record_of "hi" day2) (int_add 0 1) false))
                 <= max_int) by (vm_compute; discriminate).
  assert (Hne : colorRegexp_ReplaceAll_empty
                  (list_byte_of_string (Formatted (record_of "hi" day2) (int_add 0 1) false))
                <> []) by discriminate.
  eexists. split.
  - apply (@Log_active_file_missing scripted 0 (record_of "hi" day2)
             (state_of app_backend vanished) "no such file or directory"
             Hrun eq_refl Hlen Hne eq_refl eq_refl).
    reflexivity.
  - reflexivity.
Defined.

Lemma write_keeps_rotation_due_witness :
  needRotate (this (snd (write [x61; x0a] (state_of app_backend calm)))) 0 2 = true.
Proof.
  assert (Hl : min_int <= maxLinesCurLines (this (state_of app_backend calm)) < max_int)
    by (unfold min_int, max_int; cbn; lia).
  assert (Hs : min_int <= maxSizeCurSize (this (state_of app_backend calm)) /\
               maxSizeCurSize (this (state_of app_backend calm)) + len [x61; x0a]
               <= max_int)
    by (unfold min_int, max_int; cbn; lia).
  apply (@write_keeps_rotation_due scripted [x61; x0a] (state_of app_backend calm)
           2 0 2 Hl Hs).
  reflexivity.
Defined.

Lemma NewDefaultFileBackend_splits_name_witness :
  exists w : @FileBackend scripted,
    fst (fst (NewDefaultFileBackend "logs/app" [] (@mkSys scripted calm []))) = Some w /\
    fileNameOnly w = "logs/app" /\ suffix w = ".log".
Proof.
  assert (Hname : "logs/app" <> "") by discriminate.
  destruct (@NewDefaultFileBackend_splits_name scripted "logs/app" []
              (@mkSys scripted calm []) Hname) as (w & Hw & _ & _ & Hnone & _).
  exists w. split; [exact Hw |].
  destruct (Hnone eq_refl) as [Hs Hb]. split; [exact Hb | exact Hs].
Defined.

Lemma NewDefaultFileBackend_failed_is_closed_witness :
  exists (w : @FileBackend scripted) (sy' : @Sys scripted),
    NewDefaultFileBackend "logs/app.log" [] (@mkSys scripted hostile [])
      = ((Some w, Some "open refused"), sy') /\
    status w = 0 /\
    Close (mkState w sy') = Done (mkState w sy').
Proof.
  eexists _, _. split; [reflexivity |].
  destruct (@NewDefaultFileBackend_failed_is_closed scripted "logs/app.log" []
              (@mkSys scripted hostile []) _ _ "open refused" eq_refl)
    as (H1 & H2 & _).
  split; [exact H1 | exact H2].
Defined.

Lemma archiveName_injective_witness :
  archiveName app_backend day1 1 <> archiveName app_backend day1 2.
Proof.
  apply (@archiveName_injective scripted app_backend day1 1 2); lia.
Defined.

Lemma strip_without_escape_witness :
  colorRegexp_ReplaceAll_empty [x68; x69; x0a] = [x68; x69; x0a].
Proof.
  apply strip_without_escape. cbn. intros [H | [H | [H | []]]]; discriminate H.
Defined.

Lemma initFd_counters_witness :
  fst (initFd (state_of app_backend grown)) = None /\
  maxSizeCurSize (this (snd (initFd (state_of app_backend grown)))) = 5 /\
  maxLinesCurLines (this (snd (initFd (state_of app_backend grown)))) = 2.
Proof.
  destruct (@initFd_counters scripted (state_of app_backend grown) 3%nat
              (regular 5 day1) eq_refl eq_refl) as (Hsize & _ & _ & Hpos).
  destruct (Hpos ltac:(cbn; lia) 4%nat two_chunks grown eq_refl
              ltac:(vm_compute; discriminate)) as [He Hl].
  split; [exact He |]. split; [exact Hsize | exact Hl].
Defined.

Lemma doRotate_success_witness :
  fileWriter (this (snd (doRotate day2 (state_of async_backend calm)))) = Some 3%nat /\
  status (this (snd (doRotate day2 (state_of async_backend calm)))) = 1 /\
  exists tail : list (@Effect scripted),
    effects (sys (snd (doRotate day2 (state_of async_backend calm)))) =
      [@EClose scripted 3%nat; ERename "logs/app.log" "logs/app.2024-03-01.002.log";
       EOpenFile "logs/app.log" 1089 432; @EClose scripted 3%nat] ++
      tail ++ [EGo GoDeleteOldLog] /\
    consumers_started tail = 1%nat.
Proof.
  destruct (@doRotate_success scripted day2 (state_of async_backend calm) eq_refl)
    as (fName & file & wd' & tail & Hrn & Hopen & Hfw & Hst & He & _ & Hc).
  assert (Hfile : file = 3%nat) by (injection Hopen as <- _; reflexivity).
  assert (Hname : fName = "logs/app.2024-03-01.002.log").
  { cbn in He. injection He as <- _. reflexivity. }
  subst file fName.
  split; [exact Hfw |]. split; [exact Hst |].
  exists tail. split; [exact He | exact Hc].
Defined.

Lemma NewDefaultFileBackend_directory_witness :
  exists tail,
    effects (snd (NewDefaultFileBackend "logs/app.log" [] (@mkSys scripted calm []))) =
      [EMkdirAll "logs/" 511; EOpenFile "logs/app.log" 1089 432] ++ tail.
Proof.
  assert (Hname : "logs/app.log" <> "") by discriminate.
  exact (@NewDefaultFileBackend_directory scripted "logs/app.log" []
           (@mkSys scripted calm []) Hname).
Defined.

(** * The retention window at the edge of the integers *)

(** C5. With [MaxDays] at the largest [int64], the product with the
    seconds of a day wraps to minus one day and the threshold of the
    sweep lies a day after now.  An archive written one second ago is
    not older than now minus [MaxDays] days, and the sweep removes it:
    [Lstat] finds it before the sweep and not after.  The active file,
    as old as now, goes the same way. *)
Theorem deleteOldLog_overflow_removes_fresh :
  let s := keep_forever_state in
  let archive := "app.2024-03-01.001.log" in
  let now := fst (time_Now (world (sys s))) in
  MaxDays (this s) = max_int /\
  os_Lstat archive (world (sys s)) = inl (mkFileInfo 50 just_before_day2 false) /\
  Unix just_before_day2 = Unix now - 1 /\
  ~ Unix just_before_day2 < Unix now - MaxDays (this s) * (24 * 3600) /\
  int_sub (Unix now) (int_mul (60 * 60 * 24) (MaxDays (this s))) =
    Unix now + 60 * 60 * 24 /\
  effects (sys (snd (deleteOldLog s))) = [ERemove "app.log"; ERemove archive] /\
  os_Lstat archive (world (sys (snd (deleteOldLog s)))) =
    inr "no such file or directory" /\
  dk_files (world (sys (snd (deleteOldLog s)))) = [(".", mkFileInfo 4096 day2 true)].
Proof.
  cbv zeta. split; [reflexivity |]. split; [reflexivity |]. split; [reflexivity |].
  split; [vm_compute; discriminate |].
  split; [reflexivity |]. split; [reflexivity |]. split; reflexivity.
Qed.
